(** * Portfolio selection as a constrained quadratic model

    A shallow embedding of [exercise_1.py] and [exercise_3.py].  Both scripts
    build a [ConstrainedQuadraticModel] with the expression builders of the
    [dimod] SDK, hand it to a hybrid sampler and print the sampleset.

    The embedding has three layers:
    - the fragment of [dimod] and of the Python builtins the scripts call
      ([Binary], [+], [*], [==], [sum], [add_constraint], ...), as pure
      functions on values, with Python exceptions as an error result;
    - the scripts' own functions on top of it, one module per script;
    - a store-passing version of [define_cqm] on a heap of Python objects,
      for the questions about mutation and aliasing, together with the proof
      that it computes what the value-level version computes.

    Numbers (Python ints and floats) are exact rationals [Q], and the
    arithmetic of the SDK is exact arithmetic on them.  [dimod] itself keeps
    biases, offsets and right sides as float64: it converts a Python int to
    the nearest float64 (raising [OverflowError] beyond the range), and it
    adds and multiplies with rounding.  The exact model and the code agree
    wherever the code does not round: when the numbers passed in are float64
    numbers (the predicate [float64] below), when a bias is multiplied by 1
    or added to 0, which is all a list of pairwise different binary
    variables asks for, and when small integers are counted.  A theorem
    that depends on the numbers stored states the conditions it needs as
    hypotheses; theorems about variables, labels, the exceptions of the
    scripts' own making and object identity do not depend on them.  The
    energy of a model under an assignment is the number the model denotes
    there, an exact sum.

    Every model the scripts build is linear over binary variables, so
    quadratic terms and other variable types are left out of
    [BinaryQuadraticModel]. *)

From Stdlib Require Import ZArith QArith Qpower Lia.
From stdpp Require Import base list strings sorting.

Local Open Scope Q_scope.
Local Open Scope string_scope.
Local Open Scope list_scope.

(** ** Python exceptions *)

Inductive exn := TypeError | IndexError | KeyError | ValueError | AttributeError.

Inductive result (A : Type) :=
| OK (a : A)
| Raise (e : exn).
Arguments OK {A} a.
Arguments Raise {A} e.

Definition rbind {A B} (c : result A) (f : A -> result B) : result B :=
  match c with
  | OK a => f a
  | Raise e => Raise e
  end.

Notation "'let*' x ':=' c1 'in' c2" := (rbind c1 (fun x => c2))
  (at level 10, x name, c1 at level 100, c2 at level 200).

Fixpoint result_mapM {A B} (f : A -> result B) (xs : list A) : result (list B) :=
  match xs with
  | [] => OK []
  | x :: xs' => let* y := f x in let* ys := result_mapM f xs' in OK (y :: ys)
  end.

(** [l[i]] for [i >= 0]: out of range raises. *)
Definition getitem {A} (l : list A) (i : nat) : result A :=
  match l !! i with
  | Some x => OK x
  | None => Raise IndexError
  end.

(** ** The fragment of dimod the scripts use

    [dimod] is the SDK the scripts import; it is not part of the two files.
    The definitions follow its behaviour on the calls the scripts make:
    models are built by [Binary], [+] and [*]; [model == number] is a
    symbolic comparison; [add_constraint] dispatches on the type of its
    argument and raises [TypeError] on anything that is not a model, a
    comparison or an iterable. *)

Module dimod.

(** A linear model over binary variables: the biases in the order the
    variables were added, and the offset. *)
Record BinaryQuadraticModel := {
  linear : list (string * Q);
  offset : Q
}.

(** [bqm.variables] *)
Definition variables (b : BinaryQuadraticModel) : list string :=
  map fst (linear b).

(** [Binary(label)]: the model [1 * label]. *)
Definition Binary (label : string) : BinaryQuadraticModel :=
  {| linear := [(label, 1)]; offset := 0 |}.

(** [add_linear(v, bias)]: a known variable accumulates, a new one is
    appended.  The sum is exact; the SDK's is a float64 sum, the same
    unless the variable was there already with a bias other than 0. *)
Fixpoint add_linear (v : string) (bias : Q) (l : list (string * Q))
  : list (string * Q) :=
  match l with
  | [] => [(v, bias)]
  | (u, b) :: l' =>
      if String.eqb u v then (u, b + bias) :: l'
      else (u, b) :: add_linear v bias l'
  end.

(** [bqm.update(other)] *)
Definition update (self other : BinaryQuadraticModel) : BinaryQuadraticModel :=
  {| linear := fold_left (fun l vb => add_linear (fst vb) (snd vb) l)
                         (linear other) (linear self);
     offset := offset self + offset other |}.

(** [self + other] for two models: a copy of [self], updated. *)
Definition add (self other : BinaryQuadraticModel) : BinaryQuadraticModel :=
  update self other.

(** [number + self]: a copy of [self] with the number added to the offset. *)
Definition radd (self : BinaryQuadraticModel) (other : Q) : BinaryQuadraticModel :=
  {| linear := linear self; offset := offset self + other |}.

(** [bqm.scale(scalar)].  The products are exact; the SDK's are float64
    products, the same when the bias is 0 or 1, as for [Binary]. *)
Definition scale (self : BinaryQuadraticModel) (scalar : Q) : BinaryQuadraticModel :=
  {| linear := map (fun vb => (fst vb, snd vb * scalar)) (linear self);
     offset := offset self * scalar |}.

(** [self * number]: a scaled copy. *)
Definition mul (self : BinaryQuadraticModel) (other : Q) : BinaryQuadraticModel :=
  scale self other.

Inductive Sense := SenseLe | SenseGe | SenseEq.

(** The symbolic comparison [lhs <sense> rhs]. *)
Record Comparison := {
  lhs : BinaryQuadraticModel;
  sense : Sense;
  rhs : Q
}.

(** What Python's [sum] can hold here: its integer start value, or a
    model. *)
Inductive summand :=
| PyNum (n : Q)
| PyBqm (b : BinaryQuadraticModel).

(** [acc + x] inside [sum]: [int + bqm] falls to [bqm.__radd__]. *)
Definition py_add (acc : summand) (x : BinaryQuadraticModel) : summand :=
  match acc with
  | PyNum n => PyBqm (radd x n)
  | PyBqm a => PyBqm (add a x)
  end.

(** [sum(xs)], starting from the integer [0]. *)
Definition py_sum (xs : list BinaryQuadraticModel) : summand :=
  fold_left py_add xs (PyNum 0).

(** The value of [s == k]: a Python bool between numbers, a symbolic
    comparison when [s] is a model. *)
Inductive eq_value :=
| PyBool (b : bool)
| PyCmp (c : Comparison).

Definition py_eq (s : summand) (k : Z) : eq_value :=
  match s with
  | PyNum n => PyBool (Qeq_bool n (inject_Z k))
  | PyBqm b => PyCmp {| lhs := b; sense := SenseEq; rhs := inject_Z k |}
  end.

(** The model: its variables, its labelled constraints in insertion
    order, and its objective. *)
Record ConstrainedQuadraticModel := {
  cqm_variables : list string;
  constraints : list (string * Comparison);
  objective : BinaryQuadraticModel
}.

(** [ConstrainedQuadraticModel()] *)
Definition new_cqm : ConstrainedQuadraticModel :=
  {| cqm_variables := []; constraints := [];
     objective := {| linear := []; offset := 0 |} |}.

Definition mem (v : string) (vs : list string) : bool :=
  existsb (String.eqb v) vs.

(** Registers the variables of a model with the CQM, new ones last. *)
Definition add_variables_from (vs known : list string) : list string :=
  fold_left (fun acc v => if mem v acc then acc else acc ++ [v]) vs known.

(** [cqm.add_constraint_from_model(qm, sense, rhs, label)].  The right side
    is kept as it is given; the SDK stores it as a float64, the same number
    exactly when [rhs] is one ([float64] below). *)
Definition add_constraint_from_model (cqm : ConstrainedQuadraticModel)
    (qm : BinaryQuadraticModel) (sn : Sense) (r : Q) (label : string)
  : result ConstrainedQuadraticModel :=
  if mem label (map fst (constraints cqm)) then Raise ValueError
  else OK {| cqm_variables := add_variables_from (variables qm) (cqm_variables cqm);
             constraints := constraints cqm
                              ++ [(label, {| lhs := qm; sense := sn; rhs := r |})];
             objective := objective cqm |}.

(** [cqm.add_constraint_from_comparison(comp, label)] *)
Definition add_constraint_from_comparison (cqm : ConstrainedQuadraticModel)
    (comp : Comparison) (label : string) : result ConstrainedQuadraticModel :=
  add_constraint_from_model cqm (lhs comp) (sense comp) (rhs comp) label.

(** [cqm.add_constraint(data, label)]: dispatch on the type of [data];
    a Python bool is neither a model, a comparison nor an iterable. *)
Definition add_constraint (cqm : ConstrainedQuadraticModel)
    (data : eq_value) (label : string) : result ConstrainedQuadraticModel :=
  match data with
  | PyCmp comp => add_constraint_from_comparison cqm comp label
  | PyBool _ => Raise TypeError
  end.

(** The loop of [add_constraint_from_iterable] over [(variable, bias)]
    terms.  The iterable is lazy: producing its next term may raise.  The
    variable's type is looked up in the CQM, which raises for a variable
    the CQM does not know; the bias is accumulated. *)
Fixpoint linear_from_iterable (known : list string)
    (terms : list (result (string * Q))) (qm : list (string * Q))
  : result (list (string * Q)) :=
  match terms with
  | [] => OK qm
  | Raise e :: _ => Raise e
  | OK (v, bias) :: terms' =>
      if mem v known then linear_from_iterable known terms' (add_linear v bias qm)
      else Raise KeyError
  end.

(** [cqm.add_constraint_from_iterable(iterable, sense, rhs=..., label=...)] *)
Definition add_constraint_from_iterable (cqm : ConstrainedQuadraticModel)
    (iterable : list (result (string * Q))) (sn : Sense) (r : Q) (label : string)
  : result ConstrainedQuadraticModel :=
  let* l := linear_from_iterable (cqm_variables cqm) iterable [] in
  add_constraint_from_model cqm {| linear := l; offset := 0 |} sn r label.

(** [cqm.set_objective(objective)]; a bare number has no [variables]. *)
Definition set_objective (cqm : ConstrainedQuadraticModel) (obj : summand)
  : result ConstrainedQuadraticModel :=
  match obj with
  | PyBqm b =>
      OK {| cqm_variables := add_variables_from (variables b) (cqm_variables cqm);
            constraints := constraints cqm;
            objective := b |}
  | PyNum _ => Raise AttributeError
  end.

(** *** Assignments and energies *)

(** An assignment of the binary variables. *)
Definition sample := string -> bool.

Definition value (s : sample) (v : string) : Q := if s v then 1 else 0.

Fixpoint linear_energy (l : list (string * Q)) (s : sample) : Q :=
  match l with
  | [] => 0
  | (v, b) :: l' => b * value s v + linear_energy l' s
  end.

(** [bqm.energy(sample)], as the exact number the model denotes under the
    assignment. *)
Definition energy (b : BinaryQuadraticModel) (s : sample) : Q :=
  offset b + linear_energy (linear b) s.

(** Whether the assignment satisfies the comparison. *)
Definition satisfied (c : Comparison) (s : sample) : bool :=
  match sense c with
  | SenseEq => Qeq_bool (energy (lhs c) s) (rhs c)
  | SenseLe => Qle_bool (energy (lhs c) s) (rhs c)
  | SenseGe => Qle_bool (rhs c) (energy (lhs c) s)
  end.

(** [cqm.constraints[label]] *)
Fixpoint find_constraint (label : string) (cs : list (string * Comparison))
  : option Comparison :=
  match cs with
  | [] => None
  | (l, c) :: cs' => if String.eqb l label then Some c else find_constraint label cs'
  end.

End dimod.

Import dimod.

(** ** Expressions the two scripts share *)

(** The generator [to_buy[i] * -returns[i] for i in range(len(to_buy))],
    which both [define_cqm] pass to [sum]. *)
Definition objective_terms (to_buy : list BinaryQuadraticModel) (returns : list Q)
  : result (list BinaryQuadraticModel) :=
  result_mapM (fun i => let* x := getitem to_buy i in
                        let* r := getitem returns i in
                        OK (mul x (- r)%Q))
              (seq 0 (length to_buy)).

(** [zip(a, b)] of a lazy iterator [a], whose elements may raise when they
    are produced, and a list [b]: it takes from [a] first, and stops at the
    shorter argument. *)
Fixpoint py_zip {A B} (a : list (result A)) (b : list B) : list (result (A * B)) :=
  match a with
  | [] => []
  | Raise e :: _ => [Raise e]
  | OK x :: a' =>
      match b with
      | [] => []
      | y :: b' => OK (x, y) :: py_zip a' b'
      end
  end.

(** ** What the scripts talk to

    The scripts call [utilities.get_stock_info] and
    [utilities.process_sampleset], which are not part of the two files, the
    Leap hybrid sampler, which is a remote service, and [print].  Each such
    call is an event; what the calls answer is a parameter, the [world]. *)

(** [price, returns, variance = utilities.get_stock_info()] *)
Record stock_info := {
  price : list Q;
  returns : list Q;
  variance : list (list Q)
}.

Record world (sampleset : Type) := {
  get_stock_info : stock_info;
  (** what the remote sampler answers to a model *)
  leap_sample_cqm : ConstrainedQuadraticModel -> sampleset
}.
Arguments get_stock_info {sampleset} w.
Arguments leap_sample_cqm {sampleset} w cqm.

Inductive event (sampleset : Type) :=
| CallGetStockInfo                                   (* utilities.get_stock_info() *)
| NewSampler                                         (* LeapHybridCQMSampler() *)
| RemoteSampleCqm (cqm : ConstrainedQuadraticModel)  (* sampler.sample_cqm(cqm) *)
| Print (text : string)                              (* print(text) *)
| CallProcessSampleset (ss : sampleset) (stockcodes : list string).
Arguments CallGetStockInfo {sampleset}.
Arguments NewSampler {sampleset}.
Arguments RemoteSampleCqm {sampleset} cqm.
Arguments Print {sampleset} text.
Arguments CallProcessSampleset {sampleset} ss stockcodes.

(** A run: the events so far, and a result or the exception that ended it. *)
Definition IO (sampleset A : Type) : Type := list (event sampleset) * result A.

Definition io_ret {S A} (a : A) : IO S A := ([], OK a).

Definition io_bind {S A B} (m : IO S A) (f : A -> IO S B) : IO S B :=
  match m with
  | (t, OK a) => (t ++ fst (f a), snd (f a))
  | (t, Raise e) => (t, Raise e)
  end.

Notation "'let+' x ':=' c1 'in' c2" := (io_bind c1 (fun x => c2))
  (at level 10, x name, c1 at level 100, c2 at level 200).

(** A call that answers [a]. *)
Definition call {S A} (e : event S) (a : A) : IO S A := ([e], OK a).

(** A computation of the script itself: no event. *)
Definition io_lift {S A} (r : result A) : IO S A := ([], r).

Definition newline : string := String (Ascii.ascii_of_nat 10) "".

(** ** exercise_1.py *)

Module Exercise1.

Definition define_variables (stockcodes : list string) : list BinaryQuadraticModel :=
  map (fun stock => Binary ("s_" +:+ stock)) stockcodes.

Definition define_cqm (stocks : list BinaryQuadraticModel) (num_stocks_to_buy : Z)
    (returns : list Q) : result ConstrainedQuadraticModel :=
  let cqm := new_cqm in
  let to_buy := stocks in
  let* cqm := add_constraint cqm (py_eq (py_sum to_buy) num_stocks_to_buy)
                        "choose k stocks" in
  let* terms := objective_terms to_buy returns in
  set_objective cqm (py_sum terms).

Definition sample_cqm {S} (w : world S) (cqm : ConstrainedQuadraticModel)
  : IO S S :=
  let+ sampler := call NewSampler tt in
  let+ sampleset := call (RemoteSampleCqm cqm) (leap_sample_cqm w cqm) in
  io_ret sampleset.

(** The body of [if __name__ == '__main__':]. *)
Definition main {S} (w : world S) : IO S unit :=
  let stockcodes :=
    ["T"; "SFL"; "PFE"; "XOM"; "MO"; "VZ"; "IBM"; "TSLA"; "GILD"; "GE"] in
  let+ info := call CallGetStockInfo (get_stock_info w) in
  let num_stocks_to_buy := 2%Z in
  let stocks := define_variables stockcodes in
  let+ cqm := io_lift (define_cqm stocks num_stocks_to_buy (returns info)) in
  let+ sampleset := sample_cqm w cqm in
  let+ _ := call (Print (newline +:+ "Part 1 solution:" +:+ newline)) tt in
  call (CallProcessSampleset sampleset stockcodes) tt.

End Exercise1.

(** ** exercise_3.py *)

Module Exercise3.

Definition define_variables (stockcodes : list string) : list BinaryQuadraticModel :=
  map (fun stock => Binary ("s_" +:+ stock)) stockcodes.

Definition is_part_of_lower_triangular_matrix (point : Z * Z) : bool :=
  (fst point <=? snd point)%Z.

(** [range(n)] *)
Definition range (n : Z) : list Z := map Z.of_nat (seq 0 (Z.to_nat n)).

(** [product(r, repeat=2)] *)
Definition product2 (r : list Z) : list (Z * Z) :=
  flat_map (fun i => map (fun j => (i, j)) r) r.

Definition generate_unique_covar_matrix_entries (num_of_entries : Z) : list (Z * Z) :=
  let all_points := product2 (range num_of_entries) in
  List.filter is_part_of_lower_triangular_matrix all_points.

(** [stock.variables[0]] *)
Definition get_stock_name (stock : BinaryQuadraticModel) : result string :=
  getitem (variables stock) 0.

(** [map(get_stock_name, stocks)]: a lazy iterator. *)
Definition extract_stock_names (stocks : list BinaryQuadraticModel)
  : list (result string) :=
  map get_stock_name stocks.

Definition define_cqm (stocks : list BinaryQuadraticModel) (num_stocks_to_buy : Z)
    (price returns : list Q) (budget : Q) : result ConstrainedQuadraticModel :=
  let cqm := new_cqm in
  let to_buy := stocks in
  let* cqm := add_constraint cqm (py_eq (py_sum to_buy) num_stocks_to_buy)
                        "choose k stocks" in
  let* cqm := add_constraint_from_iterable cqm
                (py_zip (extract_stock_names to_buy) price) SenseLe budget
                "budget_limitation" in
  let* terms := objective_terms to_buy returns in
  set_objective cqm (py_sum terms).

Definition sample_cqm {S} (w : world S) (cqm : ConstrainedQuadraticModel)
  : IO S S :=
  let+ sampler := call NewSampler tt in
  let+ sampleset := call (RemoteSampleCqm cqm) (leap_sample_cqm w cqm) in
  io_ret sampleset.

(** The body of [if __name__ == '__main__':]. *)
Definition main {S} (w : world S) : IO S unit :=
  let stockcodes :=
    ["T"; "SFL"; "PFE"; "XOM"; "MO"; "VZ"; "IBM"; "TSLA"; "GILD"; "GE"] in
  let+ info := call CallGetStockInfo (get_stock_info w) in
  let num_stocks_to_buy := 2%Z in
  let budget := 80 in
  let stocks := define_variables stockcodes in
  let+ cqm := io_lift (define_cqm stocks num_stocks_to_buy (price info)
                                  (returns info) budget) in
  let+ sampleset := sample_cqm w cqm in
  let+ _ := call (Print (newline +:+ "Part 2 solution:" +:+ newline)) tt in
  call (CallProcessSampleset sampleset stockcodes) tt.

End Exercise3.

(** ** The same operations on a heap of Python objects

    Python passes references: a list holds references to its elements, and
    dimod's models are mutable objects.  The heap maps a reference (an
    index) to the object it denotes; allocation appends. *)

Module Heap.

(** A reference is an index into the heap. *)
Abbreviation loc := nat.

Inductive obj :=
| OList (items : list loc)               (* a list of object references *)
| ONums (xs : list Q)                    (* a list of numbers *)
| OBqm (b : BinaryQuadraticModel)
| OCqm (c : ConstrainedQuadraticModel).

Abbreviation heap := (list obj).

(** A computation on the heap that may raise. *)
Definition ST (A : Type) := heap -> heap * result A.

Definition ret {A} (a : A) : ST A := fun h => (h, OK a).

Definition raise {A} (e : exn) : ST A := fun h => (h, Raise e).

Definition bind {A B} (m : ST A) (f : A -> ST B) : ST B :=
  fun h => match m h with
           | (h', OK a) => f a h'
           | (h', Raise e) => (h', Raise e)
           end.

Notation "'let!' x ':=' c1 'in' c2" := (bind c1 (fun x => c2))
  (at level 10, x name, c1 at level 100, c2 at level 200).

Definition alloc (o : obj) : ST loc := fun h => (h ++ [o], OK (length h)).

Definition store (l : loc) (o : obj) : ST unit := fun h => (<[l := o]> h, OK tt).

(** Reading a reference as an object of the expected class. *)
Definition load_list (l : loc) : ST (list loc) :=
  fun h => match h !! l with
           | Some (OList items) => (h, OK items)
           | _ => (h, Raise TypeError)
           end.

Definition load_nums (l : loc) : ST (list Q) :=
  fun h => match h !! l with
           | Some (ONums xs) => (h, OK xs)
           | _ => (h, Raise TypeError)
           end.

Definition load_bqm (l : loc) : ST BinaryQuadraticModel :=
  fun h => match h !! l with
           | Some (OBqm b) => (h, OK b)
           | _ => (h, Raise TypeError)
           end.

Definition load_cqm (l : loc) : ST ConstrainedQuadraticModel :=
  fun h => match h !! l with
           | Some (OCqm c) => (h, OK c)
           | _ => (h, Raise TypeError)
           end.

Definition lift {A} (r : result A) : ST A := fun h => (h, r).

(** [bqm.copy()] *)
Definition bqm_copy (self : loc) : ST loc :=
  let! b := load_bqm self in alloc (OBqm b).

(** [self.update(other)], in place. *)
Definition bqm_update (self other : loc) : ST unit :=
  let! b := load_bqm self in
  let! o := load_bqm other in
  store self (OBqm (update b o)).

(** [self + other]: [bqm = self.copy(); bqm.update(other); return bqm] *)
Definition bqm_add (self other : loc) : ST loc :=
  let! bqm := bqm_copy self in
  let! _ := bqm_update bqm other in
  ret bqm.

(** [number + self]: [bqm = self.copy(); bqm.offset += other; return bqm] *)
Definition bqm_radd (self : loc) (other : Q) : ST loc :=
  let! bqm := bqm_copy self in
  let! b := load_bqm bqm in
  let! _ := store bqm (OBqm (radd b other)) in
  ret bqm.

(** [self * number]: [bqm = self.copy(); bqm.scale(other); return bqm] *)
Definition bqm_mul (self : loc) (other : Q) : ST loc :=
  let! bqm := bqm_copy self in
  let! b := load_bqm bqm in
  let! _ := store bqm (OBqm (scale b other)) in
  ret bqm.

(** [sum]'s accumulator: the integer it starts from, or a reference. *)
Inductive acc :=
| ANum (n : Q)
| ARef (l : loc).

Definition py_add (a : acc) (x : loc) : ST acc :=
  match a with
  | ANum n => let! bqm := bqm_radd x n in ret (ARef bqm)
  | ARef l => let! bqm := bqm_add l x in ret (ARef bqm)
  end.

(** [sum(xs)]: [result = 0; for x in xs: result = result + x]. *)
Fixpoint sum_from (a : acc) (xs : list loc) : ST acc :=
  match xs with
  | [] => ret a
  | x :: xs' => let! a' := py_add a x in sum_from a' xs'
  end.

Definition py_sum (xs : list loc) : ST acc := sum_from (ANum 0) xs.

(** [s == k]: a bool, or a comparison that refers to the model [s]. *)
Inductive eq_ref :=
| RBool (b : bool)
| RCmp (l : loc) (sn : Sense) (r : Q).

Definition py_eq (s : acc) (k : Z) : eq_ref :=
  match s with
  | ANum n => RBool (Qeq_bool n (inject_Z k))
  | ARef l => RCmp l SenseEq (inject_Z k)
  end.

(** [ConstrainedQuadraticModel()] *)
Definition new_cqm : ST loc := alloc (OCqm dimod.new_cqm).

(** [cqm.add_constraint_from_model(qm, sense, rhs, label)]: the CQM is
    updated in place; it keeps its own copy of the model. *)
Definition add_constraint_from_model (cqm qm : loc) (sn : Sense) (r : Q)
    (label : string) : ST unit :=
  let! c := load_cqm cqm in
  let! b := load_bqm qm in
  let! c' := lift (dimod.add_constraint_from_model c b sn r label) in
  store cqm (OCqm c').

(** [cqm.add_constraint(data, label)] *)
Definition add_constraint (cqm : loc) (data : eq_ref) (label : string) : ST unit :=
  match data with
  | RCmp l sn r => add_constraint_from_model cqm l sn r label
  | RBool _ => raise TypeError
  end.

(** [cqm.set_objective(objective)], in place. *)
Definition set_objective (cqm : loc) (obj : acc) : ST unit :=
  match obj with
  | ARef l =>
      let! c := load_cqm cqm in
      let! b := load_bqm l in
      let! c' := lift (dimod.set_objective c (PyBqm b)) in
      store cqm (OCqm c')
  | ANum _ => raise AttributeError
  end.

(** [list(xs)]: a new list object with the same element references. *)
Definition py_list (xs : loc) : ST loc :=
  let! items := load_list xs in alloc (OList items).

(** [sum(to_buy[i] * -returns[i] for i in range(len(to_buy)))]: the
    generator yields one product at a time, which [sum] adds. *)
Fixpoint sum_objective (a : acc) (to_buy returns : loc) (indices : list nat)
  : ST acc :=
  match indices with
  | [] => ret a
  | i :: indices' =>
      let! items := load_list to_buy in
      let! x := lift (getitem items i) in
      let! rs := load_nums returns in
      let! r := lift (getitem rs i) in
      let! term := bqm_mul x (- r) in
      let! a' := py_add a term in
      sum_objective a' to_buy returns indices'
  end.

(** [len(xs)] *)
Definition py_len (xs : loc) : ST nat :=
  let! items := load_list xs in ret (length items).

End Heap.

Module Exercise1Heap.
Import Heap.

Definition define_cqm (stocks : loc) (num_stocks_to_buy : Z) (returns : loc)
  : ST loc :=
  let! cqm := new_cqm in
  let! to_buy := py_list stocks in
  let! items := load_list to_buy in
  let! s := py_sum items in
  let! _ := add_constraint cqm (py_eq s num_stocks_to_buy) "choose k stocks" in
  let! n := py_len to_buy in
  let! obj := sum_objective (ANum 0) to_buy returns (seq 0 n) in
  let! _ := set_objective cqm obj in
  ret cqm.

End Exercise1Heap.

Module Exercise3Heap.
Import Heap.

(** [stock.variables[0]] *)
Definition get_stock_name (stock : loc) : ST string :=
  let! b := load_bqm stock in lift (getitem (variables b) 0).

(** The loop of [add_constraint_from_iterable] over
    [zip(map(get_stock_name, to_buy), price)]: [zip] takes the next name,
    then the next price, and stops when either runs out; the loop adds
    the term to the new model [qm]. *)
Fixpoint budget_terms (cqm qm : loc) (stocks : list loc) (price : list Q)
  : ST unit :=
  match stocks with
  | [] => ret tt
  | stock :: stocks' =>
      let! name := get_stock_name stock in
      match price with
      | [] => ret tt
      | p :: price' =>
          let! c := load_cqm cqm in
          if mem name (cqm_variables c) then
            let! q := load_bqm qm in
            let! _ := store qm (OBqm {| linear := add_linear name p (linear q);
                                        offset := offset q |}) in
            budget_terms cqm qm stocks' price'
          else raise KeyError
      end
  end.

(** [cqm.add_constraint_from_iterable(zip(...), "<=", rhs=..., label=...)] *)
Definition add_constraint_from_iterable (cqm to_buy price : loc) (sn : Sense)
    (r : Q) (label : string) : ST unit :=
  let! qm := alloc (OBqm {| linear := []; offset := 0 |}) in
  let! items := load_list to_buy in
  let! ps := load_nums price in
  let! _ := budget_terms cqm qm items ps in
  add_constraint_from_model cqm qm sn r label.

Definition define_cqm (stocks : loc) (num_stocks_to_buy : Z)
    (price returns : loc) (budget : Q) : ST loc :=
  let! cqm := new_cqm in
  let! to_buy := py_list stocks in
  let! items := load_list to_buy in
  let! s := py_sum items in
  let! _ := add_constraint cqm (py_eq s num_stocks_to_buy) "choose k stocks" in
  let! _ := add_constraint_from_iterable cqm to_buy price SenseLe budget
                                         "budget_limitation" in
  let! n := py_len to_buy in
  let! obj := sum_objective (ANum 0) to_buy returns (seq 0 n) in
  let! _ := set_objective cqm obj in
  ret cqm.

End Exercise3Heap.

(** ** Vocabulary of the specification *)

(** The numbers a float64 holds: a significand of at most 53 bits times a
    power of two in the range of the format (subnormal numbers included).
    A Python float is such a number; a Python int is one exactly when the
    SDK stores it unchanged. *)
Definition float64 (q : Q) : Prop :=
  exists m e : Z,
    (Z.abs m < 2 ^ 53)%Z /\ (-1074 <= e <= 971)%Z /\ (q == inject_Z m * 2 ^ e)%Q.

(** The sum of the energies of a list of models. *)
Fixpoint total_energy (xs : list BinaryQuadraticModel) (s : sample) : Q :=
  match xs with
  | [] => 0
  | x :: xs' => energy x s + total_energy xs' s
  end.

(** The number held by [sum]'s accumulator under an assignment. *)
Definition summand_energy (x : summand) (s : sample) : Q :=
  match x with
  | PyNum n => n
  | PyBqm b => energy b s
  end.

(** How many of the listed stocks the assignment selects. *)
Definition selected (s : sample) (names : list string) : nat :=
  length (List.filter s names).

(** The total expected return of the selected stocks: the sum of
    [returns[i]] over the stocks [i] whose variable is 1. *)
Definition total_return (names : list string) (returns : list Q) (s : sample) : Q :=
  linear_energy (zip names returns) s.

(** The total price of the selected stocks. *)
Definition total_price (names : list string) (price : list Q) (s : sample) : Q :=
  linear_energy (zip names price) s.

(** Lexicographic order on index pairs. *)
Definition lex_lt (p q : Z * Z) : Prop :=
  (fst p < fst q)%Z \/ (fst p = fst q /\ (snd p < snd q)%Z).

(** The variables [sum]'s accumulator ranges over. *)
Definition summand_variables (x : summand) : list string :=
  match x with
  | PyNum _ => []
  | PyBqm b => variables b
  end.

(** The CQM of exercise_1 once its constraint is in, before the objective. *)
Definition cqm1_constrained (names : list string) (k : Z) (l : BinaryQuadraticModel)
  : ConstrainedQuadraticModel :=
  {| cqm_variables := add_variables_from names [];
     constraints :=
       [("choose k stocks", {| lhs := l; sense := SenseEq; rhs := inject_Z k |})];
     objective := objective new_cqm |}.

(** The CQM of exercise_3 once its two constraints are in. *)
Definition cqm3_constrained (names : list string) (k : Z) (price : list Q)
    (budget : Q) (l : BinaryQuadraticModel) : ConstrainedQuadraticModel :=
  {| cqm_variables := add_variables_from names [];
     constraints :=
       [("choose k stocks", {| lhs := l; sense := SenseEq; rhs := inject_Z k |});
        ("budget_limitation",
         {| lhs := {| linear :=
                        fold_left (fun l vb => add_linear (fst vb) (snd vb) l)
                                  (zip names price) [];
                      offset := 0 |};
            sense := SenseLe; rhs := budget |})];
     objective := objective new_cqm |}.

(** What it means for a comparison to say that the stock variables sum to
    [k]: its left side is Python's [sum] of the variables, whose energy is
    the sum of their values; its sense is equality; its right side is [k];
    and an assignment satisfies it exactly when it selects [k] stocks. *)
Definition asserts_choose_k (names : list string) (k : Z) (c : Comparison) : Prop :=
  py_sum (map Binary names) = PyBqm (lhs c) /\
  sense c = SenseEq /\
  rhs c = inject_Z k /\
  (forall s, (energy (lhs c) s == total_energy (map Binary names) s)%Q) /\
  (forall s, satisfied c s = true <-> Z.of_nat (selected s names) = k).

(** What it means for a model to be the objective of the scripts: it is
    Python's [sum] of the products [stocks[i] * -returns[i]]; under every
    assignment its energy is the sum of [(-returns[i]) * stocks[i]], which
    is the negated total return; so a lower objective is a higher return. *)
Definition negated_return_objective (names : list string) (returns : list Q)
    (obj : BinaryQuadraticModel) : Prop :=
  py_sum (zip_with (fun x r => mul x (- r)%Q) (map Binary names) returns) = PyBqm obj /\
  (forall s, (energy obj s == linear_energy (zip names (map Qopp returns)) s)%Q) /\
  (forall s, (energy obj s == - total_return names returns s)%Q) /\
  (forall s1 s2, (energy obj s1 <= energy obj s2)%Q
                 <-> (total_return names returns s2 <= total_return names returns s1)%Q).

(** What it means for a comparison to bound the price of the selection:
    its left side has the energy [sum price[i] * stocks[i]]; its sense is
    [<=]; its right side is the budget; and an assignment satisfies it
    exactly when the selected stocks cost at most the budget. *)
Definition asserts_budget (names : list string) (price : list Q) (budget : Q)
    (c : Comparison) : Prop :=
  sense c = SenseLe /\
  rhs c = budget /\
  (forall s, (energy (lhs c) s == total_price names price s)%Q) /\
  (forall s, satisfied c s = true <-> (total_price names price s <= budget)%Q).

(** The stock codes of the scripts' runs ([stockcodes] in [__main__]), and
    the names of the variables [define_variables] makes of them. *)
Definition run_stockcodes : list string :=
  ["T"; "SFL"; "PFE"; "XOM"; "MO"; "VZ"; "IBM"; "TSLA"; "GILD"; "GE"].

Definition run_variables : list string :=
  map (fun stock => "s_" +:+ stock) run_stockcodes.

(** Stock data and a sampler's answer to run the scripts on. *)
Definition sample_world : world nat :=
  {| get_stock_info :=
       {| price := [30; 12; 40; 60; 45; 55; 120; 700; 65; 13];
          returns := [1#128; 3#128; 1#64; 5#128; 1#128; 1#256; 3#64; 9#128;
                      1#32; 1#128];
          variance := [] |};
     leap_sample_cqm := fun cqm => length (cqm_variables cqm) |}.

(** Two CQMs that no assignment tells apart: the same constraint labels,
    the same objective value, and the constraints of the same label
    satisfied together. *)
Definition equivalent_cqm (cqm1 cqm2 : ConstrainedQuadraticModel) : Prop :=
  map fst (constraints cqm1) = map fst (constraints cqm2) /\
  forall s,
    (energy (objective cqm1) s == energy (objective cqm2) s)%Q /\
    forall label c1 c2,
      find_constraint label (constraints cqm1) = Some c1 ->
      find_constraint label (constraints cqm2) = Some c2 ->
      satisfied c1 s = satisfied c2 s.

(** A heap to run the reference version on: two stock variables, the list
    of them, their returns and their prices. *)
Definition sample_heap : list Heap.obj :=
  [Heap.OBqm (Binary "s_T"); Heap.OBqm (Binary "s_GE");
   Heap.OList [0%nat; 1%nat];
   Heap.ONums [1#2; 3#4];
   Heap.ONums [30; 50]].

(** ** Vocabulary of the heap proofs *)

Module HeapSpec.
Import Heap.

(** The heap grew, and nothing below [n] changed. *)
Definition unchanged_below (n : nat) (h h' : heap) : Prop :=
  (length h <= length h')%nat /\ forall l, (l < n)%nat -> h' !! l = h !! l.

(** Started on a heap of at least [n] objects that satisfies [P], the
    computation leaves the objects below [n] alone, and if it returns [a]
    the final heap satisfies [Q a]. *)
Definition spec {A} (n : nat) (P : heap -> Prop) (m : ST A)
    (Q : A -> heap -> Prop) : Prop :=
  forall h, (n <= length h)%nat -> P h ->
    unchanged_below n h (m h).1 /\
    forall a, (m h).2 = OK a -> Q a (m h).1.

(** The reference denotes this model. *)
Definition points (h : heap) (l : loc) (b : BinaryQuadraticModel) : Prop :=
  h !! l = Some (OBqm b).

(** The accumulator of [sum] on the heap denotes this value. *)
Definition acc_rel (h : heap) (a : acc) (av : summand) : Prop :=
  match a, av with
  | ANum n, PyNum n' => n = n'
  | ARef l, PyBqm b => points h l b
  | _, _ => False
  end.

(** [s == k] on the heap denotes [s == k] on values. *)
Definition eq_rel (h : heap) (d : eq_ref) (dv : eq_value) : Prop :=
  match d, dv with
  | RBool b, PyBool b' => b = b'
  | RCmp l sn r, PyCmp c => points h l (lhs c) /\ sn = sense c /\ r = rhs c
  | _, _ => False
  end.

(** The objects of [h] are all in [h'], unchanged. *)
Definition preserved (h h' : heap) : Prop :=
  forall l o, h !! l = Some o -> h' !! l = Some o.

End HeapSpec.

(** * Proofs *)

(** ** Numbers a float64 holds *)

Lemma float64_Qeq (q q' : Q) : (q == q')%Q -> float64 q -> float64 q'.
Proof.
  intros E (m & e & Hm & He & H). exists m, e.
  split; [exact Hm|]. split; [exact He|]. rewrite <- E. exact H.
Qed.

Lemma float64_opp (q : Q) : float64 q -> float64 (- q).
Proof.
  intros (m & e & Hm & He & H). exists (- m)%Z, e.
  split; [rewrite Z.abs_opp; exact Hm|]. split; [exact He|].
  rewrite H, inject_Z_opp. ring.
Qed.

(** Every integer below [2^53] in magnitude is a float64. *)
Lemma float64_inject_Z (k : Z) : (Z.abs k < 2 ^ 53)%Z -> float64 (inject_Z k).
Proof.
  intros H. exists k, 0%Z. split; [exact H|]. split; [lia|].
  simpl. ring.
Qed.

Lemma Qpower_2_nonzero (e : Z) : ~ (2 ^ e == 0)%Q.
Proof. apply Qpower_not_0. discriminate. Qed.

Lemma Qpower_2_split (a b : Z) : (2 ^ (a + b) == 2 ^ a * 2 ^ b)%Q.
Proof. apply Qpower_plus. discriminate. Qed.

Lemma Qpower_2_inject (t : Z) : (0 <= t)%Z -> (2 ^ t == inject_Z (2 ^ t))%Q.
Proof. intros H. symmetry. apply (Zpower_Qpower 2 t H). Qed.

(** An odd integer of more than 53 bits, times any power of two, is not a
    float64: the significand has no room for it. *)
Lemma not_float64_odd (n d : Z) :
  Z.odd n = true -> (2 ^ 53 <= Z.abs n)%Z -> ~ float64 (inject_Z n * 2 ^ d).
Proof.
  intros Hodd Hbig (m & e & Hm & _ & Heq).
  destruct (Z_le_gt_dec e d) as [Hle|Hgt].
  - replace d with ((d - e) + e)%Z in Heq by lia.
    rewrite Qpower_2_split, Qmult_assoc in Heq.
    apply (proj1 (Qmult_inj_r _ _ _ (Qpower_2_nonzero _))) in Heq.
    rewrite Qpower_2_inject, <- inject_Z_mult in Heq by lia.
    apply (proj1 (inject_Z_injective _ _)) in Heq. subst m.
    assert (0 < 2 ^ (d - e))%Z by (apply Z.pow_pos_nonneg; lia).
    rewrite Z.abs_mul, (Z.abs_eq (2 ^ (d - e))) in Hm by lia. nia.
  - replace e with ((e - d) + d)%Z in Heq by lia.
    rewrite Qpower_2_split, Qmult_assoc in Heq.
    apply (proj1 (Qmult_inj_r _ _ _ (Qpower_2_nonzero _))) in Heq.
    rewrite Qpower_2_inject, <- inject_Z_mult in Heq by lia.
    apply (proj1 (inject_Z_injective _ _)) in Heq. subst n.
    replace (e - d)%Z with (Z.succ (e - d - 1)) in Hodd by lia.
    rewrite Z.pow_succ_r, Z.mul_assoc, Z.odd_mul in Hodd by lia.
    rewrite Z.odd_mul in Hodd. simpl in Hodd.
    rewrite Bool.andb_false_r in Hodd. discriminate.
Qed.

(** float64 holds the integers up to [2^53]; the next one, [2^53 + 1], it
    does not hold: Python's [float(2**53 + 1)] is [2**53]. *)
Lemma not_float64_2_53_1 : ~ float64 (inject_Z (2 ^ 53 + 1)).
Proof.
  intros H. apply (not_float64_odd (2 ^ 53 + 1) 0).
  - reflexivity.
  - vm_compute. discriminate.
  - apply (float64_Qeq (inject_Z (2 ^ 53 + 1))); [|exact H].
    simpl. ring.
Qed.

(** [10^400] is beyond the range of float64: Python's [float(10**400)]
    raises [OverflowError]. *)
Lemma not_float64_10_400 : ~ float64 (inject_Z (10 ^ 400)).
Proof.
  intros H. apply (not_float64_odd (5 ^ 400) 400).
  - vm_compute. reflexivity.
  - vm_compute. discriminate.
  - apply (float64_Qeq (inject_Z (10 ^ 400))); [|exact H].
    rewrite Qpower_2_inject, <- inject_Z_mult by lia.
    apply inject_Z_injective. vm_compute. reflexivity.
Qed.

(** The float64 numbers nearest to one tenth and to two tenths: Python's
    [0.1] and [0.2].  Their exact sum is not a float64, so the SDK, adding
    them, stores another number ([0.1 + 0.2] is [0.30000000000000004]). *)
Lemma float64_sum_rounds :
  float64 (3602879701896397 # 36028797018963968) /\
  float64 (3602879701896397 # 18014398509481984) /\
  ~ float64 ((3602879701896397 # 36028797018963968)
             + (3602879701896397 # 18014398509481984)).
Proof.
  split; [|split].
  - exists 3602879701896397%Z, (-55)%Z.
    split; [reflexivity|]. split; [lia|]. reflexivity.
  - exists 3602879701896397%Z, (-54)%Z.
    split; [reflexivity|]. split; [lia|]. reflexivity.
  - intros H. apply (not_float64_odd 10808639105689191 (-55)).
    + reflexivity.
    + vm_compute. discriminate.
    + eapply float64_Qeq; [|exact H]. reflexivity.
Qed.

(** Closed goals [float64 q] for a dyadic [q] with a short numerator. *)
Ltac float64_closed :=
  lazymatch goal with
  | |- float64 ?q =>
      exists (Qnum (Qred q)), (- Z.log2 (Zpos (Qden (Qred q))))%Z;
      split; [vm_compute; reflexivity|];
      split; [split; vm_compute; discriminate | vm_compute; reflexivity]
  end.

Ltac float64_list :=
  repeat (constructor; [float64_closed|]); constructor.

(** ** Energies of the expression builders *)

Section Energy.

Variable s : sample.

Lemma linear_energy_add_linear v bias l :
  linear_energy (add_linear v bias l) s == linear_energy l s + bias * value s v.
Proof.
  induction l as [|[u b] l IH]; simpl.
  - ring.
  - destruct (String.eqb_spec u v) as [->|Hne]; simpl.
    + ring.
    + rewrite IH. ring.
Qed.

Lemma linear_energy_fold_add_linear other self :
  linear_energy (fold_left (fun l vb => add_linear (fst vb) (snd vb) l) other self) s
  == linear_energy self s + linear_energy other s.
Proof.
  revert self. induction other as [|[v b] other IH]; intros self; simpl.
  - ring.
  - rewrite IH, linear_energy_add_linear. ring.
Qed.

Lemma linear_energy_app l1 l2 :
  linear_energy (l1 ++ l2) s == linear_energy l1 s + linear_energy l2 s.
Proof.
  induction l1 as [|[v b] l1 IH]; simpl.
  - ring.
  - rewrite IH. ring.
Qed.

Lemma energy_Binary v : energy (Binary v) s == value s v.
Proof. unfold energy; simpl. ring. Qed.

Lemma energy_add a b : energy (add a b) s == energy a s + energy b s.
Proof.
  unfold energy, add, update; simpl.
  rewrite linear_energy_fold_add_linear. ring.
Qed.

Lemma energy_radd a n : energy (radd a n) s == energy a s + n.
Proof. unfold energy, radd; simpl. ring. Qed.

Lemma linear_energy_scale l c :
  linear_energy (map (fun vb => (fst vb, snd vb * c)) l) s == linear_energy l s * c.
Proof.
  induction l as [|[v b] l IH]; simpl.
  - ring.
  - rewrite IH. ring.
Qed.

Lemma energy_mul a c : energy (mul a c) s == energy a s * c.
Proof.
  unfold energy, mul, scale; simpl.
  rewrite linear_energy_scale. ring.
Qed.

Lemma summand_energy_py_add acc x :
  summand_energy (py_add acc x) s == summand_energy acc s + energy x s.
Proof.
  destruct acc as [n|a]; simpl.
  - rewrite energy_radd. ring.
  - apply energy_add.
Qed.

Lemma summand_energy_fold xs acc :
  summand_energy (fold_left py_add xs acc) s
  == summand_energy acc s + total_energy xs s.
Proof.
  revert acc. induction xs as [|x xs IH]; intros acc; simpl.
  - ring.
  - rewrite IH, summand_energy_py_add. ring.
Qed.

Lemma summand_energy_py_sum xs :
  summand_energy (py_sum xs) s == total_energy xs s.
Proof. unfold py_sum. rewrite summand_energy_fold. simpl. ring. Qed.

Lemma total_energy_Binary names :
  total_energy (map Binary names) s == inject_Z (Z.of_nat (selected s names)).
Proof.
  unfold selected.
  induction names as [|n names IH]; simpl.
  - reflexivity.
  - rewrite IH, energy_Binary. unfold value.
    destruct (s n); simpl length.
    + rewrite Nat2Z.inj_succ, <- Z.add_1_l, inject_Z_plus. reflexivity.
    + ring.
Qed.

End Energy.

(** ** Variables of the expression builders *)

Lemma add_variables_from_cons v vs known :
  add_variables_from (v :: vs) known
  = add_variables_from vs (add_variables_from [v] known).
Proof. reflexivity. Qed.

Lemma variables_add_linear v bias l :
  map fst (add_linear v bias l) = add_variables_from [v] (map fst l).
Proof.
  unfold add_variables_from; simpl.
  induction l as [|[u b] l IH]; simpl.
  - reflexivity.
  - rewrite (String.eqb_sym v u).
    destruct (String.eqb u v); simpl.
    + reflexivity.
    + rewrite IH. destruct (mem v (map fst l)); reflexivity.
Qed.

Lemma variables_fold_add_linear terms l :
  map fst (fold_left (fun l vb => add_linear (fst vb) (snd vb) l) terms l)
  = add_variables_from (map fst terms) (map fst l).
Proof.
  revert l. induction terms as [|[v b] terms IH]; intros l; simpl.
  - reflexivity.
  - rewrite IH, variables_add_linear. reflexivity.
Qed.

Lemma variables_add a b :
  variables (add a b) = add_variables_from (variables b) (variables a).
Proof. unfold variables, add, update; simpl. apply variables_fold_add_linear. Qed.

Lemma variables_radd a n : variables (radd a n) = variables a.
Proof. reflexivity. Qed.

Lemma variables_mul a c : variables (mul a c) = variables a.
Proof.
  unfold variables, mul, scale; simpl. rewrite map_map. reflexivity.
Qed.

Lemma summand_variables_fold xs names acc :
  map variables xs = map (fun n => [n]) names ->
  summand_variables (fold_left py_add xs acc)
  = add_variables_from names (summand_variables acc).
Proof.
  revert names acc. induction xs as [|x xs IH]; intros [|n names] acc H;
    simpl in H; try discriminate.
  - reflexivity.
  - injection H as Hx Hxs. simpl fold_left.
    rewrite (IH names _ Hxs), add_variables_from_cons. f_equal.
    destruct acc as [q|a]; cbn [py_add summand_variables].
    + rewrite variables_radd, Hx. reflexivity.
    + rewrite variables_add, Hx. reflexivity.
Qed.

Lemma summand_variables_py_sum xs names :
  map variables xs = map (fun n => [n]) names ->
  summand_variables (py_sum xs) = add_variables_from names [].
Proof. intros H. unfold py_sum. rewrite (summand_variables_fold _ names); auto. Qed.

Lemma mem_true_iff v vs : mem v vs = true <-> In v vs.
Proof.
  unfold mem. rewrite existsb_exists. split.
  - intros [x [Hin Heq]]. apply String.eqb_eq in Heq. subst. exact Hin.
  - intros Hin. exists v. split; [exact Hin | apply String.eqb_refl].
Qed.

Lemma in_add_variables_from v vs known :
  In v (add_variables_from vs known) <-> In v vs \/ In v known.
Proof.
  revert known. induction vs as [|u vs IH]; intros known.
  - simpl. tauto.
  - rewrite add_variables_from_cons, IH. unfold add_variables_from at 1; simpl.
    destruct (mem u known) eqn:Hm.
    + apply mem_true_iff in Hm. intuition (subst; auto).
    + rewrite in_app_iff; simpl. intuition (subst; auto).
Qed.

(** Registering variables that are all known already changes nothing. *)
Lemma add_variables_from_known vs known :
  (forall v, In v vs -> In v known) -> add_variables_from vs known = known.
Proof.
  revert known. induction vs as [|u vs IH]; intros known H.
  - reflexivity.
  - rewrite add_variables_from_cons.
    assert (Hu : add_variables_from [u] known = known).
    { unfold add_variables_from; simpl.
      destruct (mem u known) eqn:Hm; [reflexivity|].
      assert (In u known) as Hin by (apply H; left; reflexivity).
      apply mem_true_iff in Hin. congruence. }
    rewrite Hu. apply IH. intros v Hv. apply H. right. exact Hv.
Qed.

Lemma add_variables_from_idem vs known :
  add_variables_from (add_variables_from vs known) (add_variables_from vs known)
  = add_variables_from vs known.
Proof. apply add_variables_from_known. auto. Qed.

(** ** [sum] over a non-empty list is a model *)

Lemma fold_py_add_bqm xs a :
  fold_left py_add xs (PyBqm a) = PyBqm (fold_left add xs a).
Proof.
  revert a. induction xs as [|x xs IH]; intros a; simpl; [reflexivity | apply IH].
Qed.

Lemma py_sum_cons x xs :
  py_sum (x :: xs) = PyBqm (fold_left add xs (radd x 0)).
Proof. unfold py_sum; simpl. apply fold_py_add_bqm. Qed.

Lemma py_sum_nonempty xs :
  xs <> [] -> exists b, py_sum xs = PyBqm b.
Proof.
  destruct xs as [|x xs]; [congruence|]. intros _.
  eexists. apply py_sum_cons.
Qed.

Lemma py_sum_nil : py_sum [] = PyNum 0.
Proof. reflexivity. Qed.

(** ** The objective generator *)

Local Open Scope nat_scope.

Lemma getitem_lookup {A} (l : list A) i x : l !! i = Some x -> getitem l i = OK x.
Proof. unfold getitem. intros ->. reflexivity. Qed.

Lemma getitem_out_of_range {A} (l : list A) i :
  length l <= i -> getitem l i = Raise IndexError.
Proof. unfold getitem. intros H. rewrite lookup_ge_None_2; [reflexivity | lia]. Qed.

Lemma objective_terms_from (T : list BinaryQuadraticModel) (R : list Q) m n :
  n + m <= length T -> n + m <= length R ->
  result_mapM (fun i => let* x := getitem T i in
                        let* r := getitem R i in
                        OK (mul x (- r)%Q))
              (seq n m)
  = OK (zip_with (fun x r => mul x (- r)%Q) (take m (drop n T)) (take m (drop n R))).
Proof.
  revert n. induction m as [|m IH]; intros n HT HR.
  - reflexivity.
  - destruct (lookup_lt_is_Some_2 T n) as [x Hx]; [lia|].
    destruct (lookup_lt_is_Some_2 R n) as [r Hr]; [lia|].
    rewrite (drop_S _ _ _ Hx), (drop_S _ _ _ Hr). simpl.
    rewrite (getitem_lookup _ _ _ Hx), (getitem_lookup _ _ _ Hr). simpl.
    rewrite IH by lia. reflexivity.
Qed.

Lemma objective_terms_ok to_buy returns :
  length to_buy <= length returns ->
  objective_terms to_buy returns
  = OK (zip_with (fun x r => mul x (- r)%Q) to_buy returns).
Proof.
  intros H. unfold objective_terms.
  rewrite objective_terms_from by (simpl; lia).
  rewrite !drop_0, take_ge by lia.
  rewrite zip_with_take_r. reflexivity.
Qed.

Lemma objective_terms_short_from (T : list BinaryQuadraticModel) (R : list Q) m n :
  n <= length R < n + m -> n + m <= length T ->
  result_mapM (fun i => let* x := getitem T i in
                        let* r := getitem R i in
                        OK (mul x (- r)%Q))
              (seq n m)
  = Raise IndexError.
Proof.
  revert n. induction m as [|m IH]; intros n HR HT; [lia|].
  simpl.
  destruct (lookup_lt_is_Some_2 T n) as [x Hx]; [lia|].
  rewrite (getitem_lookup _ _ _ Hx). simpl.
  destruct (decide (length R = n)) as [Heq|Hne].
  - rewrite getitem_out_of_range by lia. reflexivity.
  - destruct (lookup_lt_is_Some_2 R n) as [r Hr]; [lia|].
    rewrite (getitem_lookup _ _ _ Hr). simpl.
    rewrite IH by lia. reflexivity.
Qed.

(** A stock without its return makes the generator raise. *)
Lemma objective_terms_short to_buy returns :
  length returns < length to_buy ->
  objective_terms to_buy returns = Raise IndexError.
Proof.
  intros H. unfold objective_terms.
  apply objective_terms_short_from; lia.
Qed.

Lemma total_energy_terms s names returns :
  (total_energy (zip_with (fun x r => mul x (- r)%Q) (map Binary names) returns) s
   == linear_energy (zip names (map Qopp returns)) s)%Q.
Proof.
  revert returns. induction names as [|n names IH]; intros [|r returns]; simpl;
    try reflexivity.
  rewrite IH, energy_mul, energy_Binary. ring.
Qed.

Lemma linear_energy_opp s names returns :
  (linear_energy (zip names (map Qopp returns)) s
   == - linear_energy (zip names returns) s)%Q.
Proof.
  revert returns. induction names as [|n names IH]; intros [|r returns]; simpl;
    try reflexivity.
  rewrite IH. ring.
Qed.

Lemma variables_terms names returns :
  length names <= length returns ->
  map variables (zip_with (fun x r => mul x (- r)%Q) (map Binary names) returns)
  = map (fun n => [n]) names.
Proof.
  revert returns. induction names as [|n names IH]; intros [|r returns] H;
    simpl in *; try lia; try reflexivity.
  f_equal. apply IH. lia.
Qed.

Lemma variables_Binary names :
  map variables (map Binary names) = map (fun n => [n]) names.
Proof. rewrite map_map. reflexivity. Qed.

(** ** The budget constraint's iterable *)

Lemma py_zip_Binary names (price : list Q) :
  py_zip (map (fun stock => getitem (variables stock) 0) (map Binary names)) price
  = map OK (zip names price).
Proof.
  revert price. induction names as [|n names IH]; intros [|p price]; simpl;
    try reflexivity.
  rewrite IH. reflexivity.
Qed.

Lemma linear_from_iterable_ok known terms qm :
  (forall v, In v (map fst terms) -> In v known) ->
  linear_from_iterable known (map OK terms) qm
  = OK (fold_left (fun l vb => add_linear (fst vb) (snd vb) l) terms qm).
Proof.
  revert qm. induction terms as [|[v b] terms IH]; intros qm H; simpl.
  - reflexivity.
  - assert (Hv : mem v known = true).
    { apply mem_true_iff, H. left. reflexivity. }
    rewrite Hv. apply IH. intros u Hu. apply H. right. exact Hu.
Qed.

Lemma in_fst_zip {A B} (l : list A) (k : list B) x :
  In x (map fst (zip l k)) -> In x l.
Proof.
  revert k. induction l as [|a l IH]; intros [|b k]; simpl; try tauto.
  intros [->|H]; [left; reflexivity | right; eapply IH; exact H].
Qed.

(** ** What [define_cqm] builds from a list of binary variables *)

Lemma NoDup_add_variables_from vs known :
  NoDup known -> NoDup (add_variables_from vs known).
Proof.
  revert known. induction vs as [|v vs IH]; intros known H; [exact H|].
  rewrite add_variables_from_cons. apply IH.
  unfold add_variables_from; simpl.
  destruct (mem v known) eqn:Hm; [exact H|].
  apply NoDup_app. split; [exact H|]. split.
  - intros x Hx Hx'. apply list_elem_of_singleton in Hx'. subst.
    apply list_elem_of_In, mem_true_iff in Hx. congruence.
  - apply NoDup_singleton.
Qed.

Lemma add_variables_from_NoDup vs known :
  NoDup (known ++ vs) -> add_variables_from vs known = known ++ vs.
Proof.
  revert known. induction vs as [|v vs IH]; intros known H.
  - rewrite app_nil_r. reflexivity.
  - rewrite add_variables_from_cons.
    assert (Hv : add_variables_from [v] known = known ++ [v]).
    { unfold add_variables_from; simpl.
      destruct (mem v known) eqn:Hm; [|reflexivity].
      apply mem_true_iff, list_elem_of_In in Hm.
      apply NoDup_app in H as (_ & H & _).
      exfalso. apply (H v Hm). left. }
    rewrite Hv, IH; rewrite <- app_assoc; [reflexivity | exact H].
Qed.

Lemma add_variables_from_twice vs :
  add_variables_from (add_variables_from vs []) [] = add_variables_from vs [].
Proof.
  apply (add_variables_from_NoDup _ []). simpl.
  apply NoDup_add_variables_from, NoDup_nil_2.
Qed.

Lemma add_constraint_from_model_fresh cqm qm sn r label :
  mem label (map fst (constraints cqm)) = false ->
  add_constraint_from_model cqm qm sn r label
  = OK {| cqm_variables := add_variables_from (variables qm) (cqm_variables cqm);
          constraints := constraints cqm
                           ++ [(label, {| lhs := qm; sense := sn; rhs := r |})];
          objective := objective cqm |}.
Proof. unfold add_constraint_from_model. intros ->. reflexivity. Qed.

Lemma define_cqm1_nil k returns : Exercise1.define_cqm [] k returns = Raise TypeError.
Proof. reflexivity. Qed.

Lemma define_cqm3_nil k price returns budget :
  Exercise3.define_cqm [] k price returns budget = Raise TypeError.
Proof. reflexivity. Qed.

Lemma define_cqm1_constraints names k returns :
  names <> [] ->
  exists l,
    py_sum (map Binary names) = PyBqm l /\
    Exercise1.define_cqm (map Binary names) k returns
    = (let* terms := objective_terms (map Binary names) returns in
       set_objective (cqm1_constrained names k l) (py_sum terms)).
Proof.
  intros Hne.
  destruct (py_sum_nonempty (map Binary names)) as [l Hl].
  { destruct names; [congruence | discriminate]. }
  exists l. split; [exact Hl|].
  pose proof (summand_variables_py_sum _ _ (variables_Binary names)) as Hvl.
  rewrite Hl in Hvl. simpl in Hvl.
  unfold Exercise1.define_cqm, cqm1_constrained.
  rewrite Hl. cbn [py_eq add_constraint].
  unfold add_constraint_from_comparison. cbn [lhs sense rhs].
  rewrite add_constraint_from_model_fresh by reflexivity.
  cbn [rbind new_cqm cqm_variables constraints objective app].
  rewrite Hvl, add_variables_from_twice. reflexivity.
Qed.

Lemma define_cqm3_constraints names k price returns budget :
  names <> [] ->
  exists l,
    py_sum (map Binary names) = PyBqm l /\
    Exercise3.define_cqm (map Binary names) k price returns budget
    = (let* terms := objective_terms (map Binary names) returns in
       set_objective (cqm3_constrained names k price budget l) (py_sum terms)).
Proof.
  intros Hne.
  destruct (py_sum_nonempty (map Binary names)) as [l Hl].
  { destruct names; [congruence | discriminate]. }
  exists l. split; [exact Hl|].
  pose proof (summand_variables_py_sum _ _ (variables_Binary names)) as Hvl.
  rewrite Hl in Hvl. simpl in Hvl.
  unfold Exercise3.define_cqm, cqm3_constrained.
  rewrite Hl. cbn [py_eq add_constraint].
  unfold add_constraint_from_comparison. cbn [lhs sense rhs].
  rewrite add_constraint_from_model_fresh by reflexivity.
  cbn [rbind new_cqm cqm_variables constraints objective app].
  unfold Exercise3.extract_stock_names, Exercise3.get_stock_name.
  rewrite py_zip_Binary. unfold add_constraint_from_iterable.
  cbn [cqm_variables].
  rewrite linear_from_iterable_ok.
  2:{ intros v Hv. rewrite Hvl, add_variables_from_twice.
      apply in_add_variables_from. left. eapply in_fst_zip. exact Hv. }
  cbn [rbind].
  rewrite add_constraint_from_model_fresh by reflexivity.
  cbn [rbind cqm_variables constraints objective app].
  unfold variables at 1. cbn [linear].
  rewrite variables_fold_add_linear. cbn [map].
  rewrite Hvl, add_variables_from_twice.
  rewrite (add_variables_from_known
             (add_variables_from (map fst (zip names price)) [])).
  2:{ intros v Hv. apply in_add_variables_from in Hv as [Hv|[]].
      apply in_add_variables_from. left. eapply in_fst_zip. exact Hv. }
  reflexivity.
Qed.

(** The objective both scripts set, for binary variables with their returns. *)
Lemma objective_builds names returns cqm :
  names <> [] -> length names <= length returns ->
  cqm_variables cqm = add_variables_from names [] ->
  exists obj,
    py_sum (zip_with (fun x r => mul x (- r)%Q) (map Binary names) returns) = PyBqm obj /\
    variables obj = add_variables_from names [] /\
    (let* terms := objective_terms (map Binary names) returns in
     set_objective cqm (py_sum terms))
    = OK {| cqm_variables := add_variables_from names [];
            constraints := constraints cqm;
            objective := obj |}.
Proof.
  intros Hne Hlen Hvars.
  destruct (py_sum_nonempty
              (zip_with (fun x r => mul x (- r)%Q) (map Binary names) returns))
    as [obj Hobj].
  { destruct names; [congruence|]. destruct returns; simpl in *; [lia | discriminate]. }
  pose proof (summand_variables_py_sum _ _ (variables_terms names returns Hlen)) as Hvo.
  rewrite Hobj in Hvo. simpl in Hvo.
  exists obj. split; [exact Hobj|]. split; [exact Hvo|].
  rewrite objective_terms_ok by (rewrite length_map; exact Hlen).
  cbn [rbind]. rewrite Hobj. cbn [set_objective].
  rewrite Hvo, Hvars, add_variables_from_idem. reflexivity.
Qed.

Lemma define_cqm1_builds names k returns :
  names <> [] -> length names <= length returns ->
  exists l obj,
    py_sum (map Binary names) = PyBqm l /\
    py_sum (zip_with (fun x r => mul x (- r)%Q) (map Binary names) returns) = PyBqm obj /\
    variables l = add_variables_from names [] /\
    variables obj = add_variables_from names [] /\
    Exercise1.define_cqm (map Binary names) k returns
    = OK {| cqm_variables := add_variables_from names [];
            constraints := constraints (cqm1_constrained names k l);
            objective := obj |}.
Proof.
  intros Hne Hlen.
  destruct (define_cqm1_constraints names k returns Hne) as (l & Hl & ->).
  destruct (objective_builds names returns (cqm1_constrained names k l) Hne Hlen)
    as (obj & Hobj & Hvo & ->); [reflexivity|].
  exists l, obj. repeat split; try assumption.
  pose proof (summand_variables_py_sum _ _ (variables_Binary names)) as Hvl.
  rewrite Hl in Hvl. exact Hvl.
Qed.

Lemma define_cqm3_builds names k price returns budget :
  names <> [] -> length names <= length returns ->
  exists l obj,
    py_sum (map Binary names) = PyBqm l /\
    py_sum (zip_with (fun x r => mul x (- r)%Q) (map Binary names) returns) = PyBqm obj /\
    variables l = add_variables_from names [] /\
    variables obj = add_variables_from names [] /\
    Exercise3.define_cqm (map Binary names) k price returns budget
    = OK {| cqm_variables := add_variables_from names [];
            constraints := constraints (cqm3_constrained names k price budget l);
            objective := obj |}.
Proof.
  intros Hne Hlen.
  destruct (define_cqm3_constraints names k price returns budget Hne) as (l & Hl & ->).
  destruct (objective_builds names returns (cqm3_constrained names k price budget l)
              Hne Hlen)
    as (obj & Hobj & Hvo & ->); [reflexivity|].
  exists l, obj. repeat split; try assumption.
  pose proof (summand_variables_py_sum _ _ (variables_Binary names)) as Hvl.
  rewrite Hl in Hvl. exact Hvl.
Qed.

(** [define_cqm] returns a model exactly for a non-empty list of variables
    with a return for each. *)
Lemma define_cqm1_returns_iff names k returns :
  (exists cqm, Exercise1.define_cqm (map Binary names) k returns = OK cqm)
  <-> names <> [] /\ length names <= length returns.
Proof.
  split.
  - intros [cqm H]. destruct names as [|n names]; [discriminate|].
    split; [discriminate|].
    destruct (le_lt_dec (length (n :: names)) (length returns)) as [|Hlt]; [assumption|].
    destruct (define_cqm1_constraints (n :: names) k returns) as (l & _ & Heq);
      [discriminate|].
    rewrite Heq, objective_terms_short in H by (rewrite length_map; exact Hlt).
    discriminate.
  - intros [Hne Hlen].
    destruct (define_cqm1_builds names k returns Hne Hlen) as (l & obj & _ & _ & _ & _ & H).
    eexists. exact H.
Qed.

Lemma define_cqm3_returns_iff names k price returns budget :
  (exists cqm, Exercise3.define_cqm (map Binary names) k price returns budget = OK cqm)
  <-> names <> [] /\ length names <= length returns.
Proof.
  split.
  - intros [cqm H]. destruct names as [|n names]; [discriminate|].
    split; [discriminate|].
    destruct (le_lt_dec (length (n :: names)) (length returns)) as [|Hlt]; [assumption|].
    destruct (define_cqm3_constraints (n :: names) k price returns budget)
      as (l & _ & Heq); [discriminate|].
    rewrite Heq, objective_terms_short in H by (rewrite length_map; exact Hlt).
    discriminate.
  - intros [Hne Hlen].
    destruct (define_cqm3_builds names k price returns budget Hne Hlen)
      as (l & obj & _ & _ & _ & _ & H).
    eexists. exact H.
Qed.

Lemma energy_of_py_sum xs b s :
  py_sum xs = PyBqm b -> (energy b s == total_energy xs s)%Q.
Proof.
  intros H. pose proof (summand_energy_py_sum s xs) as E.
  rewrite H in E. exact E.
Qed.

Lemma energy_from_iterable terms s :
  (energy {| linear := fold_left (fun l vb => add_linear (fst vb) (snd vb) l) terms [];
             offset := 0 |} s
   == linear_energy terms s)%Q.
Proof.
  unfold energy; simpl. rewrite linear_energy_fold_add_linear. simpl. ring.
Qed.

(** ** The constraint [choose k stocks] *)

Lemma asserts_choose_k_intro names k l :
  py_sum (map Binary names) = PyBqm l ->
  asserts_choose_k names k {| lhs := l; sense := SenseEq; rhs := inject_Z k |}.
Proof.
  intros Hl. unfold asserts_choose_k; cbn [lhs sense rhs].
  repeat split; auto.
  - intros s. apply energy_of_py_sum. exact Hl.
  - unfold satisfied; cbn [lhs sense rhs]. intros H.
    apply Qeq_bool_iff in H.
    rewrite (energy_of_py_sum _ _ s Hl), total_energy_Binary in H.
    apply inject_Z_injective. exact H.
  - unfold satisfied; cbn [lhs sense rhs]. intros H.
    apply Qeq_bool_iff.
    rewrite (energy_of_py_sum _ _ s Hl), total_energy_Binary, H. reflexivity.
Qed.

(** C1 (as amended): for every non-empty list of stock variables and every
    integer [num_stocks_to_buy] that a float64 holds, in a call whose other
    numbers are float64 numbers too (a return for each stock and, in
    exercise_3, the prices and the budget), [define_cqm] of exercise_1 and
    of exercise_3 returns a CQM whose constraint labelled "choose k stocks"
    equates the sum of the stock variables with [num_stocks_to_buy]; an
    assignment satisfies it exactly when it selects [num_stocks_to_buy] of
    the stocks. *)
Theorem choose_k_stocks_constraint (names : list string) (k : Z)
    (price returns : list Q) (budget : Q) :
  names <> [] -> length names <= length returns ->
  float64 (inject_Z k) -> Forall float64 returns ->
  Forall float64 price -> float64 budget ->
  (exists cqm c,
      Exercise1.define_cqm (map Binary names) k returns = OK cqm /\
      find_constraint "choose k stocks" (constraints cqm) = Some c /\
      asserts_choose_k names k c) /\
  (exists cqm c,
      Exercise3.define_cqm (map Binary names) k price returns budget = OK cqm /\
      find_constraint "choose k stocks" (constraints cqm) = Some c /\
      asserts_choose_k names k c).
Proof.
  intros Hne Hlen _ _ _ _. split.
  - destruct (define_cqm1_builds names k returns Hne Hlen)
      as (l & obj & Hl & _ & _ & _ & H).
    eexists _, _. split; [exact H|]. split; [reflexivity|].
    apply asserts_choose_k_intro. exact Hl.
  - destruct (define_cqm3_builds names k price returns budget Hne Hlen)
      as (l & obj & Hl & _ & _ & _ & H).
    eexists _, _. split; [exact H|]. split; [reflexivity|].
    apply asserts_choose_k_intro. exact Hl.
Qed.

Lemma choose_k_stocks_constraint_witness :
  (["s_T"; "s_GE"] <> [] /\ length ["s_T"; "s_GE"] <= length [(1#2)%Q; (3#4)%Q] /\
   float64 (inject_Z 1) /\ Forall float64 [(1#2)%Q; (3#4)%Q] /\
   Forall float64 [30%Q; 50%Q] /\ float64 80) /\
  (exists cqm c,
      Exercise1.define_cqm (map Binary ["s_T"; "s_GE"]) 1 [(1#2)%Q; (3#4)%Q] = OK cqm /\
      find_constraint "choose k stocks" (constraints cqm) = Some c /\
      asserts_choose_k ["s_T"; "s_GE"] 1 c) /\
  (exists cqm c,
      Exercise3.define_cqm (map Binary ["s_T"; "s_GE"]) 1 [30%Q; 50%Q]
                           [(1#2)%Q; (3#4)%Q] 80%Q = OK cqm /\
      find_constraint "choose k stocks" (constraints cqm) = Some c /\
      asserts_choose_k ["s_T"; "s_GE"] 1 c).
Proof.
  assert (Hk : float64 (inject_Z 1)) by float64_closed.
  assert (Hr : Forall float64 [(1#2)%Q; (3#4)%Q]) by float64_list.
  assert (Hp : Forall float64 [30%Q; 50%Q]) by float64_list.
  assert (Hb : float64 80) by float64_closed.
  split.
  - split; [discriminate|]. split; [simpl; lia|]. auto.
  - apply (choose_k_stocks_constraint ["s_T"; "s_GE"] 1 [30%Q; 50%Q]
                                      [(1#2)%Q; (3#4)%Q] 80%Q);
      [discriminate | simpl; lia | exact Hk | exact Hr | exact Hp | exact Hb].
Defined.

(** C1 as stated fails on the empty list of stocks: Python's [sum] of an
    empty list is the integer 0, [0 == 0] is a Python bool, and
    [add_constraint] raises [TypeError] on it, so no CQM is returned.  Nor
    does it hold for every integer: the SDK stores the right side as a
    float64, which [2^53 + 1] and [10^400] are not, so that the stored right
    side is another number, or none. *)
Lemma choose_k_stocks_counterexamples :
  Exercise1.define_cqm (map Binary []) 0 [] = Raise TypeError /\
  Exercise3.define_cqm (map Binary []) 0 [] [] 0%Q = Raise TypeError /\
  ~ (exists cqm c,
        Exercise1.define_cqm (map Binary []) 0 [] = OK cqm /\
        find_constraint "choose k stocks" (constraints cqm) = Some c /\
        asserts_choose_k [] 0 c) /\
  ~ float64 (inject_Z (2 ^ 53 + 1)) /\
  ~ float64 (inject_Z (10 ^ 400)).
Proof.
  split; [reflexivity|]. split; [reflexivity|]. split.
  - intros (cqm & c & H & _). discriminate H.
  - split; [exact not_float64_2_53_1 | exact not_float64_10_400].
Qed.

(** ** The objective *)

Lemma negated_return_objective_intro names returns obj :
  py_sum (zip_with (fun x r => mul x (- r)%Q) (map Binary names) returns) = PyBqm obj ->
  negated_return_objective names returns obj.
Proof.
  intros Hobj.
  assert (E : forall s, (energy obj s == - total_return names returns s)%Q).
  { intros s. unfold total_return.
    rewrite (energy_of_py_sum _ _ s Hobj), total_energy_terms.
    apply linear_energy_opp. }
  unfold negated_return_objective. split; [exact Hobj|]. split; [|split].
  - intros s. rewrite (energy_of_py_sum _ _ s Hobj). apply total_energy_terms.
  - exact E.
  - intros s1 s2. rewrite !E. split; intros H.
    + apply Qopp_le_compat in H. rewrite !Qopp_involutive in H. exact H.
    + apply Qopp_le_compat. exact H.
Qed.

(** C2 (as amended): for every non-empty list of pairwise different stock
    variables and float64 returns with [returns[i]] the average return of
    [stocks[i]] (in a call whose other numbers are float64 numbers too),
    [define_cqm] of either script returns a CQM whose objective is the sum
    over [i] of [(-returns[i]) * stocks[i]]: its energy is the negated total
    return of the selected stocks, so minimising it maximises that
    return. *)
Theorem objective_maximizes_returns (names : list string) (k : Z)
    (price returns : list Q) (budget : Q) :
  names <> [] -> NoDup names -> length names <= length returns ->
  float64 (inject_Z k) -> Forall float64 returns ->
  Forall float64 price -> float64 budget ->
  (exists cqm,
      Exercise1.define_cqm (map Binary names) k returns = OK cqm /\
      negated_return_objective names returns (objective cqm)) /\
  (exists cqm,
      Exercise3.define_cqm (map Binary names) k price returns budget = OK cqm /\
      negated_return_objective names returns (objective cqm)).
Proof.
  intros Hne _ Hlen _ _ _ _. split.
  - destruct (define_cqm1_builds names k returns Hne Hlen)
      as (l & obj & _ & Hobj & _ & _ & H).
    eexists. split; [exact H|].
    apply negated_return_objective_intro. exact Hobj.
  - destruct (define_cqm3_builds names k price returns budget Hne Hlen)
      as (l & obj & _ & Hobj & _ & _ & H).
    eexists. split; [exact H|].
    apply negated_return_objective_intro. exact Hobj.
Qed.

Lemma objective_maximizes_returns_witness :
  (["s_T"; "s_GE"] <> [] /\ NoDup ["s_T"; "s_GE"] /\
   length ["s_T"; "s_GE"] <= length [(1#2)%Q; (3#4)%Q] /\
   float64 (inject_Z 1) /\ Forall float64 [(1#2)%Q; (3#4)%Q] /\
   Forall float64 [30%Q; 50%Q] /\ float64 80) /\
  (exists cqm,
      Exercise1.define_cqm (map Binary ["s_T"; "s_GE"]) 1 [(1#2)%Q; (3#4)%Q] = OK cqm /\
      negated_return_objective ["s_T"; "s_GE"] [(1#2)%Q; (3#4)%Q] (objective cqm)) /\
  (exists cqm,
      Exercise3.define_cqm (map Binary ["s_T"; "s_GE"]) 1 [30%Q; 50%Q]
                           [(1#2)%Q; (3#4)%Q] 80%Q = OK cqm /\
      negated_return_objective ["s_T"; "s_GE"] [(1#2)%Q; (3#4)%Q] (objective cqm)).
Proof.
  assert (Hnd : NoDup ["s_T"; "s_GE"]).
  { repeat constructor; rewrite ?list_elem_of_In; simpl; intuition discriminate. }
  assert (Hk : float64 (inject_Z 1)) by float64_closed.
  assert (Hr : Forall float64 [(1#2)%Q; (3#4)%Q]) by float64_list.
  assert (Hp : Forall float64 [30%Q; 50%Q]) by float64_list.
  assert (Hb : float64 80) by float64_closed.
  split.
  - split; [discriminate|]. split; [exact Hnd|]. split; [simpl; lia|]. auto.
  - apply (objective_maximizes_returns ["s_T"; "s_GE"] 1 [30%Q; 50%Q]
                                       [(1#2)%Q; (3#4)%Q] 80%Q);
      [discriminate | exact Hnd | simpl; lia | exact Hk | exact Hr | exact Hp
       | exact Hb].
Defined.

(** C2 as stated fails on the empty list of stocks: [define_cqm] raises
    before it sets any objective.  It also fails for a stock variable listed
    twice, with the returns 0.1 and 0.2: the sum the claim names for it,
    minus the sum of the two returns, is not a float64, while the bias the
    SDK stores is one (the rounded sum). *)
Lemma objective_counterexamples :
  Exercise1.define_cqm (map Binary []) 2 [] = Raise TypeError /\
  Exercise3.define_cqm (map Binary []) 2 [] [] 80%Q = Raise TypeError /\
  ~ (exists cqm,
        Exercise1.define_cqm (map Binary []) 2 [] = OK cqm /\
        negated_return_objective [] [] (objective cqm)) /\
  (Forall float64 [(3602879701896397 # 36028797018963968)%Q;
                   (3602879701896397 # 18014398509481984)%Q] /\
   exists cqm b,
     Exercise1.define_cqm (map Binary ["s_T"; "s_T"]) 1
       [(3602879701896397 # 36028797018963968)%Q;
        (3602879701896397 # 18014398509481984)%Q] = OK cqm /\
     linear (objective cqm) = [("s_T", b)] /\
     (b == - ((3602879701896397 # 36028797018963968)
              + (3602879701896397 # 18014398509481984)))%Q /\
     ~ float64 b).
Proof.
  destruct float64_sum_rounds as (F1 & F2 & F3).
  split; [reflexivity|]. split; [reflexivity|]. split.
  - intros (cqm & H & _). discriminate H.
  - split; [repeat constructor; assumption|].
    eexists _, _. split; [reflexivity|]. split; [reflexivity|]. split.
    + reflexivity.
    + intros H. apply F3. apply float64_opp in H.
      eapply float64_Qeq; [|exact H]. reflexivity.
Qed.

(** ** The budget constraint *)

Lemma asserts_budget_intro names price budget :
  asserts_budget names price budget
    {| lhs := {| linear := fold_left (fun l vb => add_linear (fst vb) (snd vb) l)
                                     (zip names price) [];
                 offset := 0 |};
       sense := SenseLe; rhs := budget |}.
Proof.
  unfold asserts_budget, total_price; cbn [lhs sense rhs].
  split; [reflexivity|]. split; [reflexivity|]. split.
  - intros s. apply energy_from_iterable.
  - intros s. unfold satisfied; cbn [lhs sense rhs].
    rewrite Qle_bool_iff, energy_from_iterable. reflexivity.
Qed.

(** C3 (as amended): for every non-empty list of pairwise different stock
    variables with a return and a price for each, all numbers of the call
    being float64 numbers, the CQM of exercise_3 has exactly two
    constraints, "choose k stocks" and then "budget_limitation", the second
    asserting [sum price[i] * stocks[i] <= budget]; the CQM of exercise_1
    has the single constraint "choose k stocks". *)
Theorem budget_constraint_only_in_exercise_3 (names : list string) (k : Z)
    (price returns : list Q) (budget : Q) :
  names <> [] -> NoDup names ->
  length names <= length returns -> length names <= length price ->
  float64 (inject_Z k) -> Forall float64 returns ->
  Forall float64 price -> float64 budget ->
  (exists cqm c,
      Exercise3.define_cqm (map Binary names) k price returns budget = OK cqm /\
      map fst (constraints cqm) = ["choose k stocks"; "budget_limitation"] /\
      find_constraint "budget_limitation" (constraints cqm) = Some c /\
      asserts_budget names price budget c) /\
  (exists cqm,
      Exercise1.define_cqm (map Binary names) k returns = OK cqm /\
      map fst (constraints cqm) = ["choose k stocks"] /\
      find_constraint "budget_limitation" (constraints cqm) = None).
Proof.
  intros Hne _ Hlen _ _ _ _ _. split.
  - destruct (define_cqm3_builds names k price returns budget Hne Hlen)
      as (l & obj & _ & _ & _ & _ & H).
    eexists _, _. split; [exact H|]. split; [reflexivity|]. split; [reflexivity|].
    apply asserts_budget_intro.
  - destruct (define_cqm1_builds names k returns Hne Hlen)
      as (l & obj & _ & _ & _ & _ & H).
    eexists. split; [exact H|]. split; reflexivity.
Qed.

Lemma budget_constraint_only_in_exercise_3_witness :
  (["s_T"; "s_GE"] <> [] /\ NoDup ["s_T"; "s_GE"] /\
   length ["s_T"; "s_GE"] <= length [(1#2)%Q; (3#4)%Q] /\
   length ["s_T"; "s_GE"] <= length [30%Q; 50%Q] /\
   float64 (inject_Z 1) /\ Forall float64 [(1#2)%Q; (3#4)%Q] /\
   Forall float64 [30%Q; 50%Q] /\ float64 80) /\
  (exists cqm c,
      Exercise3.define_cqm (map Binary ["s_T"; "s_GE"]) 1 [30%Q; 50%Q]
                           [(1#2)%Q; (3#4)%Q] 80%Q = OK cqm /\
      map fst (constraints cqm) = ["choose k stocks"; "budget_limitation"] /\
      find_constraint "budget_limitation" (constraints cqm) = Some c /\
      asserts_budget ["s_T"; "s_GE"] [30%Q; 50%Q] 80%Q c) /\
  (exists cqm,
      Exercise1.define_cqm (map Binary ["s_T"; "s_GE"]) 1 [(1#2)%Q; (3#4)%Q] = OK cqm /\
      map fst (constraints cqm) = ["choose k stocks"] /\
      find_constraint "budget_limitation" (constraints cqm) = None).
Proof.
  assert (Hnd : NoDup ["s_T"; "s_GE"]).
  { repeat constructor; rewrite ?list_elem_of_In; simpl; intuition discriminate. }
  assert (Hk : float64 (inject_Z 1)) by float64_closed.
  assert (Hr : Forall float64 [(1#2)%Q; (3#4)%Q]) by float64_list.
  assert (Hp : Forall float64 [30%Q; 50%Q]) by float64_list.
  assert (Hb : float64 80) by float64_closed.
  split.
  - split; [discriminate|]. split; [exact Hnd|]. split; [simpl; lia|].
    split; [simpl; lia|]. auto.
  - apply (budget_constraint_only_in_exercise_3 ["s_T"; "s_GE"] 1 [30%Q; 50%Q]
                                                [(1#2)%Q; (3#4)%Q] 80%Q);
      [discriminate | exact Hnd | simpl; lia | simpl; lia | exact Hk | exact Hr
       | exact Hp | exact Hb].
Defined.

(** C3 as stated ("for every input") fails
    - on the empty list of stocks: exercise_3's [define_cqm] raises, and
      builds no constraint at all;
    - when a stock has no price: the budget constraint leaves that stock
      out, so it does not bound the sum over every [i];
    - for a stock variable listed twice, with the prices 0.1 and 0.2: the
      sum of its prices is not a float64, while the bias the SDK stores is
      one (the rounded sum);
    - for a budget that float64 does not hold, such as [10^400]. *)
Lemma budget_constraint_counterexamples :
  (Exercise3.define_cqm (map Binary []) 1 [] [] 80%Q = Raise TypeError /\
   Exercise1.define_cqm (map Binary []) 1 [] = Raise TypeError /\
   ~ (exists cqm c,
         Exercise3.define_cqm (map Binary []) 1 [] [] 80%Q = OK cqm /\
         find_constraint "budget_limitation" (constraints cqm) = Some c)) /\
  (exists cqm c,
      Exercise3.define_cqm (map Binary ["s_T"; "s_GE"; "s_VZ"]) 1 [30%Q; 50%Q]
                           [(1#2)%Q; (3#4)%Q; (1#4)%Q] 80%Q = OK cqm /\
      find_constraint "budget_limitation" (constraints cqm) = Some c /\
      variables (lhs c) = ["s_T"; "s_GE"]) /\
  (exists cqm c b,
      Exercise3.define_cqm (map Binary ["s_T"; "s_T"]) 1
        [(3602879701896397 # 36028797018963968)%Q;
         (3602879701896397 # 18014398509481984)%Q]
        [(1#2)%Q; (3#4)%Q] 80%Q = OK cqm /\
      find_constraint "budget_limitation" (constraints cqm) = Some c /\
      linear (lhs c) = [("s_T", b)] /\
      (b == (3602879701896397 # 36028797018963968)
            + (3602879701896397 # 18014398509481984))%Q /\
      ~ float64 b) /\
  ~ float64 (inject_Z (10 ^ 400)).
Proof.
  destruct float64_sum_rounds as (F1 & F2 & F3).
  split; [|split; [|split]].
  - split; [reflexivity|]. split; [reflexivity|].
    intros (cqm & c & H & _). discriminate H.
  - eexists _, _. split; [reflexivity|]. split; reflexivity.
  - eexists _, _, _. split; [reflexivity|]. split; [reflexivity|].
    split; [reflexivity|]. split; [reflexivity|].
    intros H. apply F3. eapply float64_Qeq; [|exact H]. reflexivity.
  - exact not_float64_10_400.
Qed.

(** ** The decision variables *)

Lemma lookup_map {A B} (f : A -> B) (l : list A) (i : nat) :
  map f l !! i = option_map f (l !! i).
Proof.
  revert i. induction l as [|x l IH]; intros [|i]; simpl; auto.
Qed.

(** C4: [define_variables] of either script returns a list as long as
    [stockcodes], whose [i]-th element is the binary variable named "s_"
    followed by [stockcodes[i]]: a model over that one variable, worth 1
    when the variable is set and 0 otherwise. *)
Theorem define_variables_one_binary_per_stock (stockcodes : list string) :
  (length (Exercise1.define_variables stockcodes) = length stockcodes /\
   forall i, Exercise1.define_variables stockcodes !! i
             = option_map (fun stock => Binary ("s_" +:+ stock)) (stockcodes !! i)) /\
  (length (Exercise3.define_variables stockcodes) = length stockcodes /\
   forall i, Exercise3.define_variables stockcodes !! i
             = option_map (fun stock => Binary ("s_" +:+ stock)) (stockcodes !! i)) /\
  (forall label, variables (Binary label) = [label] /\
                 forall s, (energy (Binary label) s == if s label then 1 else 0)%Q).
Proof.
  split; [|split].
  - split; [apply length_map | intros i; apply lookup_map].
  - split; [apply length_map | intros i; apply lookup_map].
  - intros label. split; [reflexivity|].
    intros s. apply energy_Binary.
Qed.

(** ** One variable set for the whole model *)

Lemma fst_zip_le {A B} (l : list A) (k : list B) :
  length l <= length k -> map fst (zip l k) = l.
Proof.
  revert k. induction l as [|a l IH]; intros [|b k] H; simpl in *;
    try reflexivity; try lia.
  f_equal. apply IH. lia.
Qed.

(** C7 (as amended): when every stock is a single binary variable and
    [price] has an entry for each stock, the name exercise_3 extracts for
    the [i]-th stock is the name of that variable, and the budget
    constraint, the constraint "choose k stocks", the objective and the CQM
    itself range over the same variables, which are the stocks' names. *)
Theorem budget_constraint_shares_variables (names : list string) (k : Z)
    (price returns : list Q) (budget : Q) (cqm : ConstrainedQuadraticModel) :
  length names <= length price ->
  Exercise3.define_cqm (map Binary names) k price returns budget = OK cqm ->
  (forall i, Exercise3.extract_stock_names (map Binary names) !! i
             = option_map OK (names !! i)) /\
  exists c1 c2,
    constraints cqm = [("choose k stocks", c1); ("budget_limitation", c2)] /\
    variables (lhs c2) = variables (lhs c1) /\
    variables (objective cqm) = variables (lhs c1) /\
    cqm_variables cqm = variables (lhs c1) /\
    (forall v, In v (variables (lhs c1)) <-> In v names).
Proof.
  intros Hprice H. split.
  - intros i. unfold Exercise3.extract_stock_names.
    rewrite map_map, lookup_map. reflexivity.
  - destruct (proj1 (define_cqm3_returns_iff names k price returns budget))
      as [Hne Hlen]; [eexists; exact H|].
    destruct (define_cqm3_builds names k price returns budget Hne Hlen)
      as (l & obj & _ & _ & Hvl & Hvo & Heq).
    rewrite Heq in H. injection H as <-.
    eexists _, _. split; [reflexivity|].
    cbn [lhs objective cqm_variables].
    rewrite Hvl, Hvo. repeat split; try reflexivity.
    + unfold variables; cbn [linear].
      rewrite variables_fold_add_linear, fst_zip_le by exact Hprice. reflexivity.
    + intros Hv. apply in_add_variables_from in Hv as [Hv|[]]. exact Hv.
    + intros Hv. apply in_add_variables_from. left. exact Hv.
Qed.

Lemma budget_constraint_shares_variables_witness :
  exists cqm,
    (length ["s_T"; "s_GE"] <= length [30%Q; 50%Q] /\
     Exercise3.define_cqm (map Binary ["s_T"; "s_GE"]) 1 [30%Q; 50%Q]
                          [(1#2)%Q; (3#4)%Q] 80%Q = OK cqm) /\
    (forall i, Exercise3.extract_stock_names (map Binary ["s_T"; "s_GE"]) !! i
               = option_map OK (["s_T"; "s_GE"] !! i)) /\
    exists c1 c2,
      constraints cqm = [("choose k stocks", c1); ("budget_limitation", c2)] /\
      variables (lhs c2) = variables (lhs c1) /\
      variables (objective cqm) = variables (lhs c1) /\
      cqm_variables cqm = variables (lhs c1) /\
      (forall v, In v (variables (lhs c1)) <-> In v ["s_T"; "s_GE"]).
Proof.
  eexists. split.
  - split; [simpl; lia | reflexivity].
  - apply (budget_constraint_shares_variables ["s_T"; "s_GE"] 1 [30%Q; 50%Q]
                                              [(1#2)%Q; (3#4)%Q] 80%Q).
    + simpl; lia.
    + reflexivity.
Defined.

(** C7 as stated, with single-variable stocks as its only precondition,
    fails when [price] is shorter than [stocks]: [zip] stops with the
    prices, and the budget constraint binds fewer variables than the
    constraint "choose k stocks" and the objective. *)
Lemma budget_constraint_misses_stock_without_price :
  exists cqm c1 c2,
    Exercise3.define_cqm (map Binary ["s_T"; "s_GE"; "s_VZ"]) 1 [30%Q; 50%Q]
                         [(1#2)%Q; (3#4)%Q; (1#4)%Q] 80%Q = OK cqm /\
    constraints cqm = [("choose k stocks", c1); ("budget_limitation", c2)] /\
    variables (lhs c1) = ["s_T"; "s_GE"; "s_VZ"] /\
    variables (objective cqm) = ["s_T"; "s_GE"; "s_VZ"] /\
    variables (lhs c2) = ["s_T"; "s_GE"] /\
    variables (lhs c2) <> variables (lhs c1).
Proof.
  eexists _, _, _. split; [reflexivity|]. split; [reflexivity|].
  split; [reflexivity|]. split; [reflexivity|]. split; [reflexivity|].
  discriminate.
Qed.

(** ** The index pairs of the covariance matrix *)

Lemma in_range z n : In z (Exercise3.range n) <-> (0 <= z < n)%Z.
Proof.
  unfold Exercise3.range. rewrite in_map_iff. split.
  - intros [x [<- Hx]]. apply in_seq in Hx. lia.
  - intros H. exists (Z.to_nat z). split; [lia | apply in_seq; lia].
Qed.

Lemma range_succ m :
  Exercise3.range (Z.of_nat (S m)) = Exercise3.range (Z.of_nat m) ++ [Z.of_nat m].
Proof.
  unfold Exercise3.range. rewrite !Nat2Z.id, seq_S, map_app. reflexivity.
Qed.

Lemma length_range m : length (Exercise3.range (Z.of_nat m)) = m.
Proof. unfold Exercise3.range. rewrite length_map, length_seq. lia. Qed.

Lemma range_sorted n : StronglySorted Z.lt (Exercise3.range n).
Proof.
  unfold Exercise3.range. generalize 0. induction (Z.to_nat n) as [|m IH];
    intros start; simpl; constructor.
  - apply IH.
  - apply List.Forall_forall. intros x Hx.
    apply in_map_iff in Hx as [y [<- Hy]]. apply in_seq in Hy. lia.
Qed.

Lemma in_rows (r1 r2 : list Z) i j :
  In (i, j) (flat_map (fun i => map (fun j => (i, j)) r2) r1) <-> In i r1 /\ In j r2.
Proof.
  rewrite in_flat_map. split.
  - intros [x [Hx Hin]]. apply in_map_iff in Hin as [y [Heq Hy]].
    injection Heq as -> ->. auto.
  - intros [H1 H2]. exists i. split; [exact H1|].
    apply in_map_iff. exists j. auto.
Qed.

Lemma row_sorted i (r : list Z) :
  StronglySorted Z.lt r -> StronglySorted lex_lt (map (fun j => (i, j)) r).
Proof.
  induction 1 as [|j r Hr IH Hall]; simpl; constructor.
  - exact IH.
  - apply List.Forall_forall. intros p Hp.
    apply in_map_iff in Hp as [j' [<- Hj']].
    rewrite List.Forall_forall in Hall. right. simpl. split; [reflexivity|].
    apply Hall. exact Hj'.
Qed.

Lemma rows_sorted (r1 r2 : list Z) :
  StronglySorted Z.lt r1 -> StronglySorted Z.lt r2 ->
  StronglySorted lex_lt (flat_map (fun i => map (fun j => (i, j)) r2) r1).
Proof.
  intros H1 H2. induction H1 as [|i r1 Hr IH Hall]; simpl.
  - constructor.
  - apply StronglySorted_app_2.
    + intros [a b] [c d] Hab Hcd.
      apply list_elem_of_In, in_map_iff in Hab as [j [Heq _]].
      apply list_elem_of_In, in_rows in Hcd as [Hc _].
      injection Heq as <- <-.
      rewrite List.Forall_forall in Hall. left. simpl. apply Hall. exact Hc.
    + apply row_sorted. exact H2.
    + exact IH.
Qed.

Lemma filter_sorted {A} (R : A -> A -> Prop) (f : A -> bool) (l : list A) :
  StronglySorted R l -> StronglySorted R (List.filter f l).
Proof.
  induction 1 as [|x l Hl IH Hall]; simpl; [constructor|].
  destruct (f x); [|exact IH].
  constructor; [exact IH|].
  apply List.Forall_forall. intros y Hy. apply filter_In in Hy as [Hy _].
  rewrite List.Forall_forall in Hall. apply Hall. exact Hy.
Qed.

Lemma count_app_l (P : Z * Z -> bool) (r1 r1' r2 : list Z) :
  length (List.filter P (flat_map (fun i => map (fun j => (i, j)) r2) (r1 ++ r1')))
  = length (List.filter P (flat_map (fun i => map (fun j => (i, j)) r2) r1))
    + length (List.filter P (flat_map (fun i => map (fun j => (i, j)) r2) r1')).
Proof.
  rewrite flat_map_app, List.filter_app, length_app. reflexivity.
Qed.

Lemma count_snoc_r (P : Z * Z -> bool) (r1 r2 : list Z) (x : Z) :
  length (List.filter P (flat_map (fun i => map (fun j => (i, j)) (r2 ++ [x])) r1))
  = length (List.filter P (flat_map (fun i => map (fun j => (i, j)) r2) r1))
    + length (List.filter (fun i => P (i, x)) r1).
Proof.
  induction r1 as [|i r1 IH]; simpl; [reflexivity|].
  rewrite map_app, !List.filter_app, !length_app, IH. simpl.
  destruct (P (i, x)); simpl; lia.
Qed.

Lemma filter_all {A} (f : A -> bool) (l : list A) :
  (forall x, In x l -> f x = true) -> List.filter f l = l.
Proof.
  induction l as [|x l IH]; intros H; simpl; [reflexivity|].
  rewrite (H x) by (left; reflexivity). f_equal. apply IH.
  intros y Hy. apply H. right. exact Hy.
Qed.

Lemma filter_none {A} (f : A -> bool) (l : list A) :
  (forall x, In x l -> f x = false) -> List.filter f l = [].
Proof.
  induction l as [|x l IH]; intros H; simpl; [reflexivity|].
  rewrite (H x) by (left; reflexivity). apply IH.
  intros y Hy. apply H. right. exact Hy.
Qed.

Lemma length_entries m :
  2 * length (Exercise3.generate_unique_covar_matrix_entries (Z.of_nat m))
  = m * (m + 1).
Proof.
  unfold Exercise3.generate_unique_covar_matrix_entries, Exercise3.product2.
  induction m as [|m IH]; [reflexivity|].
  rewrite range_succ, count_app_l, !count_snoc_r.
  rewrite (filter_all _ (Exercise3.range (Z.of_nat m))).
  2:{ intros i Hi. apply in_range in Hi.
      unfold Exercise3.is_part_of_lower_triangular_matrix; simpl. lia. }
  rewrite length_range. simpl flat_map. rewrite app_nil_r.
  rewrite (filter_none _ (map _ (Exercise3.range (Z.of_nat m)))).
  2:{ intros [a b] Hab. apply in_map_iff in Hab as [j [Heq Hj]].
      injection Heq as <- <-. apply in_range in Hj.
      unfold Exercise3.is_part_of_lower_triangular_matrix; simpl. lia. }
  simpl List.filter.
  unfold Exercise3.is_part_of_lower_triangular_matrix at 2; simpl fst; simpl snd.
  rewrite Z.leb_refl. simpl length. lia.
Qed.

(** C6: for [n >= 0], [generate_unique_covar_matrix_entries n] is the list of
    the index pairs [(i, j)] with [0 <= i <= j <= n - 1], each once, in
    increasing lexicographic order; there are [n * (n + 1) / 2] of them. *)
Theorem covar_entries_upper_triangle (n : Z) :
  (0 <= n)%Z ->
  (forall i j, In (i, j) (Exercise3.generate_unique_covar_matrix_entries n)
               <-> (0 <= i /\ i <= j /\ j <= n - 1)%Z) /\
  StronglySorted lex_lt (Exercise3.generate_unique_covar_matrix_entries n) /\
  NoDup (Exercise3.generate_unique_covar_matrix_entries n) /\
  Z.of_nat (length (Exercise3.generate_unique_covar_matrix_entries n))
  = (n * (n + 1) / 2)%Z.
Proof.
  intros Hn.
  assert (Hsorted : StronglySorted lex_lt
                      (Exercise3.generate_unique_covar_matrix_entries n)).
  { apply filter_sorted, rows_sorted; apply range_sorted. }
  split; [|split; [exact Hsorted | split]].
  - intros i j. unfold Exercise3.generate_unique_covar_matrix_entries.
    rewrite filter_In. unfold Exercise3.product2. rewrite in_rows, !in_range.
    unfold Exercise3.is_part_of_lower_triangular_matrix; simpl.
    rewrite Z.leb_le. lia.
  - revert Hsorted.
    generalize (Exercise3.generate_unique_covar_matrix_entries n).
    induction 1 as [|p l Hl IH Hall]; constructor; [|exact IH].
    intros Hin. apply list_elem_of_In in Hin.
    rewrite List.Forall_forall in Hall. specialize (Hall p Hin).
    unfold lex_lt in Hall. lia.
  - pose proof (length_entries (Z.to_nat n)) as H.
    rewrite Z2Nat.id in H by exact Hn.
    apply (f_equal Z.of_nat) in H.
    rewrite !Nat2Z.inj_mul, Nat2Z.inj_add, Z2Nat.id in H by exact Hn.
    change (Z.of_nat 1) with 1%Z in H. change (Z.of_nat 2) with 2%Z in H.
    apply Z.div_unique_exact; [lia|]. symmetry. exact H.
Qed.

Lemma covar_entries_upper_triangle_witness :
  (0 <= 3)%Z /\
  (forall i j, In (i, j) (Exercise3.generate_unique_covar_matrix_entries 3)
               <-> (0 <= i /\ i <= j /\ j <= 3 - 1)%Z) /\
  StronglySorted lex_lt (Exercise3.generate_unique_covar_matrix_entries 3) /\
  NoDup (Exercise3.generate_unique_covar_matrix_entries 3) /\
  Z.of_nat (length (Exercise3.generate_unique_covar_matrix_entries 3))
  = (3 * (3 + 1) / 2)%Z.
Proof.
  split; [lia|]. apply (covar_entries_upper_triangle 3). lia.
Defined.

(** On three entries: the six pairs on and above the diagonal, row by row. *)
Example covar_entries_3 :
  Exercise3.generate_unique_covar_matrix_entries 3
  = [(0, 0); (0, 1); (0, 2); (1, 1); (1, 2); (2, 2)]%Z.
Proof. reflexivity. Qed.

(** ** What [define_cqm] leaves untouched on the heap *)

Module HeapFacts.
Import Heap HeapSpec.

Lemma unchanged_below_refl n h : unchanged_below n h h.
Proof. split; auto. Qed.

Lemma unchanged_below_trans n h1 h2 h3 :
  unchanged_below n h1 h2 -> unchanged_below n h2 h3 -> unchanged_below n h1 h3.
Proof.
  intros [L1 U1] [L2 U2]. split; [lia|].
  intros l Hl. rewrite U2, U1; auto.
Qed.

Lemma spec_bind {A B} n P (m : ST A) Q (f : A -> ST B) Q' :
  spec n P m Q -> (forall a, spec n (Q a) (f a) Q') -> spec n P (bind m f) Q'.
Proof.
  intros Hm Hf h Hn HP. unfold bind.
  destruct (Hm h Hn HP) as [Hu Hq].
  destruct (m h) as [h1 [a|e]] eqn:E; simpl in *.
  - assert (Hn1 : n <= length h1) by (destruct Hu; lia).
    destruct (Hf a h1 Hn1 (Hq a eq_refl)) as [Hu' Hq'].
    split; [|exact Hq'].
    eapply unchanged_below_trans; eassumption.
  - split; [exact Hu | discriminate].
Qed.

Lemma spec_weaken {A} n (P P' : heap -> Prop) (m : ST A) (Q Q' : A -> heap -> Prop) :
  spec n P m Q -> (forall h, P' h -> P h) -> (forall a h, Q a h -> Q' a h) ->
  spec n P' m Q'.
Proof.
  intros Hm HP HQ h Hn HP'. destruct (Hm h Hn (HP h HP')) as [Hu Hq].
  split; [exact Hu|]. intros a Ha. apply HQ, Hq, Ha.
Qed.

Lemma spec_ret {A} n (P : heap -> Prop) (a : A) : spec n P (ret a) (fun a' h => a' = a /\ P h).
Proof.
  intros h Hn HP. split; [apply unchanged_below_refl|].
  simpl. intros a' [= <-]. auto.
Qed.

Lemma spec_raise {A} n P e (Q : A -> heap -> Prop) : spec n P (raise e) Q.
Proof. intros h Hn HP. split; [apply unchanged_below_refl | discriminate]. Qed.

Lemma spec_lift {A} n (P : heap -> Prop) (r : result A) :
  spec n P (lift r) (fun _ h => P h).
Proof.
  intros h Hn HP. split; [apply unchanged_below_refl|]. simpl. auto.
Qed.

(** A fact that does not depend on the heap can be assumed. *)
Lemma spec_assume {A} n (phi : Prop) (m : ST A) Q :
  (phi -> spec n (fun _ => True) m Q) -> spec n (fun _ => phi) m Q.
Proof. intros H h Hn Hphi. apply (H Hphi h Hn I). Qed.

Lemma spec_assume2 {A} n (phi : Prop) (P : heap -> Prop) (m : ST A) Q :
  (phi -> spec n P m Q) -> spec n (fun h => phi /\ P h) m Q.
Proof. intros H h Hn [Hphi HP]. apply (H Hphi h Hn HP). Qed.

(** Reading leaves the heap as it is. *)
Lemma spec_load_list n (P : heap -> Prop) l :
  spec n P (load_list l) (fun _ h => P h).
Proof.
  intros h Hn HP. unfold load_list.
  destruct (_ !! _) as [[]|]; simpl;
    (split; [apply unchanged_below_refl | intros ?; try discriminate; auto]).
Qed.

Lemma spec_load_nums n (P : heap -> Prop) l :
  spec n P (load_nums l) (fun _ h => P h).
Proof.
  intros h Hn HP. unfold load_nums.
  destruct (_ !! _) as [[]|]; simpl;
    (split; [apply unchanged_below_refl | intros ?; try discriminate; auto]).
Qed.

Lemma spec_load_bqm n (P : heap -> Prop) l :
  spec n P (load_bqm l) (fun _ h => P h /\ l < length h).
Proof.
  intros h Hn HP. unfold load_bqm.
  destruct (_ !! _) as [[]|] eqn:E; simpl;
    (split; [apply unchanged_below_refl | intros ?; try discriminate]).
  intros _. split; [exact HP|]. eapply lookup_lt_Some. exact E.
Qed.

(** An object that was read is there. *)
Lemma spec_load_cqm n (P : heap -> Prop) l :
  spec n P (load_cqm l) (fun _ h => P h /\ l < length h).
Proof.
  intros h Hn HP. unfold load_cqm.
  destruct (_ !! _) as [[]|] eqn:E; simpl;
    (split; [apply unchanged_below_refl | intros ?; try discriminate]).
  intros _. split; [exact HP|]. eapply lookup_lt_Some. exact E.
Qed.

(** Allocation returns a reference beyond everything there was. *)
Lemma spec_alloc n P o : spec n P (alloc o) (fun l h => n <= l /\ l < length h).
Proof.
  intros h Hn HP. unfold alloc; cbn [fst snd]. split; [split|].
  - rewrite length_app; simpl; lia.
  - intros l Hl. apply lookup_app_l. lia.
  - intros a [= <-]. rewrite length_app; simpl. lia.
Qed.

(** Writing to a reference at or beyond [n] changes nothing below [n]. *)
Lemma spec_store n l o :
  n <= l ->
  spec n (fun h => l < length h) (store l o) (fun _ h => h !! l = Some o).
Proof.
  intros Hl h Hn HP. unfold store; cbn [fst snd]. split; [split|].
  - rewrite length_insert. lia.
  - intros l' Hl'. apply list_lookup_insert_ne. lia.
  - intros _ _. apply list_lookup_insert_eq. exact HP.
Qed.

Lemma spec_store_fresh n (P : heap -> Prop) l o :
  n <= l ->
  spec n (fun h => P h /\ l < length h) (store l o) (fun _ _ => True).
Proof.
  intros Hl. eapply spec_weaken; [apply (spec_store n l o Hl) | | auto].
  simpl. tauto.
Qed.

(** Dropping what is known about the heap. *)
Lemma spec_forget {A} n (P : heap -> Prop) (m : ST A) (phi : A -> Prop) Q :
  spec n P m Q -> (forall a h, Q a h -> phi a) -> spec n P m (fun a _ => phi a).
Proof. intros H HQ. eapply spec_weaken; [exact H | auto | exact HQ]. Qed.

Lemma spec_any_pre {A} n (P : heap -> Prop) (m : ST A) Q :
  spec n (fun _ => True) m Q -> spec n P m Q.
Proof. intros H h Hn _. apply (H h Hn I). Qed.

(** *** The operations of dimod *)

Lemma spec_bqm_copy n self :
  spec n (fun _ => True) (bqm_copy self) (fun c h => n <= c /\ c < length h).
Proof.
  unfold bqm_copy. eapply spec_bind; [apply spec_load_bqm|].
  intros b. apply spec_any_pre, spec_alloc.
Qed.

Lemma spec_bqm_update n self other :
  n <= self ->
  spec n (fun h => self < length h) (bqm_update self other) (fun _ _ => True).
Proof.
  intros Hs. unfold bqm_update.
  eapply spec_bind; [apply spec_load_bqm|]. intros b.
  eapply spec_bind; [apply spec_load_bqm|]. intros o.
  eapply spec_weaken; [apply (spec_store_fresh n (fun _ => True) self _ Hs) | | auto].
  simpl. intros h [[H _] _]. auto.
Qed.

Lemma spec_ret_pure {A} n (P : heap -> Prop) (a : A) (phi : A -> Prop) :
  phi a -> spec n P (ret a) (fun a' _ => phi a').
Proof.
  intros Ha. eapply spec_weaken; [apply (spec_ret n P) | auto |].
  simpl. intros a' _ [-> _]. exact Ha.
Qed.

Lemma spec_bqm_add n self other :
  spec n (fun _ => True) (bqm_add self other) (fun c _ => n <= c).
Proof.
  unfold bqm_add. eapply spec_bind; [apply spec_bqm_copy|]. intros c.
  apply (spec_assume2 n (n <= c) (fun h => c < length h)). intros Hc.
  eapply spec_bind; [apply spec_bqm_update; exact Hc|]. intros u.
  apply spec_ret_pure. exact Hc.
Qed.

(** Copy, then write to the copy: the pattern of [radd] and [mul]. *)
Lemma spec_copy_then_store n self (g : BinaryQuadraticModel -> obj) :
  spec n (fun _ => True)
       (let! bqm := bqm_copy self in
        let! b := load_bqm bqm in
        let! _ := store bqm (g b) in
        ret bqm)
       (fun c _ => n <= c).
Proof.
  eapply spec_bind; [apply spec_bqm_copy|]. intros c.
  apply (spec_assume2 n (n <= c) (fun h => c < length h)). intros Hc.
  eapply spec_bind; [apply spec_load_bqm|]. intros b.
  eapply spec_bind; [apply (spec_store_fresh n _ c _ Hc)|].
  intros u. apply spec_ret_pure. exact Hc.
Qed.

Lemma spec_bqm_radd n self other :
  spec n (fun _ => True) (bqm_radd self other) (fun c _ => n <= c).
Proof. apply (spec_copy_then_store n self (fun b => OBqm (radd b other))). Qed.

Lemma spec_bqm_mul n self other :
  spec n (fun _ => True) (bqm_mul self other) (fun c _ => n <= c).
Proof. apply (spec_copy_then_store n self (fun b => OBqm (scale b other))). Qed.

Lemma spec_py_add n a x :
  spec n (fun _ => True) (py_add a x) (fun _ _ => True).
Proof.
  destruct a as [q|l]; simpl.
  - eapply spec_bind; [apply spec_bqm_radd|]. intros c.
    apply spec_ret_pure. exact I.
  - eapply spec_bind; [apply spec_bqm_add|]. intros c.
    apply spec_ret_pure. exact I.
Qed.

Lemma spec_sum_from n xs a :
  spec n (fun _ => True) (sum_from a xs) (fun _ _ => True).
Proof.
  revert a. induction xs as [|x xs IH]; intros a; simpl.
  - apply spec_ret_pure. exact I.
  - eapply spec_bind; [apply spec_py_add|]. intros a'. apply IH.
Qed.

Ltac step L := eapply spec_bind; [apply spec_any_pre; apply L | intros ?].

Lemma spec_py_list n xs :
  spec n (fun _ => True) (py_list xs) (fun _ _ => True).
Proof.
  unfold py_list. step spec_load_list.
  eapply spec_forget; [apply spec_alloc | auto].
Qed.

Lemma spec_py_len n xs :
  spec n (fun _ => True) (py_len xs) (fun _ _ => True).
Proof.
  unfold py_len. step spec_load_list. apply spec_ret_pure. exact I.
Qed.

Lemma spec_add_constraint_from_model n cqm qm sn r label :
  n <= cqm ->
  spec n (fun _ => True) (add_constraint_from_model cqm qm sn r label)
       (fun _ _ => True).
Proof.
  intros Hc. unfold add_constraint_from_model.
  eapply spec_bind; [apply spec_load_cqm|]. intros c.
  eapply spec_bind; [apply spec_load_bqm|]. intros b.
  eapply spec_bind; [apply spec_lift|]. intros c'.
  eapply spec_weaken; [apply (spec_store_fresh n (fun _ => True) cqm _ Hc) | | auto].
  simpl. tauto.
Qed.

Lemma spec_add_constraint n cqm data label :
  n <= cqm ->
  spec n (fun _ => True) (add_constraint cqm data label) (fun _ _ => True).
Proof.
  intros Hc. destruct data; simpl.
  - apply spec_raise.
  - apply spec_add_constraint_from_model. exact Hc.
Qed.

(** After [set_objective] the reference holds a CQM. *)
Lemma spec_set_objective n cqm obj :
  n <= cqm ->
  spec n (fun _ => True) (set_objective cqm obj)
       (fun _ h => exists c, h !! cqm = Some (OCqm c)).
Proof.
  intros Hc. destruct obj as [q|l]; simpl.
  - apply spec_raise.
  - eapply spec_bind; [apply spec_load_cqm|]. intros c.
    eapply spec_bind; [apply spec_load_bqm|]. intros b.
    eapply spec_bind; [apply spec_lift|]. intros c'.
    eapply spec_weaken; [apply (spec_store n cqm _ Hc) | |].
    + simpl. tauto.
    + simpl. eauto.
Qed.

Lemma spec_sum_objective n to_buy returns indices a :
  spec n (fun _ => True) (sum_objective a to_buy returns indices)
       (fun _ _ => True).
Proof.
  revert a. induction indices as [|i indices IH]; intros a; simpl.
  - apply spec_ret_pure. exact I.
  - step spec_load_list. step (@spec_lift loc). step spec_load_nums.
    step (@spec_lift Q). step spec_bqm_mul. step spec_py_add.
    apply spec_any_pre, IH.
Qed.

Lemma spec_get_stock_name n stock :
  spec n (fun _ => True) (Exercise3Heap.get_stock_name stock) (fun _ _ => True).
Proof.
  unfold Exercise3Heap.get_stock_name. step spec_load_bqm.
  eapply spec_forget; [apply spec_lift | auto].
Qed.

Lemma spec_budget_terms n cqm qm stocks price :
  n <= qm ->
  spec n (fun _ => True) (Exercise3Heap.budget_terms cqm qm stocks price)
       (fun _ _ => True).
Proof.
  intros Hq. revert price. induction stocks as [|stock stocks IH]; intros price; simpl.
  - apply spec_ret_pure. exact I.
  - step spec_get_stock_name. destruct price as [|p price].
    + apply spec_ret_pure. exact I.
    + step spec_load_cqm. destruct (mem _ _); [|apply spec_raise].
      eapply spec_bind; [apply spec_any_pre, spec_load_bqm|]. intros q.
      eapply spec_bind; [apply (spec_store_fresh n _ qm _ Hq)|]. intros u.
      apply spec_any_pre, IH.
Qed.

Lemma spec_add_constraint_from_iterable n cqm to_buy price sn r label :
  n <= cqm ->
  spec n (fun _ => True)
       (Exercise3Heap.add_constraint_from_iterable cqm to_buy price sn r label)
       (fun _ _ => True).
Proof.
  intros Hc. unfold Exercise3Heap.add_constraint_from_iterable.
  eapply spec_bind; [apply spec_alloc|]. intros qm.
  apply (spec_assume2 n (n <= qm) (fun h => qm < length h)). intros Hq.
  step spec_load_list. step spec_load_nums.
  eapply spec_bind; [apply spec_any_pre, spec_budget_terms; exact Hq|]. intros u.
  apply spec_any_pre, spec_add_constraint_from_model. exact Hc.
Qed.

(** *** [define_cqm] *)

Lemma spec_define_cqm1 n stocks k returns :
  spec n (fun _ => True) (Exercise1Heap.define_cqm stocks k returns)
       (fun c h => n <= c /\ exists cqm, h !! c = Some (OCqm cqm)).
Proof.
  unfold Exercise1Heap.define_cqm, new_cqm.
  eapply spec_bind; [apply spec_alloc|]. intros cqm.
  apply (spec_assume2 n (n <= cqm) (fun h => cqm < length h)). intros Hc.
  step spec_py_list. step spec_load_list. step spec_sum_from.
  eapply spec_bind; [apply spec_any_pre, spec_add_constraint; exact Hc|]. intros u.
  step spec_py_len. step spec_sum_objective.
  eapply spec_bind; [apply spec_any_pre, spec_set_objective; exact Hc|]. intros u'.
  eapply spec_weaken;
    [apply (spec_ret n (fun h => exists c, h !! cqm = Some (OCqm c)) cqm) | auto |].
  simpl. intros c h [-> H]. auto.
Qed.

Lemma spec_define_cqm3 n stocks k price returns budget :
  spec n (fun _ => True) (Exercise3Heap.define_cqm stocks k price returns budget)
       (fun c h => n <= c /\ exists cqm, h !! c = Some (OCqm cqm)).
Proof.
  unfold Exercise3Heap.define_cqm, new_cqm.
  eapply spec_bind; [apply spec_alloc|]. intros cqm.
  apply (spec_assume2 n (n <= cqm) (fun h => cqm < length h)). intros Hc.
  step spec_py_list. step spec_load_list. step spec_sum_from.
  eapply spec_bind; [apply spec_any_pre, spec_add_constraint; exact Hc|]. intros u.
  eapply spec_bind;
    [apply spec_any_pre, spec_add_constraint_from_iterable; exact Hc|]. intros u0.
  step spec_py_len. step spec_sum_objective.
  eapply spec_bind; [apply spec_any_pre, spec_set_objective; exact Hc|]. intros u'.
  eapply spec_weaken;
    [apply (spec_ret n (fun h => exists c, h !! cqm = Some (OCqm c)) cqm) | auto |].
  simpl. intros c h [-> H]. auto.
Qed.

End HeapFacts.

(** C8: [define_cqm] of either script does not mutate its arguments: every
    object that was on the heap before the call (the [stocks] list, the
    models it refers to, [returns], [price]) is the same after it, whether
    the call returns or raises; [num_stocks_to_buy] and [budget] are
    numbers, which are immutable.  When the call returns, its result is a
    reference that did not exist before, and it holds a CQM. *)
Theorem define_cqm_does_not_mutate_arguments (h : list Heap.obj)
    (stocks price returns : nat) (k : Z) (budget : Q) :
  ((forall l, l < length h ->
              (Exercise1Heap.define_cqm stocks k returns h).1 !! l = h !! l) /\
   (forall c, (Exercise1Heap.define_cqm stocks k returns h).2 = OK c ->
              length h <= c /\
              exists cqm, (Exercise1Heap.define_cqm stocks k returns h).1 !! c
                          = Some (Heap.OCqm cqm))) /\
  ((forall l, l < length h ->
              (Exercise3Heap.define_cqm stocks k price returns budget h).1 !! l
              = h !! l) /\
   (forall c, (Exercise3Heap.define_cqm stocks k price returns budget h).2 = OK c ->
              length h <= c /\
              exists cqm,
                (Exercise3Heap.define_cqm stocks k price returns budget h).1 !! c
                = Some (Heap.OCqm cqm))).
Proof.
  split.
  - destruct (HeapFacts.spec_define_cqm1 (length h) stocks k returns h)
      as [[_ Hu] Hq]; [lia | exact I |].
    split; [exact Hu | exact Hq].
  - destruct (HeapFacts.spec_define_cqm3 (length h) stocks k price returns budget h)
      as [[_ Hu] Hq]; [lia | exact I |].
    split; [exact Hu | exact Hq].
Qed.

(** ** The heap version computes what the value version computes *)

Module HeapAgreement.
Import Heap HeapSpec.

Lemma bind_ok {A B} (m : ST A) (f : A -> ST B) h h1 a :
  m h = (h1, OK a) -> bind m f h = f a h1.
Proof. unfold bind. intros ->. reflexivity. Qed.

Lemma bind_raise {A B} (m : ST A) (f : A -> ST B) h h1 e :
  m h = (h1, Raise e) -> bind m f h = (h1, Raise e).
Proof. unfold bind. intros ->. reflexivity. Qed.

Lemma lookup_snoc (h : heap) o : (h ++ [o]) !! length h = Some o.
Proof. rewrite lookup_app_r, Nat.sub_diag by lia. reflexivity. Qed.

Lemma insert_snoc (h : heap) o o' : <[length h := o']> (h ++ [o]) = h ++ [o'].
Proof. rewrite insert_app_r_alt, Nat.sub_diag by lia. reflexivity. Qed.

Lemma points_app h ext l b : points h l b -> points (h ++ ext) l b.
Proof. apply lookup_app_l_Some. Qed.

Lemma acc_rel_app h ext a av : acc_rel h a av -> acc_rel (h ++ ext) a av.
Proof.
  destruct a, av; simpl; auto. apply points_app.
Qed.

Lemma load_bqm_eq h l b : points h l b -> load_bqm l h = (h, OK b).
Proof. unfold points, load_bqm. intros ->. reflexivity. Qed.

Lemma load_list_eq (h : heap) l items :
  h !! l = Some (OList items) -> load_list l h = (h, OK items).
Proof. unfold load_list. intros ->. reflexivity. Qed.

Lemma load_nums_eq (h : heap) l xs :
  h !! l = Some (ONums xs) -> load_nums l h = (h, OK xs).
Proof. unfold load_nums. intros ->. reflexivity. Qed.

Lemma load_cqm_eq (h : heap) l c :
  h !! l = Some (OCqm c) -> load_cqm l h = (h, OK c).
Proof. unfold load_cqm. intros ->. reflexivity. Qed.

Lemma bqm_copy_eq h l b :
  points h l b -> bqm_copy l h = (h ++ [OBqm b], OK (length h)).
Proof.
  intros H. unfold bqm_copy. rewrite (bind_ok _ _ _ _ _ (load_bqm_eq _ _ _ H)).
  reflexivity.
Qed.

Lemma bqm_add_eq h a x ba bx :
  points h a ba -> points h x bx ->
  bqm_add a x h = (h ++ [OBqm (add ba bx)], OK (length h)).
Proof.
  intros Ha Hx. unfold bqm_add, bqm_update.
  rewrite (bind_ok _ _ _ _ _ (bqm_copy_eq _ _ _ Ha)).
  rewrite (bind_ok _ (fun _ => ret (length h)) (h ++ [OBqm ba]) (h ++ [OBqm (add ba bx)]) tt).
  - reflexivity.
  - rewrite (bind_ok _ _ _ _ _ (load_bqm_eq _ _ _ (lookup_snoc h _))).
    rewrite (bind_ok _ _ _ _ _ (load_bqm_eq _ _ _ (points_app _ _ _ _ Hx))).
    unfold store. rewrite insert_snoc. reflexivity.
Qed.

Lemma copy_then_store_eq h x bx (g : BinaryQuadraticModel -> BinaryQuadraticModel) :
  points h x bx ->
  (let! bqm := bqm_copy x in
   let! b := load_bqm bqm in
   let! _ := store bqm (OBqm (g b)) in
   ret bqm) h
  = (h ++ [OBqm (g bx)], OK (length h)).
Proof.
  intros Hx.
  rewrite (bind_ok _ _ _ _ _ (bqm_copy_eq _ _ _ Hx)).
  rewrite (bind_ok _ _ _ _ _ (load_bqm_eq _ _ _ (lookup_snoc h _))).
  unfold bind, store, ret. rewrite insert_snoc. reflexivity.
Qed.

Lemma bqm_radd_eq h x bx n :
  points h x bx -> bqm_radd x n h = (h ++ [OBqm (radd bx n)], OK (length h)).
Proof. apply (copy_then_store_eq h x bx (fun b => radd b n)). Qed.

Lemma bqm_mul_eq h x bx n :
  points h x bx -> bqm_mul x n h = (h ++ [OBqm (mul bx n)], OK (length h)).
Proof. apply (copy_then_store_eq h x bx (fun b => scale b n)). Qed.

Lemma py_add_eq h a av x bx :
  acc_rel h a av -> points h x bx ->
  exists b', dimod.py_add av bx = PyBqm b' /\
             py_add a x h = (h ++ [OBqm b'], OK (ARef (length h))).
Proof.
  intros Ha Hx. destruct a as [n|l], av as [n'|b]; simpl in Ha; try contradiction.
  - subst. eexists. split; [reflexivity|]. simpl.
    rewrite (bind_ok _ _ _ _ _ (bqm_radd_eq _ _ _ _ Hx)). reflexivity.
  - eexists. split; [reflexivity|]. simpl.
    rewrite (bind_ok _ _ _ _ _ (bqm_add_eq _ _ _ _ _ Ha Hx)). reflexivity.
Qed.

Lemma sum_from_eq xs : forall bs h a av,
  acc_rel h a av -> Forall2 (points h) xs bs ->
  exists ext a',
    sum_from a xs h = (h ++ ext, OK a') /\
    acc_rel (h ++ ext) a' (fold_left dimod.py_add bs av).
Proof.
  induction xs as [|x xs IH]; intros bs h a av Ha Hxs.
  - apply Forall2_nil_inv_l in Hxs. subst. exists [], a.
    rewrite app_nil_r. split; [reflexivity | exact Ha].
  - apply Forall2_cons_inv_l in Hxs as (b & bs' & Hx & Hxs & ->).
    destruct (py_add_eq h a av x b Ha Hx) as (b' & Hb' & Hadd).
    destruct (IH bs' (h ++ [OBqm b']) (ARef (length h)) (PyBqm b'))
      as (ext & a' & Hsum & Hrel).
    { simpl. apply lookup_snoc. }
    { eapply Forall2_impl; [exact Hxs|]. intros; apply points_app; assumption. }
    exists (OBqm b' :: ext), a'. simpl.
    rewrite (bind_ok _ _ _ _ _ Hadd), Hsum, Hb', <- app_assoc. simpl.
    split; [reflexivity|].
    rewrite <- app_assoc in Hrel. exact Hrel.
Qed.

Lemma getitem_Forall2 h (items : list loc) bs i :
  Forall2 (points h) items bs ->
  match getitem items i with
  | OK x => exists b, getitem bs i = OK b /\ points h x b
  | Raise e => getitem bs i = Raise e
  end.
Proof.
  intros H. unfold getitem.
  destruct (items !! i) as [x|] eqn:E.
  - destruct (Forall2_lookup_l _ _ _ _ _ H E) as (b & Hb & Hp).
    exists b. rewrite Hb. auto.
  - apply lookup_ge_None in E.
    rewrite (Forall2_length _ _ _ H) in E.
    apply lookup_ge_None in E. rewrite E. reflexivity.
Qed.

(** The generator and [sum] over it, one index at a time. *)
Lemma sum_objective_eq to_buy returns items rs indices : forall bs h a av,
  h !! to_buy = Some (OList items) ->
  Forall2 (points h) items bs ->
  h !! returns = Some (ONums rs) ->
  acc_rel h a av ->
  exists ext,
    match result_mapM (fun i => let* x := getitem bs i in
                                let* r := getitem rs i in
                                OK (mul x (- r)%Q)) indices with
    | OK ts =>
        exists a', sum_objective a to_buy returns indices h = (h ++ ext, OK a') /\
                   acc_rel (h ++ ext) a' (fold_left dimod.py_add ts av)
    | Raise e => sum_objective a to_buy returns indices h = (h ++ ext, Raise e)
    end.
Proof.
  induction indices as [|i indices IH]; intros bs h a av Hl Hitems Hr Ha.
  - exists []. simpl. exists a. rewrite app_nil_r. split; [reflexivity | exact Ha].
  - cbn [result_mapM sum_objective].
    rewrite (bind_ok _ _ _ _ _ (load_list_eq _ _ _ Hl)).
    pose proof (getitem_Forall2 h items bs i Hitems) as Hget.
    destruct (getitem items i) as [x|e] eqn:Ex.
    2:{ exists []. rewrite Hget, app_nil_r. reflexivity. }
    destruct Hget as (b & Hb & Hx). rewrite Hb. cbn [rbind].
    rewrite (bind_ok (lift (OK x)) _ h h x eq_refl).
    rewrite (bind_ok _ _ _ _ _ (load_nums_eq _ _ _ Hr)).
    destruct (getitem rs i) as [r|e] eqn:Er.
    2:{ exists []. rewrite app_nil_r. reflexivity. }
    cbn [rbind].
    rewrite (bind_ok (lift (OK r)) _ h h r eq_refl).
    rewrite (bind_ok _ _ _ _ _ (bqm_mul_eq _ _ _ _ Hx)).
    destruct (py_add_eq (h ++ [OBqm (mul b (- r)%Q)]) a av (length h) (mul b (- r)%Q))
      as (b' & Hb' & Hadd).
    { apply acc_rel_app. exact Ha. }
    { apply lookup_snoc. }
    rewrite (bind_ok _ _ _ _ _ Hadd).
    destruct (IH bs ((h ++ [OBqm (mul b (- r)%Q)]) ++ [OBqm b'])
                 (ARef (length (h ++ [OBqm (mul b (- r)%Q)]))) (PyBqm b'))
      as [ext Hrec].
    { do 2 apply lookup_app_l_Some. exact Hl. }
    { eapply Forall2_impl; [exact Hitems|].
      intros; do 2 apply points_app; assumption. }
    { do 2 apply lookup_app_l_Some. exact Hr. }
    { simpl. apply lookup_snoc. }
    exists (OBqm (mul b (- r)%Q) :: OBqm b' :: ext).
    replace (h ++ OBqm (mul b (- r)%Q) :: OBqm b' :: ext)
      with (((h ++ [OBqm (mul b (- r)%Q)]) ++ [OBqm b']) ++ ext)
      by (rewrite <- !app_assoc; reflexivity).
    destruct (result_mapM _ indices) as [ts|e]; cbn [rbind].
    + destruct Hrec as (a' & Hsum & Hrel). exists a'.
      split; [exact Hsum|]. simpl. rewrite Hb'. exact Hrel.
    + exact Hrec.
Qed.

Lemma py_eq_rel h a av k :
  acc_rel h a av -> eq_rel h (py_eq a k) (dimod.py_eq av k).
Proof.
  destruct a, av; simpl; try contradiction.
  - intros ->. reflexivity.
  - intros H. auto.
Qed.

Lemma add_constraint_eq (h : heap) cqm c d dv label :
  h !! cqm = Some (OCqm c) -> eq_rel h d dv ->
  add_constraint cqm d label h
  = match dimod.add_constraint c dv label with
    | OK c' => (<[cqm := OCqm c']> h, OK tt)
    | Raise e => (h, Raise e)
    end.
Proof.
  intros Hc Hd. destruct d as [b|l sn r], dv as [b'|cmp]; simpl in Hd;
    try contradiction.
  - reflexivity.
  - destruct Hd as (Hl & -> & ->). simpl.
    unfold add_constraint_from_model, dimod.add_constraint_from_comparison.
    rewrite (bind_ok _ _ _ _ _ (load_cqm_eq _ _ _ Hc)).
    rewrite (bind_ok _ _ _ _ _ (load_bqm_eq _ _ _ Hl)).
    unfold bind, lift.
    destruct (dimod.add_constraint_from_model c (lhs cmp) (sense cmp) (rhs cmp) label);
      reflexivity.
Qed.

Lemma set_objective_eq (h : heap) cqm c a av :
  h !! cqm = Some (OCqm c) -> acc_rel h a av ->
  set_objective cqm a h
  = match dimod.set_objective c av with
    | OK c' => (<[cqm := OCqm c']> h, OK tt)
    | Raise e => (h, Raise e)
    end.
Proof.
  intros Hc Ha. destruct a as [n|l], av as [n'|b]; simpl in Ha; try contradiction.
  - reflexivity.
  - simpl.
    rewrite (bind_ok _ _ _ _ _ (load_cqm_eq _ _ _ Hc)).
    rewrite (bind_ok _ _ _ _ _ (load_bqm_eq _ _ _ Ha)).
    reflexivity.
Qed.

Lemma preserved_app h ext : preserved h (h ++ ext).
Proof. intros l o. apply lookup_app_l_Some. Qed.

Lemma preserved_trans h1 h2 h3 :
  preserved h1 h2 -> preserved h2 h3 -> preserved h1 h3.
Proof. unfold preserved. auto. Qed.

(** Updating an object allocated after [h] preserves [h]. *)
Lemma preserved_insert (h h' : heap) c o :
  preserved h h' -> length h <= c -> preserved h (<[c := o]> h').
Proof.
  intros Hp Hc l x Hl. rewrite list_lookup_insert_ne.
  - apply Hp, Hl.
  - apply lookup_lt_Some in Hl. lia.
Qed.

Lemma Forall2_points_preserved h h' items bs :
  preserved h h' -> Forall2 (points h) items bs -> Forall2 (points h') items bs.
Proof.
  intros Hp H. eapply Forall2_impl; [exact H|]. intros l b. apply Hp.
Qed.

(** The first part of both [define_cqm]: the new CQM, the copy of the
    list, and the constraint "choose k stocks". *)
Lemma constraint_part_eq (h : heap) stocks items bs k :
  h !! stocks = Some (OList items) ->
  Forall2 (points h) items bs ->
  exists h',
    preserved h h' /\
    match dimod.add_constraint dimod.new_cqm
                               (dimod.py_eq (dimod.py_sum bs) k) "choose k stocks" with
    | OK c1 =>
        h' !! length h = Some (OCqm c1) /\
        h' !! S (length h) = Some (OList items) /\
        forall K : loc -> loc -> ST loc,
          (let! cqm := new_cqm in
           let! to_buy := py_list stocks in
           let! items := load_list to_buy in
           let! s := py_sum items in
           let! _ := add_constraint cqm (py_eq s k) "choose k stocks" in
           K cqm to_buy) h
          = K (length h) (S (length h)) h'
    | Raise e =>
        forall K : loc -> loc -> ST loc,
          (let! cqm := new_cqm in
           let! to_buy := py_list stocks in
           let! items := load_list to_buy in
           let! s := py_sum items in
           let! _ := add_constraint cqm (py_eq s k) "choose k stocks" in
           K cqm to_buy) h
          = (h', Raise e)
    end.
Proof.
  intros Hs Hitems.
  set (h1 := h ++ [OCqm dimod.new_cqm]).
  set (h2 := h1 ++ [OList items]).
  assert (Hp2 : preserved h h2).
  { eapply preserved_trans; apply preserved_app. }
  assert (Hlen1 : length h1 = S (length h)).
  { unfold h1. rewrite length_app. simpl. lia. }
  destruct (sum_from_eq items bs h2 (ANum 0) (PyNum 0)) as (ext & a & Hsum & Hrel).
  { reflexivity. }
  { eapply Forall2_points_preserved; eassumption. }
  fold (dimod.py_sum bs) in Hrel. fold (py_sum items) in Hsum.
  set (h3 := h2 ++ ext) in *.
  assert (Hp3 : preserved h h3).
  { eapply preserved_trans; [exact Hp2 | apply preserved_app]. }
  assert (Hc3 : h3 !! length h = Some (OCqm dimod.new_cqm)).
  { do 2 apply lookup_app_l_Some. apply lookup_snoc. }
  assert (Ht3 : h3 !! S (length h) = Some (OList items)).
  { apply lookup_app_l_Some. rewrite <- Hlen1. apply lookup_snoc. }
  assert (Hrun : forall K : loc -> loc -> ST loc,
            (let! cqm := new_cqm in
             let! to_buy := py_list stocks in
             let! items := load_list to_buy in
             let! s := py_sum items in
             let! _ := add_constraint cqm (py_eq s k) "choose k stocks" in
             K cqm to_buy) h
            = (let! _ := add_constraint (length h) (py_eq a k) "choose k stocks" in
               K (length h) (S (length h))) h3).
  { intros K.
    rewrite (bind_ok new_cqm _ h h1 (length h) eq_refl).
    rewrite (bind_ok (py_list stocks) _ h1 h2 (length h1)).
    2:{ unfold py_list.
        rewrite (bind_ok _ _ _ _ _ (load_list_eq h1 stocks items
                                      (preserved_app _ _ _ _ Hs))).
        reflexivity. }
    rewrite (bind_ok _ _ _ _ _ (load_list_eq h2 (length h1) items (lookup_snoc _ _))).
    rewrite (bind_ok _ _ _ _ _ Hsum), Hlen1. reflexivity. }
  pose proof (add_constraint_eq h3 (length h) dimod.new_cqm (py_eq a k)
                (dimod.py_eq (dimod.py_sum bs) k) "choose k stocks" Hc3
                (py_eq_rel _ _ _ _ Hrel)) as Hadd.
  destruct (dimod.add_constraint dimod.new_cqm _ _) as [c1|e].
  - exists (<[length h := OCqm c1]> h3). split; [|split; [|split]].
    + apply preserved_insert; [exact Hp3 | lia].
    + apply list_lookup_insert_eq. eapply lookup_lt_Some. exact Hc3.
    + rewrite list_lookup_insert_ne by lia. exact Ht3.
    + intros K. rewrite Hrun, (bind_ok _ _ _ _ _ Hadd). reflexivity.
  - exists h3. split; [exact Hp3|].
    intros K. rewrite Hrun, (bind_raise _ _ _ _ _ Hadd). reflexivity.
Qed.

(** The last part of both [define_cqm]: the objective. *)
Lemma objective_part_eq (h : heap) cqm c1 to_buy returns items bs rs :
  h !! cqm = Some (OCqm c1) ->
  h !! to_buy = Some (OList items) ->
  Forall2 (points h) items bs ->
  h !! returns = Some (ONums rs) ->
  exists h',
    match (let* terms := objective_terms bs rs in
           dimod.set_objective c1 (dimod.py_sum terms)) with
    | OK c2 =>
        (let! n := py_len to_buy in
         let! obj := sum_objective (ANum 0) to_buy returns (seq 0 n) in
         let! _ := set_objective cqm obj in
         ret cqm) h = (h', OK cqm) /\
        h' !! cqm = Some (OCqm c2)
    | Raise e =>
        (let! n := py_len to_buy in
         let! obj := sum_objective (ANum 0) to_buy returns (seq 0 n) in
         let! _ := set_objective cqm obj in
         ret cqm) h = (h', Raise e)
    end.
Proof.
  intros Hc Ht Hitems Hr.
  rewrite (bind_ok (py_len to_buy) _ h h (length items)).
  2:{ unfold py_len. rewrite (bind_ok _ _ _ _ _ (load_list_eq _ _ _ Ht)).
      reflexivity. }
  destruct (sum_objective_eq to_buy returns items rs (seq 0 (length items))
                             bs h (ANum 0) (PyNum 0) Ht Hitems Hr eq_refl)
    as [ext Hobj].
  unfold objective_terms. rewrite <- (Forall2_length _ _ _ Hitems).
  destruct (result_mapM _ (seq 0 (length items))) as [ts|e]; cbn [rbind].
  - destruct Hobj as (a & Hsum & Hrel). fold (dimod.py_sum ts) in Hrel.
    assert (Hc' : (h ++ ext) !! cqm = Some (OCqm c1)).
    { apply lookup_app_l_Some. exact Hc. }
    pose proof (set_objective_eq (h ++ ext) cqm c1 a (dimod.py_sum ts) Hc' Hrel)
      as Hset.
    rewrite (bind_ok _ _ _ _ _ Hsum).
    destruct (dimod.set_objective c1 (dimod.py_sum ts)) as [c2|e].
    + exists (<[cqm := OCqm c2]> (h ++ ext)).
      rewrite (bind_ok _ _ _ _ _ Hset). split; [reflexivity|].
      apply list_lookup_insert_eq. eapply lookup_lt_Some. exact Hc'.
    + exists (h ++ ext). rewrite (bind_raise _ _ _ _ _ Hset). reflexivity.
  - exists (h ++ ext). rewrite (bind_raise _ _ _ _ _ Hobj). reflexivity.
Qed.

(** X11: on a heap where [stocks] is a list of references to models and
    [returns] a list of numbers, exercise_1's [define_cqm] on references and
    on values agree: they raise the same exception, or the reference
    returned is the first fresh one and holds the CQM the value version
    returns.  So the outcome depends only on the models the references
    denote, not on which references they are, alias or not. *)
Theorem define_cqm1_agrees (h : heap) stocks returns items bs rs k :
  h !! stocks = Some (OList items) ->
  Forall2 (points h) items bs ->
  h !! returns = Some (ONums rs) ->
  exists h',
    match Exercise1.define_cqm bs k rs with
    | OK cqm =>
        Exercise1Heap.define_cqm stocks k returns h = (h', OK (length h)) /\
        h' !! length h = Some (OCqm cqm)
    | Raise e => Exercise1Heap.define_cqm stocks k returns h = (h', Raise e)
    end.
Proof.
  intros Hs Hitems Hr.
  destruct (constraint_part_eq h stocks items bs k Hs Hitems) as (h1 & Hp & H1).
  unfold Exercise1.define_cqm, Exercise1Heap.define_cqm.
  destruct (dimod.add_constraint dimod.new_cqm _ _) as [c1|e]; cbn [rbind].
  - destruct H1 as (Hc & Ht & Hrun).
    destruct (objective_part_eq h1 (length h) c1 (S (length h)) returns items bs rs
                Hc Ht (Forall2_points_preserved _ _ _ _ Hp Hitems) (Hp _ _ Hr))
      as [h2 H2].
    exists h2.
    rewrite (Hrun (fun cqm to_buy =>
               let! n := py_len to_buy in
               let! obj := sum_objective (ANum 0) to_buy returns (seq 0 n) in
               let! _ := set_objective cqm obj in
               ret cqm)).
    exact H2.
  - exists h1. apply (H1 (fun cqm to_buy =>
               let! n := py_len to_buy in
               let! obj := sum_objective (ANum 0) to_buy returns (seq 0 n) in
               let! _ := set_objective cqm obj in
               ret cqm)).
Qed.

(** The loop over the budget terms: it only writes to the new model. *)
Lemma budget_terms_eq cqm c1 qm o stocks : forall bs ps q (h : heap),
  h !! cqm = Some (OCqm c1) ->
  h !! qm = Some (OBqm {| linear := q; offset := o |}) ->
  Forall2 (points h) stocks bs ->
  Forall (fun l => l <> qm) stocks ->
  exists q',
    match linear_from_iterable (cqm_variables c1)
                               (py_zip (Exercise3.extract_stock_names bs) ps) q with
    | OK l =>
        l = q' /\
        Exercise3Heap.budget_terms cqm qm stocks ps h
        = (<[qm := OBqm {| linear := q'; offset := o |}]> h, OK tt)
    | Raise e =>
        Exercise3Heap.budget_terms cqm qm stocks ps h
        = (<[qm := OBqm {| linear := q'; offset := o |}]> h, Raise e)
    end.
Proof.
  induction stocks as [|stock stocks IH]; intros bs ps q h Hc Hq Hst Hne.
  - apply Forall2_nil_inv_l in Hst. subst. exists q. simpl.
    rewrite list_insert_id by exact Hq. auto.
  - apply Forall2_cons_inv_l in Hst as (b & bs' & Hb & Hst & ->).
    apply Forall_cons in Hne as [Hne1 Hne].
    cbn [Exercise3Heap.budget_terms Exercise3.extract_stock_names map py_zip].
    assert (Hname : Exercise3Heap.get_stock_name stock h
                    = (h, Exercise3.get_stock_name b)).
    { unfold Exercise3Heap.get_stock_name.
      rewrite (bind_ok _ _ _ _ _ (load_bqm_eq _ _ _ Hb)). reflexivity. }
    destruct (Exercise3.get_stock_name b) as [name|e].
    2:{ exists q. cbn [linear_from_iterable].
        rewrite (bind_raise _ _ _ _ _ Hname).
        rewrite list_insert_id by exact Hq. reflexivity. }
    rewrite (bind_ok _ _ _ _ _ Hname).
    destruct ps as [|p ps].
    { exists q. cbn [linear_from_iterable].
      rewrite list_insert_id by exact Hq. auto. }
    cbn [linear_from_iterable].
    rewrite (bind_ok _ _ _ _ _ (load_cqm_eq _ _ _ Hc)).
    destruct (mem name (cqm_variables c1)).
    2:{ exists q. rewrite list_insert_id by exact Hq. reflexivity. }
    rewrite (bind_ok _ _ _ _ _ (load_bqm_eq _ _ _ Hq)).
    cbn [linear offset].
    set (q1 := add_linear name p q).
    rewrite (bind_ok (store qm (OBqm {| linear := q1; offset := o |})) _ h
                     (<[qm := OBqm {| linear := q1; offset := o |}]> h) tt eq_refl).
    assert (Hqm : qm < length h) by (eapply lookup_lt_Some; exact Hq).
    assert (Hcq : cqm <> qm) by (intros ->; rewrite Hq in Hc; discriminate).
    destruct (IH bs' ps q1 (<[qm := OBqm {| linear := q1; offset := o |}]> h))
      as [q' Hrec].
    { rewrite list_lookup_insert_ne by auto. exact Hc. }
    { apply list_lookup_insert_eq. exact Hqm. }
    { clear IH. induction Hst as [|l b' ls bs'' Hl Hls IHls]; constructor.
      - apply Forall_cons in Hne as [Hl' _]. unfold points.
        rewrite list_lookup_insert_ne by auto. exact Hl.
      - apply IHls. apply Forall_cons in Hne as [_ Hne']. exact Hne'. }
    { exact Hne. }
    exists q'. fold (Exercise3.extract_stock_names bs') in Hrec.
    rewrite list_insert_insert_eq in Hrec. exact Hrec.
Qed.

(** [add_constraint_from_iterable]: besides the CQM it updates, it only
    allocates. *)
Lemma budget_part_eq (h : heap) cqm c1 to_buy price items bs ps sn r label :
  h !! cqm = Some (OCqm c1) ->
  h !! to_buy = Some (OList items) ->
  Forall2 (points h) items bs ->
  h !! price = Some (ONums ps) ->
  exists h',
    (forall l x, l <> cqm -> h !! l = Some x -> h' !! l = Some x) /\
    match dimod.add_constraint_from_iterable
            c1 (py_zip (Exercise3.extract_stock_names bs) ps) sn r label with
    | OK c2 =>
        Exercise3Heap.add_constraint_from_iterable cqm to_buy price sn r label h
        = (h', OK tt) /\
        h' !! cqm = Some (OCqm c2)
    | Raise e =>
        Exercise3Heap.add_constraint_from_iterable cqm to_buy price sn r label h
        = (h', Raise e)
    end.
Proof.
  intros Hc Ht Hitems Hp.
  unfold Exercise3Heap.add_constraint_from_iterable,
         dimod.add_constraint_from_iterable.
  set (h1 := h ++ [OBqm {| linear := []; offset := 0 |}]).
  rewrite (bind_ok (alloc _) _ h h1 (length h) eq_refl).
  rewrite (bind_ok _ _ _ _ _ (load_list_eq h1 _ _ (preserved_app _ _ _ _ Ht))).
  rewrite (bind_ok _ _ _ _ _ (load_nums_eq h1 _ _ (preserved_app _ _ _ _ Hp))).
  destruct (budget_terms_eq cqm c1 (length h) 0%Q items bs ps [] h1) as [q' Hloop].
  { apply preserved_app. exact Hc. }
  { apply lookup_snoc. }
  { eapply Forall2_points_preserved; [apply preserved_app | exact Hitems]. }
  { clear -Hitems. induction Hitems as [|l b ls bs Hl _ IH]; constructor; [|exact IH].
    apply lookup_lt_Some in Hl. lia. }
  unfold h1 in Hloop. rewrite insert_snoc in Hloop.
  set (h2 := h ++ [OBqm {| linear := q'; offset := 0 |}]) in *.
  assert (Hpres : forall c2 l x, l <> cqm -> h !! l = Some x ->
                                 (<[cqm := OCqm c2]> h2) !! l = Some x).
  { intros c2 l x Hl Hx. rewrite list_lookup_insert_ne by auto.
    apply preserved_app. exact Hx. }
  destruct (linear_from_iterable _ _ []) as [l|e]; cbn [rbind].
  - destruct Hloop as [-> Hloop].
    rewrite (bind_ok _ _ _ _ _ Hloop).
    unfold add_constraint_from_model.
    rewrite (bind_ok _ _ _ _ _ (load_cqm_eq h2 _ _ (preserved_app _ _ _ _ Hc))).
    rewrite (bind_ok _ _ _ _ _ (load_bqm_eq h2 _ _ (lookup_snoc _ _))).
    destruct (dimod.add_constraint_from_model c1 _ sn r label) as [c2|e].
    + exists (<[cqm := OCqm c2]> h2). split; [apply Hpres|].
      split; [reflexivity|].
      apply list_lookup_insert_eq. unfold h2. rewrite length_app.
      apply lookup_lt_Some in Hc. lia.
    + exists h2. split; [|reflexivity].
      intros l x _ Hx. apply preserved_app. exact Hx.
  - exists h2. split.
    + intros l x _ Hx. apply preserved_app. exact Hx.
    + rewrite (bind_raise _ _ _ _ _ Hloop). reflexivity.
Qed.

(** X12: the same agreement for exercise_3, whose [define_cqm] also reads
    [price] and builds the budget constraint in a model of its own. *)
Theorem define_cqm3_agrees (h : heap) stocks price returns items bs ps rs k budget :
  h !! stocks = Some (OList items) ->
  Forall2 (points h) items bs ->
  h !! price = Some (ONums ps) ->
  h !! returns = Some (ONums rs) ->
  exists h',
    match Exercise3.define_cqm bs k ps rs budget with
    | OK cqm =>
        Exercise3Heap.define_cqm stocks k price returns budget h
        = (h', OK (length h)) /\
        h' !! length h = Some (OCqm cqm)
    | Raise e =>
        Exercise3Heap.define_cqm stocks k price returns budget h = (h', Raise e)
    end.
Proof.
  intros Hs Hitems Hp Hr.
  destruct (constraint_part_eq h stocks items bs k Hs Hitems) as (h1 & Hp1 & H1).
  unfold Exercise3.define_cqm, Exercise3Heap.define_cqm.
  destruct (dimod.add_constraint dimod.new_cqm _ _) as [c1|e]; cbn [rbind].
  2:{ exists h1. apply (H1 (fun cqm to_buy : loc =>
              let! _ := Exercise3Heap.add_constraint_from_iterable
                          cqm to_buy price SenseLe budget "budget_limitation" in
              let! n := py_len to_buy in
              let! obj := sum_objective (ANum 0) to_buy returns (seq 0 n) in
              let! _ := set_objective cqm obj in
              ret cqm)). }
  destruct H1 as (Hc & Ht & Hrun).
  assert (Hlt : forall l x, h !! l = Some x -> l <> length h).
  { intros l x Hx. apply lookup_lt_Some in Hx. lia. }
  destruct (budget_part_eq h1 (length h) c1 (S (length h)) price items bs ps
              SenseLe budget "budget_limitation" Hc Ht
              (Forall2_points_preserved _ _ _ _ Hp1 Hitems) (Hp1 _ _ Hp))
    as (h2 & Hp2 & H2).
  rewrite (Hrun (fun cqm to_buy : loc =>
              let! _ := Exercise3Heap.add_constraint_from_iterable
                          cqm to_buy price SenseLe budget "budget_limitation" in
              let! n := py_len to_buy in
              let! obj := sum_objective (ANum 0) to_buy returns (seq 0 n) in
              let! _ := set_objective cqm obj in
              ret cqm)).
  destruct (dimod.add_constraint_from_iterable c1 _ _ _ _) as [c2|e]; cbn [rbind].
  2:{ exists h2. rewrite (bind_raise _ _ _ _ _ H2). reflexivity. }
  destruct H2 as [H2 Hc2].
  rewrite (bind_ok _ _ _ _ _ H2).
  destruct (objective_part_eq h2 (length h) c2 (S (length h)) returns items bs rs)
    as [h3 H3].
  { exact Hc2. }
  { apply Hp2; [lia | exact Ht]. }
  { eapply Forall2_impl; [exact Hitems|]. intros l b Hl.
    apply Hp2; [eapply Hlt; exact Hl | apply Hp1; exact Hl]. }
  { apply Hp2; [eapply Hlt; exact Hr | apply Hp1; exact Hr]. }
  exists h3. exact H3.
Qed.

End HeapAgreement.

(** ** The run of the scripts *)

Lemma io_bind_call {S A B} (e : event S) (a : A) (f : A -> IO S B) :
  io_bind (call e a) f = (e :: fst (f a), snd (f a)).
Proof. reflexivity. Qed.

(** C5 (as amended): given stock data of float64 numbers with a return for
    each of the ten stocks, each script's run asks for the stock data,
    builds the CQM from it with [define_cqm] (the ten stock variables, the
    constraint that two of them are chosen, in exercise_3 the budget of 80
    on their prices, and the negated returns as the objective), creates the
    sampler, calls its [sample_cqm] once on that CQM, prints the heading and
    hands the sampleset it got, unchanged, to [utilities.process_sampleset];
    there is no other event.  [sample_cqm] itself makes that one remote call
    and returns its answer. *)
Theorem run_builds_samples_prints {S : Type} (w : world S) :
  10 <= length (returns (get_stock_info w)) ->
  Forall float64 (returns (get_stock_info w)) ->
  Forall float64 (price (get_stock_info w)) ->
  (exists cqm c,
      Exercise1.define_cqm (Exercise1.define_variables run_stockcodes)
                           2 (returns (get_stock_info w)) = OK cqm /\
      cqm_variables cqm = run_variables /\
      constraints cqm = [("choose k stocks", c)] /\
      asserts_choose_k run_variables 2 c /\
      negated_return_objective run_variables (returns (get_stock_info w))
                               (objective cqm) /\
      Exercise1.sample_cqm w cqm
      = ([NewSampler; RemoteSampleCqm cqm], OK (leap_sample_cqm w cqm)) /\
      Exercise1.main w
      = ([CallGetStockInfo; NewSampler; RemoteSampleCqm cqm;
          Print (newline +:+ "Part 1 solution:" +:+ newline);
          CallProcessSampleset (leap_sample_cqm w cqm) run_stockcodes],
         OK tt)) /\
  (exists cqm c b,
      Exercise3.define_cqm (Exercise3.define_variables run_stockcodes)
                           2 (price (get_stock_info w))
                           (returns (get_stock_info w)) 80%Q = OK cqm /\
      cqm_variables cqm = run_variables /\
      constraints cqm = [("choose k stocks", c); ("budget_limitation", b)] /\
      asserts_choose_k run_variables 2 c /\
      asserts_budget run_variables (price (get_stock_info w)) 80 b /\
      negated_return_objective run_variables (returns (get_stock_info w))
                               (objective cqm) /\
      Exercise3.sample_cqm w cqm
      = ([NewSampler; RemoteSampleCqm cqm], OK (leap_sample_cqm w cqm)) /\
      Exercise3.main w
      = ([CallGetStockInfo; NewSampler; RemoteSampleCqm cqm;
          Print (newline +:+ "Part 2 solution:" +:+ newline);
          CallProcessSampleset (leap_sample_cqm w cqm) run_stockcodes],
         OK tt)).
Proof.
  intros Hlen _ _.
  assert (Hvars : add_variables_from run_variables [] = run_variables)
    by reflexivity.
  split.
  - destruct (define_cqm1_builds run_variables 2 (returns (get_stock_info w)))
      as (l & obj & Hl & Hobj & _ & _ & H); [discriminate | exact Hlen |].
    change (map Binary run_variables)
      with (Exercise1.define_variables run_stockcodes) in H.
    eexists _, _. split; [exact H|]. cbn [cqm_variables constraints objective].
    split; [exact Hvars|]. split; [reflexivity|].
    split; [apply asserts_choose_k_intro; exact Hl|].
    split; [apply negated_return_objective_intro; exact Hobj|].
    split; [reflexivity|].
    unfold Exercise1.main. cbv zeta.
    change ["T"; "SFL"; "PFE"; "XOM"; "MO"; "VZ"; "IBM"; "TSLA"; "GILD"; "GE"]
      with run_stockcodes.
    rewrite io_bind_call, H. reflexivity.
  - destruct (define_cqm3_builds run_variables 2 (price (get_stock_info w))
                                 (returns (get_stock_info w)) 80%Q)
      as (l & obj & Hl & Hobj & _ & _ & H); [discriminate | exact Hlen |].
    change (map Binary run_variables)
      with (Exercise3.define_variables run_stockcodes) in H.
    eexists _, _, _. split; [exact H|]. cbn [cqm_variables constraints objective].
    split; [exact Hvars|]. split; [reflexivity|].
    split; [apply asserts_choose_k_intro; exact Hl|].
    split; [apply asserts_budget_intro|].
    split; [apply negated_return_objective_intro; exact Hobj|].
    split; [reflexivity|].
    unfold Exercise3.main. cbv zeta.
    change ["T"; "SFL"; "PFE"; "XOM"; "MO"; "VZ"; "IBM"; "TSLA"; "GILD"; "GE"]
      with run_stockcodes.
    rewrite io_bind_call, H. reflexivity.
Qed.

Lemma run_builds_samples_prints_witness :
  (10 <= length (returns (get_stock_info sample_world)) /\
   Forall float64 (returns (get_stock_info sample_world)) /\
   Forall float64 (price (get_stock_info sample_world))) /\
  (exists cqm,
      cqm_variables cqm = run_variables /\
      map fst (constraints cqm) = ["choose k stocks"] /\
      Exercise1.main sample_world
      = ([CallGetStockInfo; NewSampler; RemoteSampleCqm cqm;
          Print (newline +:+ "Part 1 solution:" +:+ newline);
          CallProcessSampleset (leap_sample_cqm sample_world cqm) run_stockcodes],
         OK tt)) /\
  (exists cqm,
      cqm_variables cqm = run_variables /\
      map fst (constraints cqm) = ["choose k stocks"; "budget_limitation"] /\
      Exercise3.main sample_world
      = ([CallGetStockInfo; NewSampler; RemoteSampleCqm cqm;
          Print (newline +:+ "Part 2 solution:" +:+ newline);
          CallProcessSampleset (leap_sample_cqm sample_world cqm) run_stockcodes],
         OK tt)).
Proof.
  assert (Hr : Forall float64 (returns (get_stock_info sample_world)))
    by (cbn [sample_world returns get_stock_info]; float64_list).
  assert (Hp : Forall float64 (price (get_stock_info sample_world)))
    by (cbn [sample_world price get_stock_info]; float64_list).
  split; [split; [simpl; lia | split; assumption]|].
  destruct (run_builds_samples_prints sample_world)
    as [(c1 & x1 & _ & V1 & E1 & _ & _ & _ & H1)
        (c3 & x3 & b3 & _ & V3 & E3 & _ & _ & _ & _ & H3)];
    [simpl; lia | exact Hr | exact Hp |].
  split.
  - exists c1. rewrite E1. auto.
  - exists c3. rewrite E3. auto.
Defined.

(** C5 as stated fails when the stock data has fewer than ten returns:
    [define_cqm] raises [IndexError] on the missing return, and the run ends
    there, before any sampler is created: no CQM is built, no remote method
    is called and nothing is printed.  (Nor can a return be any number: one
    that float64 does not hold, such as the Python int [10**400], is not a
    bias the SDK can store.) *)
Lemma run_on_two_returns_sends_nothing :
  Exercise1.main
    {| get_stock_info :=
         {| price := [30%Q; 12%Q]; returns := [(1#128)%Q; (3#128)%Q];
            variance := [] |};
       leap_sample_cqm := fun cqm => length (cqm_variables cqm) |}
  = ([CallGetStockInfo], Raise IndexError) /\
  Exercise3.main
    {| get_stock_info :=
         {| price := [30%Q; 12%Q]; returns := [(1#128)%Q; (3#128)%Q];
            variance := [] |};
       leap_sample_cqm := fun cqm => length (cqm_variables cqm) |}
  = ([CallGetStockInfo], Raise IndexError) /\
  ~ float64 (inject_Z (10 ^ 400)).
Proof.
  split; [reflexivity|]. split; [reflexivity|]. exact not_float64_10_400.
Qed.

(** * Further properties of the code *)

(** ** [define_cqm] on arbitrary lists of models *)

Lemma define_cqm1_after_constraint stocks k returns :
  stocks <> [] ->
  exists l,
    py_sum stocks = PyBqm l /\
    Exercise1.define_cqm stocks k returns
    = (let* terms := objective_terms stocks returns in
       set_objective
         {| cqm_variables := add_variables_from (variables l) [];
            constraints :=
              [("choose k stocks",
                {| lhs := l; sense := SenseEq; rhs := inject_Z k |})];
            objective := objective new_cqm |}
         (py_sum terms)).
Proof.
  intros Hne. destruct (py_sum_nonempty stocks Hne) as [l Hl].
  exists l. split; [exact Hl|].
  unfold Exercise1.define_cqm. rewrite Hl. cbn [py_eq add_constraint].
  unfold add_constraint_from_comparison. cbn [lhs sense rhs].
  rewrite add_constraint_from_model_fresh by reflexivity. reflexivity.
Qed.

Lemma objective_general stocks returns cqm0 :
  stocks <> [] ->
  (length stocks <= length returns ->
   exists obj,
     py_sum (zip_with (fun x r => mul x (- r)%Q) stocks returns) = PyBqm obj /\
     (let* terms := objective_terms stocks returns in
      set_objective cqm0 (py_sum terms))
     = OK {| cqm_variables := add_variables_from (variables obj) (cqm_variables cqm0);
             constraints := constraints cqm0;
             objective := obj |}) /\
  (length returns < length stocks ->
   (let* terms := objective_terms stocks returns in
    set_objective cqm0 (py_sum terms)) = Raise IndexError).
Proof.
  intros Hne. split.
  - intros Hlen.
    destruct (py_sum_nonempty (zip_with (fun x r => mul x (- r)%Q) stocks returns))
      as [obj Hobj].
    { destruct stocks; [congruence|].
      destruct returns; simpl in *; [lia | discriminate]. }
    exists obj. split; [exact Hobj|].
    rewrite objective_terms_ok by exact Hlen. cbn [rbind]. rewrite Hobj. reflexivity.
  - intros Hlt. rewrite objective_terms_short by exact Hlt. reflexivity.
Qed.

(** X1: exercise_1's [define_cqm] on any list of models, called with
    float64 numbers: it returns a CQM exactly when the list is non-empty and
    every stock has a return; on the empty list it raises [TypeError], with
    too few returns [IndexError], and it raises nothing else. *)
Theorem define_cqm1_outcomes (stocks : list BinaryQuadraticModel) (k : Z)
    (returns : list Q) :
  float64 (inject_Z k) -> Forall float64 returns ->
  match Exercise1.define_cqm stocks k returns with
  | OK _ => stocks <> [] /\ length stocks <= length returns
  | Raise e =>
      (e = TypeError /\ stocks = []) \/
      (e = IndexError /\ stocks <> [] /\ length returns < length stocks)
  end.
Proof.
  intros _ _. destruct stocks as [|x xs].
  - left. split; reflexivity.
  - assert (Hne : x :: xs <> []) by discriminate.
    destruct (define_cqm1_after_constraint (x :: xs) k returns Hne) as (l & _ & ->).
    match goal with
    | |- context [set_objective ?c _] =>
        destruct (objective_general (x :: xs) returns c Hne) as [Hok Hshort]
    end.
    destruct (le_lt_dec (length (x :: xs)) (length returns)) as [Hlen|Hlt].
    + destruct (Hok Hlen) as (obj & _ & ->). split; assumption.
    + rewrite (Hshort Hlt). right. repeat split; assumption.
Qed.

Lemma define_cqm1_outcomes_witness :
  (float64 (inject_Z 1) /\ Forall float64 [(1#2)%Q]) /\
  Exercise1.define_cqm (map Binary ["s_T"; "s_GE"]) 1 [(1#2)%Q] = Raise IndexError /\
  match Exercise1.define_cqm (map Binary ["s_T"; "s_GE"]) 1 [(1#2)%Q] with
  | OK _ => map Binary ["s_T"; "s_GE"] <> [] /\
            length (map Binary ["s_T"; "s_GE"]) <= length [(1#2)%Q]
  | Raise e =>
      (e = TypeError /\ map Binary ["s_T"; "s_GE"] = []) \/
      (e = IndexError /\ map Binary ["s_T"; "s_GE"] <> [] /\
       length [(1#2)%Q] < length (map Binary ["s_T"; "s_GE"]))
  end.
Proof.
  assert (Hk : float64 (inject_Z 1)) by float64_closed.
  assert (Hr : Forall float64 [(1#2)%Q]) by float64_list.
  split; [split; assumption|]. split; [reflexivity|].
  apply (define_cqm1_outcomes (map Binary ["s_T"; "s_GE"]) 1 [(1#2)%Q] Hk Hr).
Defined.

Lemma in_summand_variables_py_add acc x v :
  In v (summand_variables (py_add acc x))
  <-> In v (summand_variables acc) \/ In v (variables x).
Proof.
  destruct acc as [n|a]; cbn [py_add summand_variables].
  - rewrite variables_radd. simpl. tauto.
  - rewrite variables_add, in_add_variables_from. tauto.
Qed.

Lemma in_summand_variables_fold xs : forall acc v,
  In v (summand_variables (fold_left py_add xs acc))
  <-> In v (summand_variables acc) \/ exists x, In x xs /\ In v (variables x).
Proof.
  induction xs as [|x xs IH]; intros acc v; simpl.
  - split; [auto | intros [H|(x & [] & _)]; exact H].
  - rewrite IH, in_summand_variables_py_add. split.
    + intros [[H|H]|(y & Hy & Hv)]; eauto.
    + intros [H|(y & [<-|Hy] & Hv)]; eauto.
Qed.

Lemma get_stock_name_cases stock :
  match Exercise3.get_stock_name stock with
  | OK name => In name (variables stock)
  | Raise e => e = IndexError /\ variables stock = []
  end.
Proof.
  unfold Exercise3.get_stock_name, getitem.
  destruct (variables stock) as [|v vs]; simpl; auto.
Qed.

(** With every variable of every stock known to the CQM, the loop over the
    budget terms can only fail on a stock that has no variable. *)
Lemma linear_from_iterable_py_zip known stocks : forall price qm,
  (forall stock v, In stock stocks -> In v (variables stock) -> In v known) ->
  match linear_from_iterable known
          (py_zip (Exercise3.extract_stock_names stocks) price) qm with
  | OK _ => True
  | Raise e => e = IndexError /\ exists stock, In stock stocks /\ variables stock = []
  end.
Proof.
  induction stocks as [|stock stocks IH]; intros price qm Hknown.
  - exact I.
  - cbn [Exercise3.extract_stock_names map py_zip].
    pose proof (get_stock_name_cases stock) as Hname.
    destruct (Exercise3.get_stock_name stock) as [name|e].
    + destruct price as [|p price]; [exact I|].
      cbn [linear_from_iterable].
      assert (Hm : mem name known = true).
      { apply mem_true_iff. apply (Hknown stock); [left; reflexivity | exact Hname]. }
      rewrite Hm.
      specialize (IH price (add_linear name p qm)).
      unfold Exercise3.extract_stock_names in IH.
      destruct (linear_from_iterable known _ (add_linear name p qm)) as [q|e].
      * exact I.
      * destruct IH as (-> & st & Hst & Hv).
        { intros st v Hst. apply Hknown. right. exact Hst. }
        split; [reflexivity|]. exists st. split; [right; exact Hst | exact Hv].
    + cbn [linear_from_iterable]. destruct Hname as [-> Hv].
      split; [reflexivity|]. exists stock. split; [left; reflexivity | exact Hv].
Qed.

Lemma define_cqm3_after_constraint stocks k price returns budget :
  stocks <> [] ->
  exists l,
    py_sum stocks = PyBqm l /\
    Exercise3.define_cqm stocks k price returns budget
    = (let* cqm := add_constraint_from_iterable
                     {| cqm_variables := add_variables_from (variables l) [];
                        constraints :=
                          [("choose k stocks",
                            {| lhs := l; sense := SenseEq; rhs := inject_Z k |})];
                        objective := objective new_cqm |}
                     (py_zip (Exercise3.extract_stock_names stocks) price)
                     SenseLe budget "budget_limitation" in
       let* terms := objective_terms stocks returns in
       set_objective cqm (py_sum terms)).
Proof.
  intros Hne. destruct (py_sum_nonempty stocks Hne) as [l Hl].
  exists l. split; [exact Hl|].
  unfold Exercise3.define_cqm. rewrite Hl. cbn [py_eq add_constraint].
  unfold add_constraint_from_comparison. cbn [lhs sense rhs].
  rewrite add_constraint_from_model_fresh by reflexivity. reflexivity.
Qed.

(** X2: exercise_3's [define_cqm] on any list of models, called with
    float64 numbers: it raises [TypeError] on the empty list and
    [IndexError] when a stock has no return or no variable, and nothing
    else: the budget constraint never meets a variable the CQM does not
    know, nor a label that is taken. *)
Theorem define_cqm3_outcomes (stocks : list BinaryQuadraticModel) (k : Z)
    (price returns : list Q) (budget : Q) :
  float64 (inject_Z k) -> Forall float64 returns ->
  Forall float64 price -> float64 budget ->
  match Exercise3.define_cqm stocks k price returns budget with
  | OK _ => stocks <> [] /\ length stocks <= length returns
  | Raise e =>
      (e = TypeError /\ stocks = []) \/
      (e = IndexError /\ stocks <> [] /\
       (length returns < length stocks \/
        exists stock, In stock stocks /\ variables stock = []))
  end.
Proof.
  intros _ _ _ _. destruct stocks as [|x xs].
  - left. split; reflexivity.
  - assert (Hne : x :: xs <> []) by discriminate.
    destruct (define_cqm3_after_constraint (x :: xs) k price returns budget Hne)
      as (l & Hl & ->).
    unfold add_constraint_from_iterable. cbn [cqm_variables].
    pose proof (linear_from_iterable_py_zip
                  (add_variables_from (variables l) []) (x :: xs) price []) as Hloop.
    destruct (linear_from_iterable _ _ []) as [q|e]; cbn [rbind].
    + rewrite add_constraint_from_model_fresh by reflexivity. cbn [rbind].
      match goal with
      | |- context [set_objective ?c _] =>
          destruct (objective_general (x :: xs) returns c Hne) as [Hok Hshort]
      end.
      destruct (le_lt_dec (length (x :: xs)) (length returns)) as [Hlen|Hlt].
      * destruct (Hok Hlen) as (obj & _ & ->). split; assumption.
      * rewrite (Hshort Hlt). right. repeat split; auto.
    + destruct Hloop as [-> Hstock].
      { intros stock v Hin Hv. apply in_add_variables_from. left.
        change (In v (summand_variables (PyBqm l))). rewrite <- Hl.
        unfold py_sum. apply in_summand_variables_fold. right. eauto. }
      right. repeat split; auto.
Qed.

Lemma define_cqm3_outcomes_witness :
  (float64 (inject_Z 1) /\ Forall float64 [(1#2)%Q; (3#4)%Q] /\
   Forall float64 [30%Q; 50%Q] /\ float64 80) /\
  Exercise3.define_cqm [Binary "s_T"; {| linear := []; offset := 1 |}] 1
                       [30%Q; 50%Q] [(1#2)%Q; (3#4)%Q] 80%Q = Raise IndexError /\
  match Exercise3.define_cqm [Binary "s_T"; {| linear := []; offset := 1 |}] 1
                             [30%Q; 50%Q] [(1#2)%Q; (3#4)%Q] 80%Q with
  | OK _ => [Binary "s_T"; {| linear := []; offset := 1 |}] <> [] /\
            length [Binary "s_T"; {| linear := []; offset := 1 |}]
            <= length [(1#2)%Q; (3#4)%Q]
  | Raise e =>
      (e = TypeError /\ [Binary "s_T"; {| linear := []; offset := 1 |}] = []) \/
      (e = IndexError /\ [Binary "s_T"; {| linear := []; offset := 1 |}] <> [] /\
       (length [(1#2)%Q; (3#4)%Q]
        < length [Binary "s_T"; {| linear := []; offset := 1 |}] \/
        exists stock, In stock [Binary "s_T"; {| linear := []; offset := 1 |}] /\
                      variables stock = []))
  end.
Proof.
  assert (Hk : float64 (inject_Z 1)) by float64_closed.
  assert (Hr : Forall float64 [(1#2)%Q; (3#4)%Q]) by float64_list.
  assert (Hp : Forall float64 [30%Q; 50%Q]) by float64_list.
  assert (Hb : float64 80) by float64_closed.
  split; [auto|]. split; [reflexivity|].
  apply (define_cqm3_outcomes [Binary "s_T"; {| linear := []; offset := 1 |}] 1
                              [30%Q; 50%Q] [(1#2)%Q; (3#4)%Q] 80%Q Hk Hr Hp Hb).
Defined.

(** What a returned CQM looks like, for any list of models. *)
Lemma define_cqm1_ok_inv stocks k returns cqm :
  Exercise1.define_cqm stocks k returns = OK cqm ->
  exists l obj,
    stocks <> [] /\ length stocks <= length returns /\
    py_sum stocks = PyBqm l /\
    py_sum (zip_with (fun x r => mul x (- r)%Q) stocks returns) = PyBqm obj /\
    constraints cqm
    = [("choose k stocks", {| lhs := l; sense := SenseEq; rhs := inject_Z k |})] /\
    objective cqm = obj.
Proof.
  intros H. destruct stocks as [|x xs]; [discriminate|].
  assert (Hne : x :: xs <> []) by discriminate.
  destruct (define_cqm1_after_constraint (x :: xs) k returns Hne) as (l & Hl & Heq).
  rewrite Heq in H. clear Heq.
  match type of H with
  | context [set_objective ?c _] =>
      destruct (objective_general (x :: xs) returns c Hne) as [Hok Hshort]
  end.
  destruct (le_lt_dec (length (x :: xs)) (length returns)) as [Hlen|Hlt].
  - destruct (Hok Hlen) as (obj & Hobj & Heq). rewrite Heq in H.
    injection H as <-. exists l, obj. repeat split; auto.
  - rewrite (Hshort Hlt) in H. discriminate.
Qed.

Lemma define_cqm3_ok_inv stocks k price returns budget cqm :
  Exercise3.define_cqm stocks k price returns budget = OK cqm ->
  exists l q obj,
    stocks <> [] /\ length stocks <= length returns /\
    py_sum stocks = PyBqm l /\
    linear_from_iterable (add_variables_from (variables l) [])
                         (py_zip (Exercise3.extract_stock_names stocks) price) []
    = OK q /\
    py_sum (zip_with (fun x r => mul x (- r)%Q) stocks returns) = PyBqm obj /\
    constraints cqm
    = [("choose k stocks", {| lhs := l; sense := SenseEq; rhs := inject_Z k |});
       ("budget_limitation",
        {| lhs := {| linear := q; offset := 0 |}; sense := SenseLe; rhs := budget |})] /\
    objective cqm = obj.
Proof.
  intros H. destruct stocks as [|x xs]; [discriminate|].
  assert (Hne : x :: xs <> []) by discriminate.
  destruct (define_cqm3_after_constraint (x :: xs) k price returns budget Hne)
    as (l & Hl & Heq).
  rewrite Heq in H. clear Heq.
  unfold add_constraint_from_iterable in H. cbn [cqm_variables] in H.
  destruct (linear_from_iterable _ _ []) as [q|e] eqn:Hq; cbn [rbind] in H;
    [|discriminate].
  rewrite add_constraint_from_model_fresh in H by reflexivity. cbn [rbind] in H.
  match type of H with
  | context [set_objective ?c _] =>
      destruct (objective_general (x :: xs) returns c Hne) as [Hok Hshort]
  end.
  destruct (le_lt_dec (length (x :: xs)) (length returns)) as [Hlen|Hlt].
  - destruct (Hok Hlen) as (obj & Hobj & Heq). rewrite Heq in H.
    injection H as <-. exists l, q, obj. repeat split; auto.
  - rewrite (Hshort Hlt) in H. discriminate.
Qed.

(** ** Entries that are never read *)

Lemma objective_terms_app stocks returns extra :
  length stocks <= length returns ->
  objective_terms stocks (returns ++ extra) = objective_terms stocks returns.
Proof.
  intros H.
  rewrite !objective_terms_ok by (rewrite ?length_app; lia).
  f_equal.
  rewrite <- (zip_with_take_r' _ (length returns) stocks (returns ++ extra))
    by (rewrite length_app; lia).
  rewrite take_app_length. reflexivity.
Qed.

Lemma py_zip_app {A B} (a : list (result A)) (b extra : list B) :
  length a <= length b -> py_zip a (b ++ extra) = py_zip a b.
Proof.
  revert b. induction a as [|[x|e] a IH]; intros [|y b] H; simpl in *;
    try reflexivity; try lia.
  f_equal. apply IH. lia.
Qed.

(** X4: [define_cqm] reads [returns] and [price] only at the positions of
    the stocks: entries beyond the last stock change nothing, neither the
    CQM returned nor the exception raised. *)
Theorem define_cqm_ignores_entries_beyond_stocks
    (stocks : list BinaryQuadraticModel) (k : Z)
    (price returns more_price more_returns : list Q) (budget : Q) :
  length stocks <= length returns ->
  length stocks <= length price ->
  Exercise1.define_cqm stocks k (returns ++ more_returns)
  = Exercise1.define_cqm stocks k returns /\
  Exercise3.define_cqm stocks k (price ++ more_price) (returns ++ more_returns) budget
  = Exercise3.define_cqm stocks k price returns budget.
Proof.
  intros Hr Hp. split.
  - unfold Exercise1.define_cqm. rewrite objective_terms_app by exact Hr. reflexivity.
  - unfold Exercise3.define_cqm.
    rewrite objective_terms_app by exact Hr.
    rewrite py_zip_app; [reflexivity|].
    unfold Exercise3.extract_stock_names. rewrite length_map. exact Hp.
Qed.

Lemma define_cqm_ignores_entries_beyond_stocks_witness :
  (length (map Binary ["s_T"; "s_GE"]) <= length [(1#2)%Q; (3#4)%Q] /\
   length (map Binary ["s_T"; "s_GE"]) <= length [30%Q; 50%Q]) /\
  Exercise1.define_cqm (map Binary ["s_T"; "s_GE"]) 1 ([(1#2)%Q; (3#4)%Q] ++ [5%Q])
  = Exercise1.define_cqm (map Binary ["s_T"; "s_GE"]) 1 [(1#2)%Q; (3#4)%Q] /\
  Exercise3.define_cqm (map Binary ["s_T"; "s_GE"]) 1 ([30%Q; 50%Q] ++ [7%Q; 9%Q])
                       ([(1#2)%Q; (3#4)%Q] ++ [5%Q]) 80%Q
  = Exercise3.define_cqm (map Binary ["s_T"; "s_GE"]) 1 [30%Q; 50%Q]
                         [(1#2)%Q; (3#4)%Q] 80%Q.
Proof.
  split.
  - split; simpl; lia.
  - apply (define_cqm_ignores_entries_beyond_stocks
             (map Binary ["s_T"; "s_GE"]) 1 [30%Q; 50%Q] [(1#2)%Q; (3#4)%Q]
             [7%Q; 9%Q] [5%Q] 80%Q); simpl; lia.
Defined.

(** ** Which assignments the constraints admit *)

Lemma linear_energy_ext l (s s' : sample) :
  (forall v, In v (map fst l) -> s v = s' v) ->
  linear_energy l s = linear_energy l s'.
Proof.
  induction l as [|[v b] l IH]; intros H; simpl; [reflexivity|].
  unfold value. rewrite (H v) by (left; reflexivity).
  rewrite IH; [reflexivity|]. intros u Hu. apply H. right. exact Hu.
Qed.

Lemma fst_zip_take {A B} (l : list A) (k : list B) :
  map fst (zip l k) = take (length k) l.
Proof.
  revert k. induction l as [|a l IH]; intros [|b k]; simpl; try reflexivity.
  f_equal. apply IH.
Qed.

(** X5: a stock without a price is outside the budget: whether an assignment
    satisfies "budget_limitation" depends only on the stocks that have a
    price, the first [len(price)] of them. *)
Theorem budget_ignores_stocks_without_price (names : list string) (k : Z)
    (price returns : list Q) (budget : Q) (cqm : ConstrainedQuadraticModel)
    (c : Comparison) :
  Exercise3.define_cqm (map Binary names) k price returns budget = OK cqm ->
  find_constraint "budget_limitation" (constraints cqm) = Some c ->
  forall s s' : sample,
    (forall n, In n (take (length price) names) -> s n = s' n) ->
    satisfied c s = satisfied c s'.
Proof.
  intros H Hc s s' Hs.
  destruct (proj1 (define_cqm3_returns_iff names k price returns budget))
    as [Hne Hlen]; [eexists; exact H|].
  destruct (define_cqm3_builds names k price returns budget Hne Hlen)
    as (l & obj & _ & _ & _ & _ & Heq).
  rewrite Heq in H. injection H as <-.
  cbn in Hc. injection Hc as <-.
  unfold satisfied, energy; cbn [lhs sense rhs linear offset].
  rewrite (linear_energy_ext _ s s'); [reflexivity|].
  intros v Hv. apply Hs.
  rewrite variables_fold_add_linear in Hv.
  apply in_add_variables_from in Hv as [Hv|[]].
  rewrite fst_zip_take in Hv. exact Hv.
Qed.

Lemma budget_ignores_stocks_without_price_witness :
  exists cqm c,
    (Exercise3.define_cqm (map Binary ["s_T"; "s_GE"; "s_VZ"]) 1 [30%Q; 50%Q]
                          [(1#2)%Q; (3#4)%Q; (1#4)%Q] 80%Q = OK cqm /\
     find_constraint "budget_limitation" (constraints cqm) = Some c) /\
    forall s s' : sample,
      (forall n, In n (take (length [30%Q; 50%Q]) ["s_T"; "s_GE"; "s_VZ"]) ->
                 s n = s' n) ->
      satisfied c s = satisfied c s'.
Proof.
  eexists _, _. split.
  - split; reflexivity.
  - eapply (budget_ignores_stocks_without_price
             ["s_T"; "s_GE"; "s_VZ"] 1 [30%Q; 50%Q] [(1#2)%Q; (3#4)%Q; (1#4)%Q] 80%Q);
      reflexivity.
Defined.

Lemma choose_k_of_returned_cqm names k price returns budget cqm c :
  Exercise1.define_cqm (map Binary names) k returns = OK cqm \/
  Exercise3.define_cqm (map Binary names) k price returns budget = OK cqm ->
  find_constraint "choose k stocks" (constraints cqm) = Some c ->
  forall s, satisfied c s = true <-> Z.of_nat (selected s names) = k.
Proof.
  intros H Hc.
  assert (exists l, py_sum (map Binary names) = PyBqm l /\
                    c = {| lhs := l; sense := SenseEq; rhs := inject_Z k |})
    as (l & Hl & ->).
  { destruct H as [H|H].
    - destruct (define_cqm1_ok_inv _ _ _ _ H) as (l & obj & _ & _ & Hl & _ & Hcs & _).
      rewrite Hcs in Hc. cbn in Hc. injection Hc as <-. eauto.
    - destruct (define_cqm3_ok_inv _ _ _ _ _ _ H)
        as (l & q & obj & _ & _ & Hl & _ & _ & Hcs & _).
      rewrite Hcs in Hc. cbn in Hc. injection Hc as <-. eauto. }
  apply (asserts_choose_k_intro names k l Hl).
Qed.

Lemma selected_le s names : selected s names <= length names.
Proof. unfold selected. apply List.filter_length_le. Qed.

(** X6: [define_cqm] does not check [num_stocks_to_buy].  With a negative
    number, or one above the number of stocks, it still returns a CQM (for a
    non-empty list of stock variables with a return for each, and float64
    numbers), and no assignment satisfies its constraint
    "choose k stocks". *)
Theorem choose_k_out_of_range_is_infeasible (names : list string) (k : Z)
    (price returns : list Q) (budget : Q) :
  names <> [] -> length names <= length returns ->
  float64 (inject_Z k) -> Forall float64 returns ->
  Forall float64 price -> float64 budget ->
  (k < 0 \/ Z.of_nat (length names) < k)%Z ->
  (exists cqm c,
      Exercise1.define_cqm (map Binary names) k returns = OK cqm /\
      find_constraint "choose k stocks" (constraints cqm) = Some c /\
      forall s, satisfied c s = false) /\
  (exists cqm c,
      Exercise3.define_cqm (map Binary names) k price returns budget = OK cqm /\
      find_constraint "choose k stocks" (constraints cqm) = Some c /\
      forall s, satisfied c s = false).
Proof.
  intros Hne Hlen _ _ _ _ Hk.
  assert (Hno : forall cqm c,
             Exercise1.define_cqm (map Binary names) k returns = OK cqm \/
             Exercise3.define_cqm (map Binary names) k price returns budget = OK cqm ->
             find_constraint "choose k stocks" (constraints cqm) = Some c ->
             forall s, satisfied c s = false).
  { intros cqm c H Hc s.
    pose proof (choose_k_of_returned_cqm names k price returns budget cqm c H Hc s)
      as Hiff.
    pose proof (selected_le s names) as Hle.
    destruct (satisfied c s); [|reflexivity].
    assert (Z.of_nat (selected s names) = k) by (apply Hiff; reflexivity). lia. }
  split.
  - destruct (define_cqm1_builds names k returns Hne Hlen)
      as (l & obj & _ & _ & _ & _ & H).
    eexists _, _. split; [exact H|]. split; [reflexivity|].
    apply (Hno _ _ (or_introl H)). reflexivity.
  - destruct (define_cqm3_builds names k price returns budget Hne Hlen)
      as (l & obj & _ & _ & _ & _ & H).
    eexists _, _. split; [exact H|]. split; [reflexivity|].
    apply (Hno _ _ (or_intror H)). reflexivity.
Qed.

Lemma choose_k_out_of_range_is_infeasible_witness :
  (["s_T"; "s_GE"] <> [] /\ length ["s_T"; "s_GE"] <= length [(1#2)%Q; (3#4)%Q] /\
   float64 (inject_Z 3) /\ Forall float64 [(1#2)%Q; (3#4)%Q] /\
   Forall float64 [30%Q; 50%Q] /\ float64 80 /\
   (3 < 0 \/ Z.of_nat (length ["s_T"; "s_GE"]) < 3)%Z) /\
  (exists cqm c,
      Exercise1.define_cqm (map Binary ["s_T"; "s_GE"]) 3 [(1#2)%Q; (3#4)%Q] = OK cqm /\
      find_constraint "choose k stocks" (constraints cqm) = Some c /\
      forall s, satisfied c s = false) /\
  (exists cqm c,
      Exercise3.define_cqm (map Binary ["s_T"; "s_GE"]) 3 [30%Q; 50%Q]
                           [(1#2)%Q; (3#4)%Q] 80%Q = OK cqm /\
      find_constraint "choose k stocks" (constraints cqm) = Some c /\
      forall s, satisfied c s = false).
Proof.
  assert (Hk : float64 (inject_Z 3)) by float64_closed.
  assert (Hr : Forall float64 [(1#2)%Q; (3#4)%Q]) by float64_list.
  assert (Hp : Forall float64 [30%Q; 50%Q]) by float64_list.
  assert (Hb : float64 80) by float64_closed.
  assert (Hout : (3 < 0 \/ Z.of_nat (length ["s_T"; "s_GE"]) < 3)%Z)
    by (right; simpl; lia).
  split.
  - split; [discriminate|]. split; [simpl; lia|]. auto 6.
  - apply (choose_k_out_of_range_is_infeasible
             ["s_T"; "s_GE"] 3 [30%Q; 50%Q] [(1#2)%Q; (3#4)%Q] 80%Q);
      [discriminate | simpl; lia | exact Hk | exact Hr | exact Hp | exact Hb
       | exact Hout].
Defined.

Lemma mem_false_iff v vs : mem v vs = false <-> ~ In v vs.
Proof.
  rewrite <- mem_true_iff. destruct (mem v vs); split; congruence.
Qed.

Lemma selected_prefix (pre suf : list string) :
  NoDup (pre ++ suf) ->
  selected (fun n => mem n pre) (pre ++ suf) = length pre.
Proof.
  intros Hnd. unfold selected. rewrite List.filter_app, length_app.
  rewrite (filter_all _ pre) by (intros x Hx; apply mem_true_iff; exact Hx).
  rewrite (filter_none _ suf); [simpl; lia|].
  intros x Hx. apply mem_false_iff. intros Hpre.
  apply NoDup_app in Hnd as (_ & Hdis & _).
  apply (Hdis x); apply list_elem_of_In; assumption.
Qed.

(** X7: with pairwise different stock variables and
    [0 <= num_stocks_to_buy <= len(stocks)], the constraint "choose k stocks"
    of the returned CQM can be satisfied: selecting the first
    [num_stocks_to_buy] stocks does. *)
Theorem choose_k_in_range_is_feasible (names : list string) (k : Z)
    (price returns : list Q) (budget : Q) (cqm : ConstrainedQuadraticModel)
    (c : Comparison) :
  Exercise1.define_cqm (map Binary names) k returns = OK cqm \/
  Exercise3.define_cqm (map Binary names) k price returns budget = OK cqm ->
  find_constraint "choose k stocks" (constraints cqm) = Some c ->
  NoDup names ->
  (0 <= k <= Z.of_nat (length names))%Z ->
  satisfied c (fun n => mem n (take (Z.to_nat k) names)) = true.
Proof.
  intros H Hc Hnd Hk.
  apply (choose_k_of_returned_cqm names k price returns budget cqm c H Hc).
  set (chosen := take (Z.to_nat k) names).
  assert (Hsplit : names = chosen ++ drop (Z.to_nat k) names).
  { unfold chosen. rewrite take_drop. reflexivity. }
  rewrite Hsplit at 1.
  rewrite selected_prefix by (rewrite <- Hsplit; exact Hnd).
  unfold chosen. rewrite length_take. lia.
Qed.

Lemma choose_k_in_range_is_feasible_witness :
  exists cqm c,
    ((Exercise1.define_cqm (map Binary ["s_T"; "s_GE"; "s_VZ"]) 2
                           [(1#2)%Q; (3#4)%Q; (1#4)%Q] = OK cqm \/
      Exercise3.define_cqm (map Binary ["s_T"; "s_GE"; "s_VZ"]) 2 [30%Q; 50%Q; 20%Q]
                           [(1#2)%Q; (3#4)%Q; (1#4)%Q] 80%Q = OK cqm) /\
     find_constraint "choose k stocks" (constraints cqm) = Some c /\
     NoDup ["s_T"; "s_GE"; "s_VZ"] /\
     (0 <= 2 <= Z.of_nat (length ["s_T"; "s_GE"; "s_VZ"]))%Z) /\
    satisfied c (fun n => mem n (take (Z.to_nat 2) ["s_T"; "s_GE"; "s_VZ"])) = true.
Proof.
  assert (Hnd : NoDup ["s_T"; "s_GE"; "s_VZ"]).
  { repeat constructor; rewrite ?list_elem_of_In; simpl; intuition discriminate. }
  eexists _, _. split.
  - split; [left; reflexivity|]. split; [reflexivity|]. split; [exact Hnd | simpl; lia].
  - eapply (choose_k_in_range_is_feasible
             ["s_T"; "s_GE"; "s_VZ"] 2 [30%Q; 50%Q; 20%Q]
             [(1#2)%Q; (3#4)%Q; (1#4)%Q] 80%Q).
    + left. reflexivity.
    + reflexivity.
    + exact Hnd.
    + simpl. lia.
Defined.

(** ** The variables of the model *)

Lemma variable_name_inj (a b : string) : "s_" +:+ a = "s_" +:+ b -> a = b.
Proof. simpl. intros H. injection H as H. exact H. Qed.

Lemma NoDup_variable_names stockcodes :
  NoDup stockcodes -> NoDup (map (fun stock => "s_" +:+ stock) stockcodes).
Proof.
  induction 1 as [|c codes Hc Hnd IH]; simpl; constructor; [|exact IH].
  intros Hin. apply Hc.
  apply list_elem_of_In, in_map_iff in Hin as (c' & Heq & Hin).
  apply variable_name_inj in Heq. subst. apply list_elem_of_In. exact Hin.
Qed.

Lemma define_variables_as_names stockcodes :
  Exercise1.define_variables stockcodes
  = map Binary (map (fun stock => "s_" +:+ stock) stockcodes) /\
  Exercise3.define_variables stockcodes
  = map Binary (map (fun stock => "s_" +:+ stock) stockcodes).
Proof.
  unfold Exercise1.define_variables, Exercise3.define_variables.
  rewrite map_map. split; reflexivity.
Qed.

Lemma cqm_variables_of_returned_cqm names k price returns budget cqm :
  Exercise1.define_cqm (map Binary names) k returns = OK cqm \/
  Exercise3.define_cqm (map Binary names) k price returns budget = OK cqm ->
  cqm_variables cqm = add_variables_from names [].
Proof.
  intros [H|H].
  - destruct (proj1 (define_cqm1_returns_iff names k returns)) as [Hne Hlen];
      [eexists; exact H|].
    destruct (define_cqm1_builds names k returns Hne Hlen)
      as (l & obj & _ & _ & _ & _ & Heq).
    rewrite Heq in H. injection H as <-. reflexivity.
  - destruct (proj1 (define_cqm3_returns_iff names k price returns budget))
      as [Hne Hlen]; [eexists; exact H|].
    destruct (define_cqm3_builds names k price returns budget Hne Hlen)
      as (l & obj & _ & _ & _ & _ & Heq).
    rewrite Heq in H. injection H as <-. reflexivity.
Qed.

(** X8: from [define_variables] to the CQM.  The CQM that [define_cqm]
    returns for [define_variables(stockcodes)] registers each variable once;
    its variables are the names "s_" + code of the stock codes; and when the
    codes are pairwise different there is one variable per code, in the
    order of the codes.  (A code listed twice gives one variable, not
    two.) *)
Theorem cqm_variables_follow_stockcodes (stockcodes : list string) (k : Z)
    (price returns : list Q) (budget : Q) (cqm : ConstrainedQuadraticModel) :
  Exercise1.define_cqm (Exercise1.define_variables stockcodes) k returns = OK cqm \/
  Exercise3.define_cqm (Exercise3.define_variables stockcodes) k price returns budget
  = OK cqm ->
  NoDup (cqm_variables cqm) /\
  (forall v, In v (cqm_variables cqm)
             <-> exists stock, In stock stockcodes /\ v = "s_" +:+ stock) /\
  (NoDup stockcodes ->
   cqm_variables cqm = map (fun stock => "s_" +:+ stock) stockcodes).
Proof.
  intros H.
  destruct (define_variables_as_names stockcodes) as [E1 E3].
  rewrite E1, E3 in H.
  rewrite (cqm_variables_of_returned_cqm _ _ _ _ _ _ H).
  split; [|split].
  - apply NoDup_add_variables_from. constructor.
  - intros v. rewrite in_add_variables_from, in_map_iff. split.
    + intros [(c & <- & Hc)|[]]. eauto.
    + intros (c & Hc & ->). left. eauto.
  - intros Hnd. apply (add_variables_from_NoDup _ []). simpl.
    apply NoDup_variable_names. exact Hnd.
Qed.

Lemma cqm_variables_follow_stockcodes_witness :
  exists cqm,
    (Exercise1.define_cqm (Exercise1.define_variables ["T"; "GE"; "T"]) 1
                          [(1#2)%Q; (3#4)%Q; (1#4)%Q] = OK cqm \/
     Exercise3.define_cqm (Exercise3.define_variables ["T"; "GE"; "T"]) 1
                          [30%Q; 50%Q; 30%Q] [(1#2)%Q; (3#4)%Q; (1#4)%Q] 80%Q
     = OK cqm) /\
    cqm_variables cqm = ["s_T"; "s_GE"] /\
    NoDup (cqm_variables cqm) /\
    (forall v, In v (cqm_variables cqm)
               <-> exists stock, In stock ["T"; "GE"; "T"] /\ v = "s_" +:+ stock) /\
    (NoDup ["T"; "GE"; "T"] ->
     cqm_variables cqm = map (fun stock => "s_" +:+ stock) ["T"; "GE"; "T"]).
Proof.
  eexists. split; [left; reflexivity|]. split; [reflexivity|].
  eapply (cqm_variables_follow_stockcodes
            ["T"; "GE"; "T"] 1 [30%Q; 50%Q; 30%Q] [(1#2)%Q; (3#4)%Q; (1#4)%Q] 80%Q).
  left. reflexivity.
Defined.

(** ** Runs that stop early *)




(** ** No entries *)

(** X10: [generate_unique_covar_matrix_entries n] is empty exactly when
    [n <= 0] (zero or negative: [range] of it is empty); from [n = 1] on it
    starts with the pair [(0, 0)]. *)
Theorem covar_entries_empty_iff (n : Z) :
  (Exercise3.generate_unique_covar_matrix_entries n = [] <-> (n <= 0)%Z) /\
  ((1 <= n)%Z ->
   exists rest,
     Exercise3.generate_unique_covar_matrix_entries n = (0, 0)%Z :: rest).
Proof.
  assert (Hpos : (1 <= n)%Z ->
                 exists rest,
                   Exercise3.generate_unique_covar_matrix_entries n
                   = (0, 0)%Z :: rest).
  { intros Hn.
    unfold Exercise3.generate_unique_covar_matrix_entries, Exercise3.product2,
           Exercise3.range.
    destruct (Z.to_nat n) as [|m] eqn:E; [lia|].
    simpl. eexists. reflexivity. }
  split; [|exact Hpos].
  split.
  - intros Hnil. destruct (Z_le_gt_dec n 0) as [|Hgt]; [assumption|].
    destruct Hpos as [rest Hrest]; [lia|]. rewrite Hrest in Hnil. discriminate.
  - intros Hn.
    unfold Exercise3.generate_unique_covar_matrix_entries, Exercise3.range.
    replace (Z.to_nat n) with 0 by lia. reflexivity.
Qed.

Lemma covar_entries_empty_iff_witness :
  (1 <= 2)%Z /\
  (Exercise3.generate_unique_covar_matrix_entries (-2) = [] <-> (-2 <= 0)%Z) /\
  exists rest, Exercise3.generate_unique_covar_matrix_entries 2 = (0, 0)%Z :: rest.
Proof.
  split; [lia|]. split.
  - apply (covar_entries_empty_iff (-2)).
  - apply (covar_entries_empty_iff 2). lia.
Defined.

(** ** References and values *)

Lemma define_cqm1_agrees_witness :
  (sample_heap !! 2 = Some (Heap.OList [0; 1]) /\
   Forall2 (HeapSpec.points sample_heap) [0; 1] [Binary "s_T"; Binary "s_GE"] /\
   sample_heap !! 3 = Some (Heap.ONums [(1#2)%Q; (3#4)%Q])) /\
  exists h' cqm,
    Exercise1.define_cqm [Binary "s_T"; Binary "s_GE"] 1 [(1#2)%Q; (3#4)%Q] = OK cqm /\
    Exercise1Heap.define_cqm 2 1 3 sample_heap = (h', OK (length sample_heap)) /\
    h' !! length sample_heap = Some (Heap.OCqm cqm).
Proof.
  assert (Hp : Forall2 (HeapSpec.points sample_heap) [0; 1]
                       [Binary "s_T"; Binary "s_GE"]).
  { repeat constructor. }
  split; [split; [reflexivity | split; [exact Hp | reflexivity]]|].
  destruct (HeapAgreement.define_cqm1_agrees
              sample_heap 2 3 [0; 1] [Binary "s_T"; Binary "s_GE"]
              [(1#2)%Q; (3#4)%Q] 1 eq_refl Hp eq_refl) as [h' H].
  destruct (Exercise1.define_cqm [Binary "s_T"; Binary "s_GE"] 1 [(1#2)%Q; (3#4)%Q])
    as [cqm|e] eqn:E; [|discriminate E].
  exists h', cqm. destruct H as [H1 H2]. auto.
Defined.

Lemma define_cqm3_agrees_witness :
  (sample_heap !! 2 = Some (Heap.OList [0; 1]) /\
   Forall2 (HeapSpec.points sample_heap) [0; 1] [Binary "s_T"; Binary "s_GE"] /\
   sample_heap !! 4 = Some (Heap.ONums [30%Q; 50%Q]) /\
   sample_heap !! 3 = Some (Heap.ONums [(1#2)%Q; (3#4)%Q])) /\
  exists h' cqm,
    Exercise3.define_cqm [Binary "s_T"; Binary "s_GE"] 1 [30%Q; 50%Q]
                         [(1#2)%Q; (3#4)%Q] 80%Q = OK cqm /\
    Exercise3Heap.define_cqm 2 1 4 3 80%Q sample_heap
    = (h', OK (length sample_heap)) /\
    h' !! length sample_heap = Some (Heap.OCqm cqm).
Proof.
  assert (Hp : Forall2 (HeapSpec.points sample_heap) [0; 1]
                       [Binary "s_T"; Binary "s_GE"]).
  { repeat constructor. }
  split; [split; [reflexivity | split; [exact Hp | split; reflexivity]]|].
  destruct (HeapAgreement.define_cqm3_agrees
              sample_heap 2 4 3 [0; 1] [Binary "s_T"; Binary "s_GE"]
              [30%Q; 50%Q] [(1#2)%Q; (3#4)%Q] 1 80%Q eq_refl Hp eq_refl eq_refl)
    as [h' H].
  destruct (Exercise3.define_cqm [Binary "s_T"; Binary "s_GE"] 1 [30%Q; 50%Q]
                                 [(1#2)%Q; (3#4)%Q] 80%Q)
    as [cqm|e] eqn:E; [|discriminate E].
  exists h', cqm. destruct H as [H1 H2]. auto.
Defined.

(** ** The order of the stocks *)

Lemma linear_energy_Permutation s l l' :
  Permutation l l' -> (linear_energy l s == linear_energy l' s)%Q.
Proof.
  induction 1 as [|[v b] l l' _ IH|[v b] [u c] l|l1 l2 l3 _ IH1 _ IH2]; simpl.
  - reflexivity.
  - rewrite IH. reflexivity.
  - ring.
  - rewrite IH1. exact IH2.
Qed.

Lemma selected_Permutation s l l' :
  Permutation l l' -> selected s l = selected s l'.
Proof.
  unfold selected.
  induction 1 as [|x l l' _ IH|x y l|l1 l2 l3 _ IH1 _ IH2]; simpl.
  - reflexivity.
  - destruct (s x); simpl; congruence.
  - destruct (s x), (s y); reflexivity.
  - congruence.
Qed.

Lemma zip3_names (names : list string) (price returns : list Q) :
  length price = length names -> length returns = length names ->
  map fst (zip names (zip price returns)) = names /\
  map (fun t => (fst t, fst (snd t))) (zip names (zip price returns)) = zip names price /\
  map (fun t => (fst t, snd (snd t))) (zip names (zip price returns)) = zip names returns.
Proof.
  revert price returns.
  induction names as [|n names IH]; intros [|p price] [|r returns] Hp Hr;
    simpl in *; try lia; [auto|].
  destruct (IH price returns) as (H1 & H2 & H3); [lia | lia |].
  rewrite H1, H2, H3. auto.
Qed.

Lemma objective_of_returned_cqm names k price returns budget cqm :
  Exercise1.define_cqm (map Binary names) k returns = OK cqm \/
  Exercise3.define_cqm (map Binary names) k price returns budget = OK cqm ->
  negated_return_objective names returns (objective cqm).
Proof.
  intros [H|H].
  - destruct (define_cqm1_ok_inv _ _ _ _ H) as (l & obj & _ & _ & _ & Hobj & _ & ->).
    apply negated_return_objective_intro. exact Hobj.
  - destruct (define_cqm3_ok_inv _ _ _ _ _ _ H)
      as (l & q & obj & _ & _ & _ & _ & Hobj & _ & ->).
    apply negated_return_objective_intro. exact Hobj.
Qed.

Lemma constraints_of_returned_cqm3 names k price returns budget cqm :
  Exercise3.define_cqm (map Binary names) k price returns budget = OK cqm ->
  exists c b,
    constraints cqm = [("choose k stocks", c); ("budget_limitation", b)] /\
    asserts_choose_k names k c /\
    asserts_budget names price budget b.
Proof.
  intros H.
  destruct (proj1 (define_cqm3_returns_iff names k price returns budget))
    as [Hne Hlen]; [eexists; exact H|].
  destruct (define_cqm3_builds names k price returns budget Hne Hlen)
    as (l & obj & Hl & _ & _ & _ & Heq).
  rewrite Heq in H. injection H as <-.
  eexists _, _. split; [reflexivity|]. split.
  - apply asserts_choose_k_intro. exact Hl.
  - apply asserts_budget_intro.
Qed.

Lemma constraints_of_returned_cqm1 names k returns cqm :
  Exercise1.define_cqm (map Binary names) k returns = OK cqm ->
  exists c,
    constraints cqm = [("choose k stocks", c)] /\
    asserts_choose_k names k c.
Proof.
  intros H.
  destruct (define_cqm1_ok_inv _ _ _ _ H) as (l & obj & _ & _ & Hl & _ & Hc & _).
  eexists. split; [exact Hc|]. apply asserts_choose_k_intro. exact Hl.
Qed.

Lemma bool_eq_of_iff (b1 b2 : bool) (P : Prop) :
  (b1 = true <-> P) -> (b2 = true <-> P) -> b1 = b2.
Proof.
  intros H1 H2. destruct b1, b2; try reflexivity.
  - symmetry. apply H2, H1. reflexivity.
  - apply H1, H2. reflexivity.
Qed.

Lemma choose_k_same names1 names2 k c1 c2 s :
  Permutation names1 names2 ->
  asserts_choose_k names1 k c1 -> asserts_choose_k names2 k c2 ->
  satisfied c1 s = satisfied c2 s.
Proof.
  intros Hp (_ & _ & _ & _ & H1) (_ & _ & _ & _ & H2).
  apply (bool_eq_of_iff _ _ (Z.of_nat (selected s names1) = k)); [apply H1|].
  rewrite (selected_Permutation s _ _ Hp). apply H2.
Qed.

Lemma budget_same names1 names2 price1 price2 budget b1 b2 s :
  Permutation (zip names1 price1) (zip names2 price2) ->
  asserts_budget names1 price1 budget b1 -> asserts_budget names2 price2 budget b2 ->
  satisfied b1 s = satisfied b2 s.
Proof.
  intros Hp (_ & _ & _ & H1) (_ & _ & _ & H2).
  apply (bool_eq_of_iff _ _ (total_price names1 price1 s <= budget)%Q); [apply H1|].
  unfold total_price. rewrite (linear_energy_Permutation s _ _ Hp). apply H2.
Qed.

Lemma objective_same names1 names2 returns1 returns2 obj1 obj2 s :
  Permutation (zip names1 returns1) (zip names2 returns2) ->
  negated_return_objective names1 returns1 obj1 ->
  negated_return_objective names2 returns2 obj2 ->
  (energy obj1 s == energy obj2 s)%Q.
Proof.
  intros Hp (_ & _ & H1 & _) (_ & _ & H2 & _).
  rewrite H1, H2. unfold total_return.
  rewrite (linear_energy_Permutation s _ _ Hp). reflexivity.
Qed.

(** X13: the order in which the stocks are listed does not matter.  When
    pairwise different stock variables, with their prices and returns, are
    listed in another order, [define_cqm] of either script returns a CQM
    with the same constraint labels, the same objective value under every
    assignment, and constraints that the same assignments satisfy. *)
Theorem define_cqm_order_of_stocks_is_irrelevant
    (names1 names2 : list string) (price1 price2 returns1 returns2 : list Q)
    (k : Z) (budget : Q) (cqm1 cqm2 : ConstrainedQuadraticModel) :
  NoDup names1 ->
  length price1 = length names1 -> length returns1 = length names1 ->
  length price2 = length names2 -> length returns2 = length names2 ->
  Permutation (zip names1 (zip price1 returns1)) (zip names2 (zip price2 returns2)) ->
  (Exercise1.define_cqm (map Binary names1) k returns1 = OK cqm1 /\
   Exercise1.define_cqm (map Binary names2) k returns2 = OK cqm2) \/
  (Exercise3.define_cqm (map Binary names1) k price1 returns1 budget = OK cqm1 /\
   Exercise3.define_cqm (map Binary names2) k price2 returns2 budget = OK cqm2) ->
  equivalent_cqm cqm1 cqm2.
Proof.
  intros _ Hp1 Hr1 Hp2 Hr2 Hperm H.
  destruct (zip3_names names1 price1 returns1 Hp1 Hr1) as (N1 & P1 & R1).
  destruct (zip3_names names2 price2 returns2 Hp2 Hr2) as (N2 & P2 & R2).
  assert (HN : Permutation names1 names2).
  { rewrite <- N1, <- N2. apply Permutation_map. exact Hperm. }
  assert (HP : Permutation (zip names1 price1) (zip names2 price2)).
  { rewrite <- P1, <- P2. apply Permutation_map. exact Hperm. }
  assert (HR : Permutation (zip names1 returns1) (zip names2 returns2)).
  { rewrite <- R1, <- R2. apply Permutation_map. exact Hperm. }
  assert (Hobj : forall s, (energy (objective cqm1) s == energy (objective cqm2) s)%Q).
  { intros s.
    apply (objective_same names1 names2 returns1 returns2 _ _ s HR).
    - apply (objective_of_returned_cqm names1 k price1 returns1 budget).
      destruct H as [[H _]|[H _]]; auto.
    - apply (objective_of_returned_cqm names2 k price2 returns2 budget).
      destruct H as [[_ H]|[_ H]]; auto. }
  destruct H as [[H1 H2]|[H1 H2]].
  - destruct (constraints_of_returned_cqm1 _ _ _ _ H1) as (c1 & E1 & A1).
    destruct (constraints_of_returned_cqm1 _ _ _ _ H2) as (c2 & E2 & A2).
    split; [rewrite E1, E2; reflexivity|].
    intros s. split; [apply Hobj|].
    intros label x1 x2. rewrite E1, E2. cbn [find_constraint].
    destruct (String.eqb "choose k stocks" label); [|discriminate].
    intros [= <-] [= <-]. apply (choose_k_same names1 names2 k); assumption.
  - destruct (constraints_of_returned_cqm3 _ _ _ _ _ _ H1) as (c1 & b1 & E1 & A1 & B1).
    destruct (constraints_of_returned_cqm3 _ _ _ _ _ _ H2) as (c2 & b2 & E2 & A2 & B2).
    split; [rewrite E1, E2; reflexivity|].
    intros s. split; [apply Hobj|].
    intros label x1 x2. rewrite E1, E2. cbn [find_constraint].
    destruct (String.eqb "choose k stocks" label).
    + intros [= <-] [= <-]. apply (choose_k_same names1 names2 k); assumption.
    + destruct (String.eqb "budget_limitation" label); [|discriminate].
      intros [= <-] [= <-].
      apply (budget_same names1 names2 price1 price2 budget); assumption.
Qed.

Lemma define_cqm_order_of_stocks_is_irrelevant_witness :
  exists cqm1 cqm2,
    (NoDup ["s_T"; "s_GE"] /\
     length [30%Q; 50%Q] = length ["s_T"; "s_GE"] /\
     length [(1#2)%Q; (3#4)%Q] = length ["s_T"; "s_GE"] /\
     length [50%Q; 30%Q] = length ["s_GE"; "s_T"] /\
     length [(3#4)%Q; (1#2)%Q] = length ["s_GE"; "s_T"] /\
     Permutation (zip ["s_T"; "s_GE"] (zip [30%Q; 50%Q] [(1#2)%Q; (3#4)%Q]))
                 (zip ["s_GE"; "s_T"] (zip [50%Q; 30%Q] [(3#4)%Q; (1#2)%Q])) /\
     Exercise3.define_cqm (map Binary ["s_T"; "s_GE"]) 1 [30%Q; 50%Q]
                          [(1#2)%Q; (3#4)%Q] 80%Q = OK cqm1 /\
     Exercise3.define_cqm (map Binary ["s_GE"; "s_T"]) 1 [50%Q; 30%Q]
                          [(3#4)%Q; (1#2)%Q] 80%Q = OK cqm2) /\
    equivalent_cqm cqm1 cqm2.
Proof.
  assert (Hnd : NoDup ["s_T"; "s_GE"]).
  { repeat constructor; rewrite ?list_elem_of_In; simpl; intuition discriminate. }
  eexists _, _. split.
  - split; [exact Hnd|].
    repeat (split; [reflexivity|]). split; [apply perm_swap|].
    split; reflexivity.
  - eapply (define_cqm_order_of_stocks_is_irrelevant
              ["s_T"; "s_GE"] ["s_GE"; "s_T"] [30%Q; 50%Q] [50%Q; 30%Q]
              [(1#2)%Q; (3#4)%Q] [(3#4)%Q; (1#2)%Q] 1 80%Q);
      try reflexivity.
    + exact Hnd.
    + apply perm_swap.
    + right. split; reflexivity.
Defined.
